(** * Document-Automation: the form-automation engine, embedded and verified

    A shallow embedding of [src/form_filler.py] (value normalisers,
    [fill_field_by_id], [fill_form], [_take_full_page_screenshot]), of
    [src/document_processor.py] ([_load_image], [_parse_json_response] and
    the two extractions) and of the handlers of [src/main.py].

    Python values are modelled as the code uses them:
    - a [str] is a [string], one character for each code point, for the
      strings whose code points are below 256; the operations of [str] that
      the code calls are in module [Py]; the case maps [Py.lower] and
      [Py.upper] and the digits [strptime] reads are those of the ASCII
      range, and [Py.isascii] ([str.isascii]) tells the strings on which
      they are the whole of what Python does;
    - a value read from an extracted document is a [pyval]: [None] is
      Python's [None], [Some s] a [str];
    - a [dict] with string keys is a [gmap string _];
    - a Python [int] (pixels, scroll offsets) is a [Z];
    - an exception is a [Raise] carrying its message. *)

From Stdlib Require Import ZArith Ascii Lia Bool.
From stdpp Require Import base option list strings gmap pretty.

Local Open Scope Z_scope.

(** ** Python's [str] operations *)

Module Py.

(** [str.isspace] on one character: the whitespace of Unicode below
    code point 256, which is what [strip] and [split] remove. *)
Definition is_space (c : ascii) : bool :=
  match c with
  | "009" | "010" | "011" | "012" | "013"
  | "028" | "029" | "030" | "031" | " "
  | "133" | "160" => true
  | _ => false
  end%char.

(** [s.isascii()]: every code point is below 128. *)
Fixpoint isascii (s : string) : bool :=
  match s with
  | EmptyString => true
  | String c r => (nat_of_ascii c <? 128)%nat && isascii r
  end.

Definition is_upper (c : ascii) : bool :=
  (65 <=? nat_of_ascii c)%nat && (nat_of_ascii c <=? 90)%nat.

Definition is_lower (c : ascii) : bool :=
  (97 <=? nat_of_ascii c)%nat && (nat_of_ascii c <=? 122)%nat.

Definition lower_char (c : ascii) : ascii :=
  if is_upper c then ascii_of_nat (nat_of_ascii c + 32) else c.

Definition upper_char (c : ascii) : ascii :=
  if is_lower c then ascii_of_nat (nat_of_ascii c - 32) else c.

Fixpoint map_chars (f : ascii → ascii) (s : string) : string :=
  match s with
  | EmptyString => EmptyString
  | String c r => String (f c) (map_chars f r)
  end.

(** [s.lower()] and [s.upper()] for the letters of the ASCII range.  A
    character above code point 127 is left as it is, which is not what
    Python does with the letters among them: the statements that depend
    on the case of such letters are about ASCII strings. *)
Definition lower : string → string := map_chars lower_char.
Definition upper : string → string := map_chars upper_char.

Fixpoint lstrip (s : string) : string :=
  match s with
  | EmptyString => EmptyString
  | String c r => if is_space c then lstrip r else s
  end.

Definition is_empty (s : string) : bool :=
  match s with EmptyString => true | String _ _ => false end.

Fixpoint rstrip (s : string) : string :=
  match s with
  | EmptyString => EmptyString
  | String c r =>
      let r' := rstrip r in
      if is_space c && is_empty r' then EmptyString else String c r'
  end.

(** [s.strip()]. *)
Definition strip (s : string) : string := rstrip (lstrip s).

(** [s.startswith(p)]. *)
Fixpoint startswith (s p : string) : bool :=
  match p, s with
  | EmptyString, _ => true
  | String a p', String b s' => Ascii.eqb a b && startswith s' p'
  | String _ _, EmptyString => false
  end.

(** [s[n:]] and [s[:n]] for [0 <= n]. *)
Fixpoint drop (n : nat) (s : string) : string :=
  match n, s with
  | O, _ => s
  | S n', String _ r => drop n' r
  | S _, EmptyString => EmptyString
  end.

Fixpoint take (n : nat) (s : string) : string :=
  match n, s with
  | O, _ => EmptyString
  | S n', String c r => String c (take n' r)
  | S _, EmptyString => EmptyString
  end.

(** [s.endswith(p)]. *)
Definition endswith (s p : string) : bool :=
  (String.length p <=? String.length s)%nat
  && String.eqb (drop (String.length s - String.length p) s) p.

(** [p in s] for two strings. *)
Fixpoint contains (s p : string) : bool :=
  startswith s p
  || match s with
     | EmptyString => false
     | String _ r => contains r p
     end.

(** [s.find(c)] for a one-character needle; [-1] when it is absent. *)
Fixpoint find (c : ascii) (s : string) : Z :=
  match s with
  | EmptyString => -1
  | String a r =>
      if Ascii.eqb a c then 0
      else let i := find c r in if i <? 0 then -1 else i + 1
  end.

(** [s.rfind(c)] for a one-character needle; [-1] when it is absent. *)
Fixpoint rfind (c : ascii) (s : string) : Z :=
  match s with
  | EmptyString => -1
  | String a r =>
      let i := rfind c r in
      if 0 <=? i then i + 1
      else if Ascii.eqb a c then 0 else -1
  end.

(** [s[i:j]] for [0 <= i] and [0 <= j]. *)
Definition slice (i j : Z) (s : string) : string :=
  take (Z.to_nat j - Z.to_nat i) (drop (Z.to_nat i) s).

(** [s.split()]: the maximal runs of non-whitespace characters, in order.
    [cur] is the token being read, reversed. *)
Fixpoint split_go (cur : option string) (s : string) : list string :=
  match s with
  | EmptyString => option_list (String.rev <$> cur)
  | String c r =>
      if is_space c
      then option_list (String.rev <$> cur) ++ split_go None r
      else split_go (Some (String c (default EmptyString cur))) r
  end.

Definition split : string → list string := split_go None.

End Py.

(** ** Values of an extracted document *)

(** What [dict.get] can return for the documents of this program: [None]
    (the key is missing, or JSON [null]) or a [str]. *)
Definition pyval : Type := option string.

(** Python truthiness: [None] and the empty string are falsy. *)
Definition truthy (v : pyval) : bool :=
  match v with
  | None => false
  | Some s => negb (Py.is_empty s)
  end.

(** [a or b]. *)
Definition py_or (a b : pyval) : pyval := if truthy a then a else b.

(** [v == "N/A"]. *)
Definition is_NA (v : pyval) : bool :=
  match v with
  | None => false
  | Some s => String.eqb s "N/A"
  end.

(** [str(v)]. *)
Definition py_str (v : pyval) : string :=
  match v with
  | None => "None"
  | Some s => s
  end.

(** [d.get(k)]. *)
Definition dict_get (d : gmap string pyval) (k : string) : pyval :=
  match d !! k with
  | Some v => v
  | None => None
  end.

(** [k in d]. *)
Definition dict_has (d : gmap string pyval) (k : string) : bool :=
  bool_decide (is_Some (d !! k)).

(** ** [datetime.strptime(s, "%Y-%m-%d")] and [strftime("%m/%d/%Y")] *)

Module Datetime.

Definition is_digit (c : ascii) : bool :=
  (48 <=? nat_of_ascii c)%nat && (nat_of_ascii c <=? 57)%nat.

Definition digit_val (c : ascii) : Z := Z.of_nat (nat_of_ascii c) - 48.

Definition digit_char (n : Z) : ascii := ascii_of_nat (Z.to_nat (n + 48)).

Definition in_range (lo hi : Z) (c : ascii) : bool :=
  is_digit c && (lo <=? digit_val c) && (digit_val c <=? hi).

(** The directive [%m]: the alternatives [1[0-2]], [0[1-9]], [[1-9]] of
    CPython's [_strptime], tried in that order.  Returns the month and the
    rest of the input. *)
Definition parse_month (s : string) : option (Z * string) :=
  match s with
  | String a (String b r) =>
      if Ascii.eqb a "1" && in_range 0 2 b then Some (10 + digit_val b, r)
      else if Ascii.eqb a "0" && in_range 1 9 b then Some (digit_val b, r)
      else if in_range 1 9 a then Some (digit_val a, String b r)
      else None
  | String a EmptyString =>
      if in_range 1 9 a then Some (digit_val a, EmptyString) else None
  | EmptyString => None
  end.

(** The directive [%d]: the alternatives [3[0-1]], [[1-2]\d], [0[1-9]],
    [[1-9]], [ [1-9]], tried in that order. *)
Definition parse_day (s : string) : option (Z * string) :=
  match s with
  | String a (String b r) =>
      if Ascii.eqb a "3" && in_range 0 1 b then Some (30 + digit_val b, r)
      else if in_range 1 2 a && is_digit b
           then Some (10 * digit_val a + digit_val b, r)
      else if Ascii.eqb a "0" && in_range 1 9 b then Some (digit_val b, r)
      else if in_range 1 9 a then Some (digit_val a, String b r)
      else if Ascii.eqb a " " && in_range 1 9 b then Some (digit_val b, r)
      else None
  | String a EmptyString =>
      if in_range 1 9 a then Some (digit_val a, EmptyString) else None
  | EmptyString => None
  end.

Definition is_leap (y : Z) : bool :=
  (y mod 4 =? 0) && (negb (y mod 100 =? 0) || (y mod 400 =? 0)).

Definition days_in_month (y m : Z) : Z :=
  if m =? 2 then (if is_leap y then 29 else 28)
  else if (m =? 4) || (m =? 6) || (m =? 9) || (m =? 11) then 30
  else 31.

(** The range check of the [date] constructor. *)
Definition valid_date (y m d : Z) : bool :=
  (1 <=? y) && (y <=? 9999) && (1 <=? m) && (m <=? 12)
  && (1 <=? d) && (d <=? days_in_month y m).

(** [datetime.strptime(s, "%Y-%m-%d")]; [None] is its [ValueError]:
    the pattern does not match at the start of [s], unconverted data
    remains, or the numbers are no calendar date.  The digits read are
    "0" to "9"; the other decimal digits of Unicode, which [\d] of the
    pattern reads too, have code points above 255. *)
Definition strptime (s : string) : option (Z * Z * Z) :=
  match s with
  | String y1 (String y2 (String y3 (String y4 (String "-" r)))) =>
      if is_digit y1 && is_digit y2 && is_digit y3 && is_digit y4 then
        let y := 1000 * digit_val y1 + 100 * digit_val y2
                 + 10 * digit_val y3 + digit_val y4 in
        match parse_month r with
        | Some (m, String "-" r') =>
            match parse_day r' with
            | Some (d, EmptyString) =>
                if valid_date y m d then Some (y, m, d) else None
            | _ => None
            end
        | _ => None
        end
      else None
  | _ => None
  end.

Definition two_digits (n : Z) : string :=
  String (digit_char (n / 10)) (String (digit_char (n mod 10)) EmptyString).

Definition four_digits (n : Z) : string :=
  String (digit_char (n / 1000))
    (String (digit_char (n / 100 mod 10))
       (String (digit_char (n / 10 mod 10))
          (String (digit_char (n mod 10)) EmptyString))).

(** The directive [%Y] as CPython 3.11 prints it through the C library
    of Linux (glibc): the year in decimal with no padding, so a year
    below 1000 has fewer than four digits. *)
Definition year_digits (y : Z) : string :=
  if y <? 10 then String (digit_char y) EmptyString
  else if y <? 100 then two_digits y
  else if y <? 1000 then
    String (digit_char (y / 100)) (two_digits (y mod 100))
  else four_digits y.

(** [dt.strftime("%m/%d/%Y")]. *)
Definition strftime (y m d : Z) : string :=
  two_digits m +:+ "/" +:+ two_digits d +:+ "/" +:+ year_digits y.

End Datetime.

(** ** The value normalisers of [fill_form] *)

(** An exception that leaves a function: [Raise msg]. *)
Inductive py_result (A : Type) : Type :=
| Return (a : A)
| Raise (msg : string).
Arguments Return {A} a.
Arguments Raise {A} msg.

(** [format_date]: the [try] catches everything [strptime] raises. *)
Definition format_date (date_str : pyval) : pyval :=
  if negb (truthy date_str) || is_NA date_str then None
  else
    match date_str with
    | Some s =>
        match Datetime.strptime s with
        | Some (y, m, d) => Some (Datetime.strftime y m d)
        | None => date_str
        end
    | None => date_str
    end.

(** [format_gender]. *)
Definition format_gender (gender_str : pyval) : pyval :=
  if negb (truthy gender_str) || is_NA gender_str then None
  else
    let gender_lower := Py.lower (py_str gender_str) in
    if Py.contains gender_lower "female" || String.eqb gender_lower "f"
    then Some "F"
    else if Py.contains gender_lower "male" || String.eqb gender_lower "m"
    then Some "M"
    else gender_str.

(** The table of [format_state], in the order of the source. *)
Definition state_abbrev_list : list (string * string) :=
  [ ("AL", "Alabama"); ("AK", "Alaska"); ("AZ", "Arizona"); ("AR", "Arkansas");
    ("CA", "California"); ("CO", "Colorado"); ("CT", "Connecticut");
    ("DE", "Delaware"); ("DC", "District of Columbia"); ("FL", "Florida");
    ("GA", "Georgia"); ("HI", "Hawaii"); ("ID", "Idaho"); ("IL", "Illinois");
    ("IN", "Indiana"); ("IA", "Iowa"); ("KS", "Kansas"); ("KY", "Kentucky");
    ("LA", "Louisiana"); ("ME", "Maine"); ("MD", "Maryland");
    ("MA", "Massachusetts"); ("MI", "Michigan"); ("MN", "Minnesota");
    ("MS", "Mississippi"); ("MO", "Missouri"); ("MT", "Montana");
    ("NE", "Nebraska"); ("NV", "Nevada"); ("NH", "New Hampshire");
    ("NJ", "New Jersey"); ("NM", "New Mexico"); ("NY", "New York");
    ("NC", "North Carolina"); ("ND", "North Dakota"); ("OH", "Ohio");
    ("OK", "Oklahoma"); ("OR", "Oregon"); ("PA", "Pennsylvania");
    ("RI", "Rhode Island"); ("SC", "South Carolina"); ("SD", "South Dakota");
    ("TN", "Tennessee"); ("TX", "Texas"); ("UT", "Utah"); ("VT", "Vermont");
    ("VA", "Virginia"); ("WA", "Washington"); ("WV", "West Virginia");
    ("WI", "Wisconsin"); ("WY", "Wyoming") ].

Definition state_abbrev_map : gmap string string :=
  list_to_map state_abbrev_list.

(** [format_state]. *)
Definition format_state (state_str : pyval) : pyval :=
  if negb (truthy state_str) || is_NA state_str then None
  else
    let state_upper := Py.strip (Py.upper (py_str state_str)) in
    match state_abbrev_map !! state_upper with
    | Some full => Some full
    | None => state_str
    end.

(** ** The page and Selenium's view of it *)

(** One [<option>] of a [<select>]: its visible text and its [value]
    attribute. *)
Record select_option : Type := {
  text : string;
  value : string
}.

(** What [fill_field_by_id] reads from a [WebElement]. [interactable] tells
    whether [clear()] and [send_keys()] succeed on it (they raise
    otherwise). *)
Record element : Type := {
  is_displayed : bool;
  tag_name : string;
  type_attribute : option string;
  options : list select_option;
  interactable : bool
}.

(** What a fill does to the page. *)
Inductive action : Type :=
| Select_option (field_id : string) (o : select_option)
| Send_keys (field_id : string) (keys : string).

(** The two lists [fill_form] creates and its closures append to, and the
    page actions performed so far. *)
Record run_state : Type := {
  st_filled_fields : list string;
  st_errors : list string;
  st_actions : list action
}.

(** [Select.select_by_visible_text]: the first option with that text;
    [NoSuchElementException] when there is none. *)
Definition select_by_visible_text (opts : list select_option) (t : string)
  : py_result select_option :=
  match List.find (λ o, String.eqb (text o) t) opts with
  | Some o => Return o
  | None => Raise ("Could not locate element with visible text: " +:+ t)
  end.

(** [Select.select_by_value]. *)
Definition select_by_value (opts : list select_option) (v : string)
  : py_result select_option :=
  match List.find (λ o, String.eqb (value o) v) opts with
  | Some o => Return o
  | None => Raise ("Cannot locate option with value: " +:+ v)
  end.

(** The test of the partial-match loop. *)
Definition partial_match (v : string) (o : select_option) : bool :=
  Py.contains (Py.lower (text o)) (Py.lower v)
  || Py.contains (Py.lower v) (Py.lower (text o)).

(** The [select] branch of [fill_field_by_id]: the option that ends up
    selected, [None] when the loop finds no option and nothing is selected.
    An exception of the selection inside the loop leaves the branch. *)
Definition select_branch (opts : list select_option) (v : string)
  : py_result (option select_option) :=
  match select_by_visible_text opts v with
  | Return o => Return (Some o)
  | Raise _ =>
      match select_by_value opts v with
      | Return o => Return (Some o)
      | Raise _ =>
          match List.find (partial_match v) opts with
          | Some o =>
              match select_by_visible_text opts (text o) with
              | Return o' => Return (Some o')
              | Raise e => Raise e
              end
          | None => Return None
          end
      end
  end.

(** The bookkeeping at the end of the [try] block of [fill_field_by_id]. *)
Definition record_fill (field_id field_name : string) (acts : list action)
    (st : run_state) : run_state :=
  let display_name := if Py.is_empty field_name then field_id else field_name in
  {| st_filled_fields := st_filled_fields st ++ [display_name];
     st_errors := st_errors st;
     st_actions := st_actions st ++ acts |}.

(** [fill_field_by_id]; [pg] maps the ids present in the page to their
    elements, so a missing id is [find_element]'s exception. *)
Definition fill_field_by_id (pg : gmap string element)
    (field_id : string) (v : pyval) (field_name : string) (st : run_state)
  : bool * run_state :=
  if negb (truthy v) || is_NA v || bool_decide (v = Some "") then (false, st)
  else
    match pg !! field_id with
    | None => (false, st)
    | Some el =>
        if is_displayed el then
          let tag := Py.lower (tag_name el) in
          let input_type := default "" (type_attribute el) in
          if String.eqb tag "select" then
            match select_branch (options el) (py_str v) with
            | Return sel =>
                (true, record_fill field_id field_name
                         (option_list (Select_option field_id <$> sel)) st)
            | Raise _ => (false, st)
            end
          else if String.eqb input_type "date" then
            let formatted_value :=
              if Py.contains (py_str v) "-" then format_date v else v in
            if interactable el
            then (true, record_fill field_id field_name
                          [Send_keys field_id (py_str formatted_value)] st)
            else (false, st)
          else
            if interactable el
            then (true, record_fill field_id field_name
                          [Send_keys field_id (py_str v)] st)
            else (false, st)
        else (false, st)
    end.

(** ** [_take_full_page_screenshot] *)

(** One entry of [screenshots]: the scroll position it was taken at and the
    height of the image. *)
Record tile : Type := {
  scroll_pos : Z;
  img_height : Z
}.

(** One [paste] into the canvas: where, and the crop of the tile pasted. *)
Record paste : Type := {
  paste_y : Z;
  crop_top : Z;
  crop_bottom : Z
}.

Definition paste_height (p : paste) : Z := crop_bottom p - crop_top p.

(** The [while] loop.  [image_height] is the height of the PNG the browser
    returns for the window, in image pixels; the window is not resized
    inside the loop, so every screenshot has it.  [None]: the loop has not
    ended within [fuel] iterations. *)
Fixpoint capture_tiles (fuel : nat)
    (total_height viewport_height image_height : Z)
    (scroll_position : Z) : option (list tile) :=
  match fuel with
  | O => None
  | S fuel' =>
      if scroll_position <? total_height then
        let shot := {| scroll_pos := scroll_position;
                       img_height := image_height |} in
        let next_position := scroll_position + viewport_height in
        if next_position >=? total_height then Some [shot]
        else
          cons shot <$> capture_tiles fuel' total_height viewport_height
                          image_height (next_position - 20)
      else Some []
  end.

(** The stitching loop, from [last_end]. *)
Fixpoint stitch (total_height : Z) (last_end : Z) (screenshots : list tile)
  : list paste :=
  match screenshots with
  | [] => []
  | img :: rest =>
      let y := Z.max (scroll_pos img) last_end in
      let top := y - scroll_pos img in
      let remaining_height := total_height - y in
      let bottom :=
        if remaining_height <? img_height img - top
        then top + remaining_height
        else img_height img in
      {| paste_y := y; crop_top := top; crop_bottom := bottom |}
        :: stitch total_height (y + (bottom - top)) rest
  end.

(** The answers of the browser to the script calls of the function, and
    the height of the PNG of a screenshot ([img.height]): the viewport
    height times the device pixel ratio. *)
Record page_metrics : Type := {
  original_size : Z * Z;
  total_width : Z;
  total_height : Z;
  viewport_height : Z;
  viewport_width : Z;
  image_height : Z
}.

Inductive driver_call : Type :=
| Set_window_size (w h : Z)
| Save_screenshot (path : string)
| Scroll_to (y : Z)
| Get_screenshot_as_png.

(** What is written to [screenshot_path]. *)
Inductive saved_image : Type :=
| Viewport_shot
| Single_tile (t : tile)
| Canvas (width height : Z) (pastes : list paste).

Definition max_window_height : Z := 32767.
Definition max_window_width : Z := 1920.

Definition tile_calls (screenshots : list tile) : list driver_call :=
  flat_map (λ t, [Scroll_to (scroll_pos t); Get_screenshot_as_png]) screenshots.

(** [_take_full_page_screenshot]: the driver calls it makes, in order, and
    the image it saves.  [None]: the tiling loop has not ended within
    [fuel] iterations. *)
Definition _take_full_page_screenshot (fuel : nat) (pm : page_metrics)
    (screenshot_path : string) : option (list driver_call * saved_image) :=
  let window_width := Z.min (total_width pm) max_window_width in
  let window_height := Z.min (total_height pm) max_window_height in
  let resize := Set_window_size window_width window_height in
  let restore := Set_window_size (original_size pm).1 (original_size pm).2 in
  if total_height pm <=? viewport_height pm then
    Some ([resize; Save_screenshot screenshot_path; restore], Viewport_shot)
  else
    screenshots ← capture_tiles fuel (total_height pm) (viewport_height pm)
                    (image_height pm) 0;
    let calls := [resize] ++ tile_calls screenshots ++ [Scroll_to 0; restore] in
    match screenshots with
    | [t] => Some (calls, Single_tile t)
    | _ =>
        Some (calls,
              Canvas (viewport_width pm) (total_height pm)
                (stitch (total_height pm) 0 screenshots))
    end.

(** Does paste [p] write canvas row [y]? *)
Definition writes_row (y : Z) (p : paste) : bool :=
  (paste_y p <=? y) && (y <? paste_y p + paste_height p).

(** The number of pastes that write canvas row [y]. *)
Definition times_written (y : Z) (pastes : list paste) : nat :=
  length (List.filter (writes_row y) pastes).

(** The pastes are laid end to end from [from]: each starts where the one
    before it ended and has at least one row; the last ends at [to]. *)
Fixpoint end_to_end (from to : Z) (pastes : list paste) : Prop :=
  match pastes with
  | [] => from = to
  | p :: rest =>
      paste_y p = from ∧ 0 < paste_height p
      ∧ end_to_end (from + paste_height p) to rest
  end.

(** The same without the rows: each paste starts where the one before it
    ended and may be empty; the last ends at [to]. *)
Fixpoint abutting (from to : Z) (pastes : list paste) : Prop :=
  match pastes with
  | [] => from = to
  | p :: rest =>
      paste_y p = from ∧ 0 ≤ paste_height p
      ∧ abutting (from + paste_height p) to rest
  end.

(** How many screenshots a run of the function takes. *)
Definition is_capture (c : driver_call) : bool :=
  match c with
  | Save_screenshot _ | Get_screenshot_as_png => true
  | _ => false
  end.

Definition is_scroll (c : driver_call) : bool :=
  match c with
  | Scroll_to _ => true
  | _ => false
  end.

(** ** [fill_form] *)

(** How a call into Selenium ends. *)
Inductive outcome : Type :=
| Ok
| Fails (msg : string).

(** The browser as [fill_form] meets it. *)
Record browser : Type := {
  (** [ChromeDriverManager().install()] and [webdriver.Chrome(service=...)] *)
  managed_driver : outcome;
  (** [webdriver.Chrome(options=...)], the fallback *)
  system_driver : outcome;
  (** [driver.get(self.form_url)] *)
  navigation : outcome;
  (** [driver.find_elements] in [_analyze_form_structure] *)
  form_scan : outcome;
  (** the elements of the form, by id *)
  page : gmap string element;
  (** the driver calls of [_take_full_page_screenshot] *)
  capture : outcome;
  page_size : page_metrics
}.

(** The statements of the main [try] block run on the state of the two
    lists; one of them may raise, and the screenshot loop may not end
    ([None]). *)
Definition exec (A : Type) : Type :=
  run_state → option (py_result A * run_state).

#[export] Instance exec_ret : MRet exec :=
  λ A a st, Some (Return a, st).

#[export] Instance exec_bind : MBind exec :=
  λ A B k m st,
    match m st with
    | Some (Return a, st') => k a st'
    | Some (Raise e, st') => Some (Raise e, st')
    | None => None
    end.

Definition call (o : outcome) : exec unit :=
  λ st, match o with
        | Ok => Some (Return tt, st)
        | Fails msg => Some (Raise msg, st)
        end.

Definition eval {A : Type} (r : py_result A) : exec A :=
  λ st, Some (r, st).

(** A call of [fill_field_by_id] as a statement: its result is dropped. *)
Definition fill (pg : gmap string element) (field_id : string) (v : pyval)
    (field_name : string) : exec unit :=
  λ st, Some (Return tt, (fill_field_by_id pg field_id v field_name st).2).

(** [g28_data.get(key) or (g28_data.get("attorney_name", "").split()[i]
    if g28_data.get("attorney_name") else "")], where [pick] is the
    indexing [[-1]] or [[0]], which raises on the empty list. *)
Definition attorney_name_part (pick : list string → option string)
    (g28_data : gmap string pyval) (key : string) : py_result pyval :=
  if truthy (dict_get g28_data key) then Return (dict_get g28_data key)
  else if truthy (dict_get g28_data "attorney_name") then
    match pick (Py.split (py_str (dict_get g28_data "attorney_name"))) with
    | Some token => Return (Some token)
    | None => Raise "list index out of range"
    end
  else Return (Some "").

(** Part 1 of the form, from the G-28 data. *)
Definition fill_part1 (pg : gmap string element)
    (g28_data : gmap string pyval) : exec unit :=
  (if dict_has g28_data "attorney_last_name" || dict_has g28_data "attorney_name"
   then attorney_last ← eval (attorney_name_part last g28_data "attorney_last_name");
        fill pg "family-name" attorney_last "attorney_family_name"
   else mret tt);;
  (if dict_has g28_data "attorney_first_name" || dict_has g28_data "attorney_name"
   then attorney_first ← eval (attorney_name_part head g28_data "attorney_first_name");
        fill pg "given-name" attorney_first "attorney_given_name"
   else mret tt);;
  fill pg "street-number" (dict_get g28_data "attorney_address") "attorney_address";;
  fill pg "city" (dict_get g28_data "attorney_city") "attorney_city";;
  fill pg "state" (format_state (dict_get g28_data "attorney_state")) "attorney_state";;
  fill pg "zip" (dict_get g28_data "attorney_zip") "attorney_zip";;
  fill pg "daytime-phone"
    (py_or (dict_get g28_data "attorney_phone") (dict_get g28_data "daytime_phone"))
    "attorney_phone";;
  fill pg "email" (dict_get g28_data "attorney_email") "attorney_email".

(** Part 2 of the form, from the G-28 data. *)
Definition fill_part2 (pg : gmap string element)
    (g28_data : gmap string pyval) : exec unit :=
  fill pg "bar-number" (dict_get g28_data "bar_number") "bar_number";;
  fill pg "law-firm" (dict_get g28_data "firm_name") "firm_name".

(** Part 3 of the form, from the passport data. *)
Definition fill_part3 (pg : gmap string element)
    (passport_data : gmap string pyval) : exec unit :=
  fill pg "passport-surname" (dict_get passport_data "last_name") "passport_last_name";;
  fill pg "passport-given-names" (dict_get passport_data "first_name") "passport_first_name";;
  fill pg "passport-number" (dict_get passport_data "passport_number") "passport_number";;
  fill pg "passport-country" (dict_get passport_data "issuing_country") "passport_country";;
  fill pg "passport-nationality" (dict_get passport_data "nationality") "passport_nationality";;
  fill pg "passport-dob" (format_date (dict_get passport_data "date_of_birth")) "passport_dob";;
  fill pg "passport-pob" (dict_get passport_data "place_of_birth") "passport_place_of_birth";;
  fill pg "passport-sex" (format_gender (dict_get passport_data "gender")) "passport_sex";;
  fill pg "passport-issue-date" (format_date (dict_get passport_data "date_of_issue"))
    "passport_issue_date";;
  fill pg "passport-expiry-date" (format_date (dict_get passport_data "date_of_expiry"))
    "passport_expiry_date".

(** The call of [_take_full_page_screenshot] as a statement. *)
Definition screenshot_step (fuel : nat) (b : browser) : exec unit :=
  λ st,
    match capture b with
    | Fails msg => Some (Raise msg, st)
    | Ok =>
        match _take_full_page_screenshot fuel (page_size b)
                "uploads/form_filled.png" with
        | Some _ => Some (Return tt, st)
        | None => None
        end
    end.

(** The main [try] block up to the screenshot. *)
Definition fill_stage (b : browser)
    (passport_data g28_data : gmap string pyval) : exec unit :=
  call (navigation b);;
  call (form_scan b);;
  fill_part1 (page b) g28_data;;
  fill_part2 (page b) g28_data;;
  fill_part3 (page b) passport_data.

(** The main [try] block, up to its [return]. *)
Definition fill_form_body (fuel : nat) (b : browser)
    (passport_data g28_data : gmap string pyval) : exec unit :=
  fill_stage b passport_data g28_data;;
  screenshot_step fuel b.

(** [filled_fields = []] and [errors = []]. *)
Definition empty_lists : run_state :=
  {| st_filled_fields := []; st_errors := []; st_actions := [] |}.

(** The dict [fill_form] returns. *)
Record RunResult : Type := {
  filled_fields : list string;
  errors : list string;
  screenshot : option string;
  total_filled : nat
}.

(** The message of the exception of the first [try] block. *)
Definition launch_failure (e2 : string) : string :=
  "Failed to initialize ChromeDriver: " +:+ e2
  +:+ ". Please ensure Chrome browser is installed and ChromeDriver is available.".

(** The first [try] block: the driver, or the exception raised to the
    caller when the fallback fails too.  The test [driver is None] that
    follows it cannot fire: the block binds a driver or raises. *)
Definition launch (b : browser) : outcome :=
  match managed_driver b with
  | Ok => Ok
  | Fails _ =>
      match system_driver b with
      | Ok => Ok
      | Fails e2 => Fails (launch_failure e2)
      end
  end.

(** [fill_form].  [driver.quit()] in the [finally] block has its own
    handler and changes nothing of the result.  [None]: the call has not
    returned within [fuel] iterations of the screenshot loop. *)
Definition fill_form (fuel : nat) (b : browser)
    (passport_data g28_data : gmap string pyval)
  : option (py_result RunResult) :=
  match launch b with
  | Fails msg => Some (Raise msg)
  | Ok =>
      match fill_form_body fuel b passport_data g28_data empty_lists with
      | Some (Return _, st) =>
          Some (Return {| filled_fields := st_filled_fields st;
                          errors := st_errors st;
                          screenshot := Some "form_filled.png";
                          total_filled := length (st_filled_fields st) |})
      | Some (Raise e, st) =>
          Some (Return {| filled_fields := st_filled_fields st;
                          errors := st_errors st ++ [e];
                          screenshot := None;
                          total_filled := length (st_filled_fields st) |})
      | None => None
      end
  end.

(** ** [DocumentProcessor._parse_json_response] *)

(** What the method returns: the value [json.loads] built, or the dict of
    the last line. *)
Inductive response (json : Type) : Type :=
| Parsed (v : json)
| Error_dict (d : gmap string string).
Arguments Parsed {json} v.
Arguments Error_dict {json} d.

(** The first six lines of the method. *)
Definition strip_fences (text : string) : string :=
  let text := Py.strip text in
  let text := if Py.startswith text "```json" then Py.drop 7 text else text in
  let text := if Py.startswith text "```" then Py.drop 3 text else text in
  let text :=
    if Py.endswith text "```"
    then Py.take (String.length text - 3) text else text in
  Py.strip text.

(** The dict of the last line. *)
Definition failure_dict (text : string) : gmap string string :=
  {[ "error" := "Failed to parse response";
     "raw_response" := Py.take 500 text ]}.

(** How a call of [json.loads] ends: with the value it built, with a
    [JSONDecodeError], or with another exception ([ValueError] for an
    integer of more digits than [int] converts, [RecursionError] for a
    document nested too deep), which carries its message. *)
Inductive loads_outcome (json : Type) : Type :=
| Loaded (v : json)
| JSONDecodeError
| Raises (msg : string).
Arguments Loaded {json} v.
Arguments JSONDecodeError {json}.
Arguments Raises {json} msg.

Section ParseJsonResponse.

Context {json : Type} (json_loads : string → loads_outcome json).

(** The two handlers catch [json.JSONDecodeError] only: any other
    exception of [json.loads] leaves the method. *)
Definition _parse_json_response (text : string)
  : py_result (response json) :=
  let text := strip_fences text in
  match json_loads text with
  | Loaded v => Return (Parsed v)
  | Raises msg => Raise msg
  | JSONDecodeError =>
      let start := Py.find "{" text in
      let end_ := Py.rfind "}" text + 1 in
      let failed := Error_dict (failure_dict text) in
      if negb (start =? -1) && (start <? end_) then
        match json_loads (Py.slice start end_ text) with
        | Loaded v => Return (Parsed v)
        | JSONDecodeError => Return failed
        | Raises msg => Raise msg
        end
      else Return failed
  end.

End ParseJsonResponse.

(** ** Vocabulary of the statements about dates *)

(** The eight digits of a date written [YYYY-MM-DD] and [MM/DD/YYYY]. *)
Definition YYYY_MM_DD (y1 y2 y3 y4 m1 m2 d1 d2 : ascii) : string :=
  String y1 (String y2 (String y3 (String y4 (String "-"
    (String m1 (String m2 (String "-" (String d1 (String d2 ""))))))))).

Definition MM_DD_YYYY (y1 y2 y3 y4 m1 m2 d1 d2 : ascii) : string :=
  String m1 (String m2 (String "/" (String d1 (String d2 (String "/"
    (String y1 (String y2 (String y3 (String y4 ""))))))))).

(** A month and a day of two digits each and a year, written
    month/day/year. *)
Definition MM_DD (m1 m2 d1 d2 : ascii) (year : string) : string :=
  String m1 (String m2 (String "/" (String d1 (String d2 (String "/" year))))).

(** The number a run of decimal digits writes. *)
Definition number (digits : list ascii) : Z :=
  foldl (λ n c, 10 * n + Datetime.digit_val c) 0 digits.

(** Four digits, a dash, two digits, a dash, two digits. *)
Definition matches_YYYY_MM_DD (s : string) : bool :=
  match s with
  | String y1 (String y2 (String y3 (String y4 (String "-"
      (String m1 (String m2 (String "-" (String d1 (String d2 ""))))))))) =>
      forallb Datetime.is_digit [y1; y2; y3; y4; m1; m2; d1; d2]
  | _ => false
  end.

Definition digits (cs : list ascii) : Prop :=
  Forall (λ c, Datetime.is_digit c = true) cs.

(** The spellings of month [m] that [%m] reads: two digits, or one digit
    that is not zero. *)
Inductive month_spelling : string → Z → Prop :=
| month_two_digits a b :
    digits [a; b] → 1 ≤ number [a; b] ≤ 12 →
    month_spelling (String a (String b "")) (number [a; b])
| month_one_digit a :
    digits [a] → 1 ≤ number [a] →
    month_spelling (String a "") (number [a]).

(** The spellings of day [d] that [%d] reads: two digits, one digit that is
    not zero, or a space and such a digit. *)
Inductive day_spelling : string → Z → Prop :=
| day_two_digits a b :
    digits [a; b] → 1 ≤ number [a; b] ≤ 31 →
    day_spelling (String a (String b "")) (number [a; b])
| day_one_digit a :
    digits [a] → 1 ≤ number [a] →
    day_spelling (String a "") (number [a])
| day_space_digit a :
    digits [a] → 1 ≤ number [a] →
    day_spelling (String " " (String a "")) (number [a]).

(** [s] spells the calendar date [y]-[m]-[d] in a way [strptime] reads
    under ["%Y-%m-%d"]. *)
Definition date_spelling (s : string) (y m d : Z) : Prop :=
  ∃ y1 y2 y3 y4 M D,
    s = String y1 (String y2 (String y3 (String y4
          (String "-" (M +:+ String "-" D)))))
    ∧ digits [y1; y2; y3; y4] ∧ y = number [y1; y2; y3; y4]
    ∧ month_spelling M m ∧ day_spelling D d
    ∧ Datetime.valid_date y m d = true.

(** ** A sample form and sample documents *)

Definition text_input : element :=
  {| is_displayed := true; tag_name := "input"; type_attribute := Some "text";
     options := []; interactable := true |}.

Definition date_input : element :=
  {| is_displayed := true; tag_name := "input"; type_attribute := Some "date";
     options := []; interactable := true |}.

Definition sex_select : element :=
  {| is_displayed := true; tag_name := "select"; type_attribute := None;
     options := [ {| text := "Male"; value := "M" |};
                  {| text := "Female"; value := "F" |};
                  {| text := "Unspecified"; value := "Male" |} ];
     interactable := true |}.

Definition sample_page : gmap string element :=
  {[ "family-name" := text_input; "given-name" := text_input;
     "city" := text_input; "state" := text_input;
     "passport-surname" := text_input; "passport-dob" := date_input;
     "passport-sex" := sex_select ]}.

Definition sample_metrics : page_metrics :=
  {| original_size := (1280, 900); total_width := 1280; total_height := 3000;
     viewport_height := 900; viewport_width := 1280; image_height := 900 |}.

(** The same page on a display of device pixel ratio 2: the PNG of the
    window is twice as high as the viewport. *)
Definition retina_metrics : page_metrics :=
  {| original_size := (1280, 900); total_width := 1280; total_height := 3000;
     viewport_height := 900; viewport_width := 1280; image_height := 1800 |}.

(** The same page at a device scale factor of one half: the PNG of the
    window is half as high as the viewport. *)
Definition half_scale_metrics : page_metrics :=
  {| original_size := (1280, 900); total_width := 1280; total_height := 3000;
     viewport_height := 900; viewport_width := 1280; image_height := 450 |}.

Definition sample_browser : browser :=
  {| managed_driver := Ok; system_driver := Ok; navigation := Ok;
     form_scan := Ok; page := sample_page; capture := Ok;
     page_size := sample_metrics |}.

(** Neither way of starting Chrome works. *)
Definition no_driver : browser :=
  {| managed_driver := Fails "no chromedriver for this platform";
     system_driver := Fails "chromedriver not in PATH";
     navigation := Ok; form_scan := Ok; page := sample_page; capture := Ok;
     page_size := sample_metrics |}.

Definition sample_g28 : gmap string pyval :=
  {[ "attorney_last_name" := Some "Smith"; "attorney_first_name" := Some "Jane";
     "attorney_state" := Some "CA" ]}.

Definition sample_passport : gmap string pyval :=
  {[ "last_name" := Some "Doe"; "date_of_birth" := Some "1990-01-15";
     "gender" := Some "Female" ]}.

(** The extraction found the combined name only and marked the parts
    "N/A", as its prompt asks. *)
Definition g28_combined_name : gmap string pyval :=
  {[ "attorney_name" := Some "Jane Smith";
     "attorney_last_name" := Some "N/A" ]}.

(** ** Vocabulary of the statements about a run *)

(** A statement that ends, by returning or by raising, from every state,
    and leaves [errors] as it was. *)
Definition ends_keeping_errors {A : Type} (m : exec A) : Prop :=
  ∀ st, ∃ r st', m st = Some (r, st') ∧ st_errors st' = st_errors st.

(** The page fits the viewport, or the viewport is higher than the overlap
    of two tiles. *)
Definition loop_ends (pm : page_metrics) : Prop :=
  total_height pm ≤ viewport_height pm ∨ 20 < viewport_height pm.

(** The dict of the [return] statements of [fill_form], by how the main
    [try] block ended in state [st]. *)
Definition result_of (r : py_result unit) (st : run_state) : RunResult :=
  {| filled_fields := st_filled_fields st;
     errors := match r with Return _ => [] | Raise e => [e] end;
     screenshot := match r with
                   | Return _ => Some "form_filled.png"
                   | Raise _ => None
                   end;
     total_filled := length (st_filled_fields st) |}.

(** The crop of a paste lies inside a tile of height [h] and is not empty. *)
Definition crop_within (h : Z) (p : paste) : Prop :=
  0 ≤ crop_top p ∧ crop_top p < crop_bottom p ∧ crop_bottom p ≤ h.

(** The crop box of paste [p] lies inside an image [h] rows high; it may
    be empty. *)
Definition crop_inside (h : Z) (p : paste) : Prop :=
  0 ≤ crop_top p ∧ crop_top p ≤ crop_bottom p ∧ crop_bottom p ≤ h.

(** One of the two ways of starting Chrome works. *)
Definition launched (b : browser) : Prop :=
  managed_driver b = Ok ∨ system_driver b = Ok.

(** ** Vocabulary of the statements about responses *)

(** Only whitespace. *)
Definition blank (w : string) : Prop := Py.lstrip w = "".

(** Character [c] does not occur in [s]. *)
Definition absent (c : ascii) (s : string) : Prop := Py.find c s = -1.

(** Character [c] does not occur in [s]: [s] cannot be cut at it. *)
Definition lacks (c : ascii) (s : string) : Prop :=
  ∀ a b, s ≠ a +:+ String c b.

(** A text of 5000 digits. *)
Definition long_integer : string :=
  String.string_of_list_ascii (replicate 5000 "1"%char).

(** [json.loads] on the documents that are one unsigned integer as JSON
    writes it, with no leading zero: the integer, or the [ValueError] of
    [int] when it has more than 4300 digits (the default of
    [sys.get_int_max_str_digits], CPython 3.11).  This instance reads no
    other document. *)
Definition json_loads_integer (text : string) : loads_outcome Z :=
  let cs := String.list_ascii_of_string text in
  match cs with
  | [] => JSONDecodeError
  | c :: rest =>
      if forallb Datetime.is_digit cs
         && (negb (Ascii.eqb c "0") || bool_decide (rest = []))
      then
        if (4300 <? length cs)%nat then
          Raises ("Exceeds the limit (4300 digits) for integer string "
                  +:+ "conversion: value has " +:+ pretty (length cs)
                  +:+ " digits; use sys.set_int_max_str_digits() to "
                  +:+ "increase the limit")
        else Loaded (number cs)
      else JSONDecodeError
  end.

(** A stand-in for [json.loads] that reads the empty object only. *)
Definition loads_empty_object (s : string) : loads_outcome unit :=
  if String.eqb s "{}" then Loaded tt else JSONDecodeError.

Definition newline : string := String "010" "".

(** ** The names [fill_form] records, in the order of its calls *)

Definition part1_fields : list string :=
  [ "attorney_family_name"; "attorney_given_name"; "attorney_address";
    "attorney_city"; "attorney_state"; "attorney_zip"; "attorney_phone";
    "attorney_email" ].

Definition part2_fields : list string := [ "bar_number"; "firm_name" ].

Definition part3_fields : list string :=
  [ "passport_last_name"; "passport_first_name"; "passport_number";
    "passport_country"; "passport_nationality"; "passport_dob";
    "passport_place_of_birth"; "passport_sex"; "passport_issue_date";
    "passport_expiry_date" ].

Definition declared_fields : list string :=
  part1_fields ++ part2_fields ++ part3_fields.

(** The keys [fill_form] reads from each document. *)
Definition g28_keys : list string :=
  [ "attorney_last_name"; "attorney_first_name"; "attorney_name";
    "attorney_address"; "attorney_city"; "attorney_state"; "attorney_zip";
    "attorney_phone"; "daytime_phone"; "attorney_email"; "bar_number";
    "firm_name" ].

Definition passport_keys : list string :=
  [ "last_name"; "first_name"; "passport_number"; "issuing_country";
    "nationality"; "date_of_birth"; "place_of_birth"; "gender";
    "date_of_issue"; "date_of_expiry" ].

(** A value [fill_field_by_id] skips. *)
Definition unusable (v : pyval) : Prop :=
  v = None ∨ v = Some "" ∨ v = Some "N/A".

(** A statement that appends to [filled_fields] some of [names], in their
    order, and nothing else. *)
Definition appends {A : Type} (names : list string) (m : exec A) : Prop :=
  ∀ st r st', m st = Some (r, st') →
    ∃ l, st_filled_fields st' = st_filled_fields st ++ l ∧ sublist l names.

(** An input of the form that is present and not displayed. *)
Definition hidden_input : element :=
  {| is_displayed := false; tag_name := "input"; type_attribute := Some "text";
     options := []; interactable := true |}.

(** What an extraction that failed leaves as a document. *)
Definition failed_extraction : gmap string pyval :=
  {[ "error" := Some "API call failed: quota exceeded" ]}.

(** ** [DocumentProcessor._load_image] and the two [extract_..._info] *)

Section DocumentProcessor.

Context {image json : Type}.

(** [_load_image], from the suffix of the path ([Path(file_path).suffix]),
    what [convert_from_path] does with the file and what [Image.open]
    does with it.  The last [raise] is reached from the PDF branch only,
    when the conversion returns no page. *)
Definition _load_image (path_suffix : string)
    (convert_from_path : py_result (list image))
    (image_open : py_result image) : py_result image :=
  let suffix := Py.lower path_suffix in
  if String.eqb suffix ".pdf" then
    match convert_from_path with
    | Return (first_page :: _) => Return first_page
    | Return [] => Raise ("Unsupported file type: " +:+ suffix)
    | Raise e => Raise ("PDF conversion failed: " +:+ e)
    end
  else image_open.

(** The body [extract_passport_info] and [extract_g28_info] share; they
    differ in the prompt sent to the model.  [loaded] is the outcome of
    [_load_image], [generated] the text of the model's answer or the
    exception of the call. *)
Definition extract_info (json_loads : string → loads_outcome json)
    (loaded : py_result image) (generated : py_result string)
  : response json :=
  match loaded with
  | Raise e => Error_dict {[ "error" := "File processing failed: " +:+ e ]}
  | Return _ =>
      match generated with
      | Raise e => Error_dict {[ "error" := "API call failed: " +:+ e ]}
      | Return text =>
          match _parse_json_response json_loads text with
          | Return r => r
          | Raise e => Error_dict {[ "error" := "API call failed: " +:+ e ]}
          end
      end
  end.

End DocumentProcessor.

(** An error dict as [fill_form] receives it: every value a [str]. *)
Definition as_document (d : gmap string string) : gmap string pyval :=
  Some <$> d.

(** ** The web service of [main.py] *)

Module Main.

(** The two globals: [api_key_storage["key"]] and [extracted_data]. *)
Record state : Type := {
  api_key : pyval;
  extracted_data : gmap string (gmap string pyval)
}.

(** The JSON a handler answers with, or the detail of an
    [HTTPException]. *)
Inductive content : Type :=
| Message (message : string)
| Has_key (has_key : bool)
| Uploaded (message : string) (data : gmap string pyval)
| Extracted (data : gmap string (gmap string pyval))
| Filled (result : RunResult)
| Detail (detail : string).

Record reply : Type := {
  status_code : Z;
  body : content
}.

(** [str(e)] for an [HTTPException], as Starlette prints it. *)
Definition http_exception_str (status detail : string) : string :=
  status +:+ ": " +:+ detail.

Definition allowed_types : list string :=
  [ "image/jpeg"; "image/png"; "application/pdf" ].

(** [set_api_key]. *)
Definition set_api_key (key : string) (s : state) : reply * state :=
  ({| status_code := 200; body := Message "API key has been set" |},
   {| api_key := Some key; extracted_data := extracted_data s |}).

(** [check_api_key]: the key [is not None]. *)
Definition check_api_key (s : state) : reply * state :=
  ({| status_code := 200;
      body := Has_key (bool_decide (api_key s ≠ None)) |}, s).

(** [upload_passport] and [upload_g28], which differ in the slot of
    [extracted_data] and in the message.  [saved] tells how writing the
    file ended, [extracted] how building the processor and extracting
    ended.  The [HTTPException] for the content type is raised inside
    the [try] block, whose handler catches every [Exception]. *)
Definition upload (slot message content_type : string) (saved : outcome)
    (extracted : py_result (gmap string pyval)) (s : state) : reply * state :=
  if negb (truthy (api_key s)) then
    ({| status_code := 400; body := Detail "Please set the API key first" |}, s)
  else if negb (bool_decide (content_type ∈ allowed_types)) then
    ({| status_code := 500;
        body := Detail (http_exception_str "400" "Unsupported file type") |}, s)
  else
    match saved with
    | Fails e => ({| status_code := 500; body := Detail e |}, s)
    | Ok =>
        match extracted with
        | Raise e => ({| status_code := 500; body := Detail e |}, s)
        | Return data =>
            ({| status_code := 200; body := Uploaded message data |},
             {| api_key := api_key s;
                extracted_data := <[slot := data]> (extracted_data s) |})
        end
    end.

Definition upload_passport := upload "passport" "Passport uploaded successfully".
Definition upload_g28 := upload "g28" "G-28 form uploaded successfully".

(** [get_extracted_data]. *)
Definition get_extracted_data (s : state) : reply * state :=
  ({| status_code := 200; body := Extracted (extracted_data s) |}, s).

(** The handler [fill_form] of the service, around
    [FormFiller.fill_form]. *)
Definition fill_form (fuel : nat) (b : browser) (s : state)
  : option (reply * state) :=
  if bool_decide (extracted_data s = ∅) then
    Some ({| status_code := 500;
             body := Detail (http_exception_str "400"
                               "Please upload documents first") |}, s)
  else
    let passport_data := default ∅ (extracted_data s !! "passport") in
    let g28_data := default ∅ (extracted_data s !! "g28") in
    match fill_form fuel b passport_data g28_data with
    | None => None
    | Some (Return result) =>
        Some ({| status_code := 200; body := Filled result |}, s)
    | Some (Raise e) => Some ({| status_code := 500; body := Detail e |}, s)
    end.

(** [clear_data]: the data is reset before the files are removed, and a
    failure to remove one is not handled. *)
Definition clear_data (unlinked : outcome) (s : state) : reply * state :=
  let s' := {| api_key := api_key s; extracted_data := ∅ |} in
  match unlinked with
  | Ok => ({| status_code := 200; body := Message "Data has been cleared" |}, s')
  | Fails _ => ({| status_code := 500; body := Detail "Internal Server Error" |}, s')
  end.

(** A request that has reached its handler, with the outcomes of the
    calls the handler makes. *)
Inductive request : Type :=
| Set_api_key (key : string)
| Check_api_key
| Upload_passport (content_type : string) (saved : outcome)
    (extracted : py_result (gmap string pyval))
| Upload_g28 (content_type : string) (saved : outcome)
    (extracted : py_result (gmap string pyval))
| Get_extracted_data
| Fill_form (fuel : nat) (b : browser)
| Clear_data (unlinked : outcome).

Definition handle (r : request) (s : state) : option (reply * state) :=
  match r with
  | Set_api_key key => Some (set_api_key key s)
  | Check_api_key => Some (check_api_key s)
  | Upload_passport content_type saved extracted =>
      Some (upload_passport content_type saved extracted s)
  | Upload_g28 content_type saved extracted =>
      Some (upload_g28 content_type saved extracted s)
  | Get_extracted_data => Some (get_extracted_data s)
  | Fill_form fuel b => fill_form fuel b s
  | Clear_data unlinked => Some (clear_data unlinked s)
  end.

(** The requests of a session, served one after the other. *)
Fixpoint serve (rs : list request) (s : state) : option (list reply * state) :=
  match rs with
  | [] => Some ([], s)
  | r :: rs' =>
      '(a, s1) ← handle r s;
      '(answers, s2) ← serve rs' s1;
      Some (a :: answers, s2)
  end.

(** The form field [api_key] is required: FastAPI lets no empty value
    through to [set_api_key]. *)
Definition well_formed (r : request) : Prop :=
  match r with
  | Set_api_key key => key ≠ ""
  | _ => True
  end.

(** The service as it starts. *)
Definition initial : state := {| api_key := None; extracted_data := ∅ |}.

End Main.

(** The slot of [extracted_data] an upload writes. *)
Definition slot_of (r : Main.request) : option string :=
  match r with
  | Main.Upload_passport _ _ _ => Some "passport"
  | Main.Upload_g28 _ _ _ => Some "g28"
  | _ => None
  end.

(** A request that is neither an upload to [slot] nor [clear_data]. *)
Definition keeps (slot : string) (r : Main.request) : Prop :=
  match r with
  | Main.Clear_data _ => False
  | _ => slot_of r ≠ Some slot
  end.

(** A slot of [extracted_data] that is missing, or holds a document in
    which none of [keys] has a value [fill_form] would use. *)
Definition nothing_usable (keys : list string)
    (slot : option (gmap string pyval)) : Prop :=
  ∀ k, k ∈ keys → unusable (dict_get (default ∅ slot) k).

(** The service once a key is set and nothing is uploaded. *)
Definition with_key : Main.state :=
  {| Main.api_key := Some "sk-test"; Main.extracted_data := ∅ |}.

(** The service with a key and the sample passport, and no G-28 form. *)
Definition passport_only : Main.state :=
  {| Main.api_key := Some "sk-test";
     Main.extracted_data := {[ "passport" := sample_passport ]} |}.

(** Requests that follow an upload of a passport. *)
Definition sample_requests : list Main.request :=
  [ Main.Upload_g28 "text/plain" Ok (Return sample_g28);
    Main.Set_api_key "sk-other";
    Main.Upload_g28 "application/pdf" Ok (Return sample_g28);
    Main.Get_extracted_data ].

(** * Theorems *)

(** ** Dates: [format_date] *)

Section FormatDate.
Import Datetime.

Lemma is_digit_cases c :
  is_digit c = true →
  c ∈ ["0"; "1"; "2"; "3"; "4"; "5"; "6"; "7"; "8"; "9"]%char.
Proof.
  destruct c as [[] [] [] [] [] [] [] []]; intros H; vm_compute in H;
    try discriminate H; set_solver.
Qed.

Ltac each_digit H :=
  apply is_digit_cases in H;
  repeat (apply elem_of_cons in H as [->|H]);
  [..|by apply elem_of_nil in H].

Lemma digit_val_range c : is_digit c = true → 0 ≤ digit_val c ≤ 9.
Proof. intros H. each_digit H; vm_compute; split; discriminate. Qed.

Lemma digit_char_val c : is_digit c = true → digit_char (digit_val c) = c.
Proof. intros H. each_digit H; reflexivity. Qed.

Lemma in_range_spec lo hi c :
  in_range lo hi c = true ↔ is_digit c = true ∧ lo ≤ digit_val c ≤ hi.
Proof.
  unfold in_range. rewrite !andb_true_iff, !Z.leb_le. tauto.
Qed.

Lemma two_digits_of a b :
  0 ≤ a → 0 ≤ b ≤ 9 →
  two_digits (10 * a + b) = String (digit_char a) (String (digit_char b) "").
Proof.
  intros Ha Hb. unfold two_digits.
  assert ((10 * a + b) / 10 = a) as -> by (Z.div_mod_to_equations; lia).
  assert ((10 * a + b) mod 10 = b) as -> by (Z.div_mod_to_equations; lia).
  done.
Qed.

Lemma four_digits_of a b c d :
  0 ≤ a → 0 ≤ b ≤ 9 → 0 ≤ c ≤ 9 → 0 ≤ d ≤ 9 →
  four_digits (1000 * a + 100 * b + 10 * c + d)
  = String (digit_char a) (String (digit_char b)
      (String (digit_char c) (String (digit_char d) ""))).
Proof.
  intros Ha Hb Hc Hd. unfold four_digits.
  set (n := 1000 * a + 100 * b + 10 * c + d).
  assert (n / 1000 = a) as -> by (subst n; Z.div_mod_to_equations; lia).
  assert (n / 100 mod 10 = b) as -> by (subst n; Z.div_mod_to_equations; lia).
  assert (n / 10 mod 10 = c) as -> by (subst n; Z.div_mod_to_equations; lia).
  assert (n mod 10 = d) as -> by (subst n; Z.div_mod_to_equations; lia).
  done.
Qed.

(** *** What [%m] and [%d] read *)

Lemma parse_month_spelling M m rest :
  month_spelling M m →
  parse_month (M +:+ String "-" rest) = Some (m, String "-" rest).
Proof.
  intros [a b Hd Hr|a Hd Hr].
  - apply Forall_cons in Hd as [Ha Hd]. apply Forall_cons in Hd as [Hb _].
    revert Hr. each_digit Ha; each_digit Hb; vm_compute;
      first [reflexivity
            | intros [H1 H2]; exfalso; first [by apply H1 | by apply H2]].
  - apply Forall_cons in Hd as [Ha _].
    revert Hr. each_digit Ha; vm_compute;
      first [reflexivity | intros H1; exfalso; by apply H1].
Qed.

Lemma parse_day_spelling D d :
  day_spelling D d → parse_day D = Some (d, "").
Proof.
  intros [a b Hd Hr|a Hd Hr|a Hd Hr].
  - apply Forall_cons in Hd as [Ha Hd]. apply Forall_cons in Hd as [Hb _].
    revert Hr. each_digit Ha; each_digit Hb; vm_compute;
      first [reflexivity
            | intros [H1 H2]; exfalso; first [by apply H1 | by apply H2]].
  - apply Forall_cons in Hd as [Ha _].
    revert Hr. each_digit Ha; vm_compute;
      first [reflexivity | intros H1; exfalso; by apply H1].
  - apply Forall_cons in Hd as [Ha _].
    revert Hr. each_digit Ha; vm_compute;
      first [reflexivity | intros H1; exfalso; by apply H1].
Qed.

Lemma digits_1 a : is_digit a = true → digits [a].
Proof. intros. by repeat constructor. Qed.

Lemma digits_2 a b : is_digit a = true → is_digit b = true → digits [a; b].
Proof. intros. by repeat constructor. Qed.

Lemma parse_month_inv s m r :
  parse_month s = Some (m, r) → ∃ M, s = M +:+ r ∧ month_spelling M m.
Proof.
  unfold parse_month. destruct s as [|a [|b s]]; [done| |].
  - destruct (in_range 1 9 a) eqn:Ha; [|done].
    intros [= <- <-]. apply in_range_spec in Ha as [Ha ?].
    exists (String a ""). split; [done|].
    replace (digit_val a) with (number [a]) by (unfold number; simpl; lia).
    constructor; [by apply digits_1|unfold number; simpl; lia].
  - destruct (Ascii.eqb a "1" && in_range 0 2 b) eqn:H1.
    { apply andb_true_iff in H1 as [->%Ascii.eqb_eq [Hb ?]%in_range_spec].
      intros [= <- <-]. exists (String "1" (String b "")). split; [done|].
      replace (10 + digit_val b) with (number ["1"%char; b])
        by (unfold number; simpl; change (digit_val "1") with 1; lia).
      constructor; [by apply digits_2|].
      unfold number; simpl; change (digit_val "1") with 1; lia. }
    destruct (Ascii.eqb a "0" && in_range 1 9 b) eqn:H2.
    { apply andb_true_iff in H2 as [->%Ascii.eqb_eq [Hb ?]%in_range_spec].
      intros [= <- <-]. exists (String "0" (String b "")). split; [done|].
      replace (digit_val b) with (number ["0"%char; b])
        by (unfold number; simpl; change (digit_val "0") with 0; lia).
      constructor; [by apply digits_2|].
      unfold number; simpl; change (digit_val "0") with 0; lia. }
    destruct (in_range 1 9 a) eqn:Ha; [|done].
    intros [= <- <-]. apply in_range_spec in Ha as [Ha ?].
    exists (String a ""). split; [done|].
    replace (digit_val a) with (number [a]) by (unfold number; simpl; lia).
    constructor; [by apply digits_1|unfold number; simpl; lia].
Qed.

Lemma parse_day_inv s d :
  parse_day s = Some (d, "") → day_spelling s d.
Proof.
  unfold parse_day. destruct s as [|a [|b s]]; [done| |].
  - destruct (in_range 1 9 a) eqn:Ha; [|done].
    intros [= <-]. apply in_range_spec in Ha as [Ha ?].
    replace (digit_val a) with (number [a]) by (unfold number; simpl; lia).
    apply day_one_digit; [by apply digits_1|unfold number; simpl; lia].
  - destruct (Ascii.eqb a "3" && in_range 0 1 b) eqn:H1.
    { apply andb_true_iff in H1 as [->%Ascii.eqb_eq [Hb ?]%in_range_spec].
      intros [= <- ->].
      replace (30 + digit_val b) with (number ["3"%char; b])
        by (unfold number; simpl; change (digit_val "3") with 3; lia).
      apply day_two_digits; [by apply digits_2|].
      unfold number; simpl; change (digit_val "3") with 3; lia. }
    destruct (in_range 1 2 a && is_digit b) eqn:H2.
    { apply andb_true_iff in H2 as [[Ha ?]%in_range_spec Hb].
      intros [= <- ->]. pose proof (digit_val_range b Hb).
      replace (10 * digit_val a + digit_val b) with (number [a; b])
        by (unfold number; simpl; lia).
      apply day_two_digits; [by apply digits_2|].
      unfold number; simpl; lia. }
    destruct (Ascii.eqb a "0" && in_range 1 9 b) eqn:H3.
    { apply andb_true_iff in H3 as [->%Ascii.eqb_eq [Hb ?]%in_range_spec].
      intros [= <- ->].
      replace (digit_val b) with (number ["0"%char; b])
        by (unfold number; simpl; change (digit_val "0") with 0; lia).
      apply day_two_digits; [by apply digits_2|].
      unfold number; simpl; change (digit_val "0") with 0; lia. }
    destruct (in_range 1 9 a) eqn:Ha; [done|].
    destruct (Ascii.eqb a " " && in_range 1 9 b) eqn:H4; [|done].
    apply andb_true_iff in H4 as [->%Ascii.eqb_eq [Hb ?]%in_range_spec].
    intros [= <- ->].
    replace (digit_val b) with (number [b]) by (unfold number; simpl; lia).
    apply day_space_digit; [by apply digits_1|unfold number; simpl; lia].
Qed.

Lemma number_4 y1 y2 y3 y4 :
  number [y1; y2; y3; y4]
  = 1000 * digit_val y1 + 100 * digit_val y2 + 10 * digit_val y3 + digit_val y4.
Proof. unfold number; simpl; lia. Qed.

Lemma number_2 a b : number [a; b] = 10 * digit_val a + digit_val b.
Proof. unfold number; simpl; lia. Qed.

Lemma strptime_spelling s y m d :
  date_spelling s y m d → strptime s = Some (y, m, d).
Proof.
  intros (y1 & y2 & y3 & y4 & M & D & -> & Hd & -> & HM & HD & Hv).
  repeat (apply Forall_cons in Hd as [? Hd]).
  unfold strptime. cbv beta iota.
  repeat match goal with H : is_digit _ = true |- _ => rewrite H; clear H end.
  cbn [andb].
  rewrite (parse_month_spelling _ _ _ HM), (parse_day_spelling _ _ HD).
  rewrite <- number_4, Hv. done.
Qed.

Lemma strptime_inv s y m d :
  strptime s = Some (y, m, d) → date_spelling s y m d.
Proof.
  unfold strptime.
  destruct s as [|y1 [|y2 [|y3 [|y4 [|c r]]]]]; try done.
  destruct c as [[] [] [] [] [] [] [] []]; try done.
  destruct (is_digit y1 && is_digit y2 && is_digit y3 && is_digit y4)
    eqn:Hd; [|done].
  apply andb_true_iff in Hd as [Hd Hy4].
  apply andb_true_iff in Hd as [Hd Hy3].
  apply andb_true_iff in Hd as [Hy1 Hy2].
  destruct (parse_month r) as [[m' [|c r']]|] eqn:Hm; try done.
  destruct c as [[] [] [] [] [] [] [] []]; try done.
  destruct (parse_day r') as [[d' [|? ?]]|] eqn:Hday; try done.
  rewrite <- number_4.
  destruct (valid_date _ m' d') eqn:Hv; [|done].
  intros [= <- <- <-].
  apply parse_month_inv in Hm as (M & -> & HM).
  apply parse_day_inv in Hday.
  exists y1, y2, y3, y4, M, r'. repeat split; try done.
  by repeat constructor.
Qed.

Lemma year_digits_four y : 1000 ≤ y → year_digits y = four_digits y.
Proof.
  intros Hy. unfold year_digits.
  destruct (Z.ltb_spec y 10); [lia|]. destruct (Z.ltb_spec y 100); [lia|].
  by destruct (Z.ltb_spec y 1000); [lia|].
Qed.

Lemma strftime_YYYY_MM_DD y1 y2 y3 y4 m1 m2 d1 d2 :
  digits [y1; y2; y3; y4; m1; m2; d1; d2] →
  1000 ≤ number [y1; y2; y3; y4] →
  strftime (number [y1; y2; y3; y4]) (number [m1; m2]) (number [d1; d2])
  = MM_DD_YYYY y1 y2 y3 y4 m1 m2 d1 d2.
Proof.
  intros Hd Hy. repeat (apply Forall_cons in Hd as [? Hd]).
  repeat match goal with
         | H : is_digit ?c = true |- _ =>
             pose proof (digit_val_range c H);
             pose proof (digit_char_val c H); clear H
         end.
  unfold strftime. rewrite year_digits_four by done.
  rewrite number_4, !number_2.
  rewrite four_digits_of, !two_digits_of by lia.
  unfold MM_DD_YYYY. by repeat match goal with H : digit_char _ = _ |- _ => rewrite H; clear H end.
Qed.

Lemma date_spelling_YYYY_MM_DD y1 y2 y3 y4 m1 m2 d1 d2 :
  digits [y1; y2; y3; y4; m1; m2; d1; d2] →
  valid_date (number [y1; y2; y3; y4]) (number [m1; m2]) (number [d1; d2])
  = true →
  date_spelling (YYYY_MM_DD y1 y2 y3 y4 m1 m2 d1 d2)
    (number [y1; y2; y3; y4]) (number [m1; m2]) (number [d1; d2]).
Proof.
  intros Hd Hv. pose proof Hv as Hv'. unfold valid_date in Hv'.
  repeat (apply andb_true_iff in Hv' as [Hv' ?]).
  assert (days_in_month (number [y1; y2; y3; y4]) (number [m1; m2]) ≤ 31).
  { unfold days_in_month. repeat case_match; lia. }
  repeat (apply Forall_cons in Hd as [? Hd]).
  exists y1, y2, y3, y4, (String m1 (String m2 "")), (String d1 (String d2 "")).
  repeat split; try done.
  - by repeat constructor.
  - constructor; [by apply digits_2|lia].
  - constructor; [by apply digits_2|lia].
Qed.

Lemma format_date_parsed s y m d :
  strptime s = Some (y, m, d) → format_date (Some s) = Some (strftime y m d).
Proof.
  intros H. unfold format_date.
  destruct s as [|c s]; [done|].
  destruct (is_NA (Some (String c s))) eqn:HNA.
  { apply String.eqb_eq in HNA. by rewrite HNA in H. }
  cbn [truthy Py.is_empty negb orb]. by rewrite H.
Qed.

Lemma format_date_unparsed s :
  s ≠ "" → s ≠ "N/A" → strptime s = None → format_date (Some s) = Some s.
Proof.
  intros H1 H2 H. unfold format_date.
  destruct s as [|c s]; [done|].
  destruct (is_NA (Some (String c s))) eqn:HNA.
  { by apply String.eqb_eq in HNA. }
  cbn [truthy Py.is_empty negb orb]. by rewrite H.
Qed.

(** C4, as amended.  [format_date] yields [None] for [None], the empty
    string and "N/A".  The ASCII strings [strptime] reads under
    "%Y-%m-%d" are the spellings of a calendar date with a four-digit
    year and a month and a day of one or two digits (the day also as a
    space and a digit); each of them becomes that date as [strftime]
    prints it under "%m/%d/%Y", so a date of the years 1000 to 9999
    written YYYY-MM-DD becomes the same digits as MM/DD/YYYY.  Every other
    ASCII string is returned unchanged.  The function is total: the
    exception of [strptime] is caught. *)
Theorem format_date_spec :
  (format_date None = None ∧ format_date (Some "") = None
   ∧ format_date (Some "N/A") = None)
  ∧ (∀ s y m d, Py.isascii s = true →
       strptime s = Some (y, m, d) ↔ date_spelling s y m d)
  ∧ (∀ s y m d, date_spelling s y m d →
       format_date (Some s) = Some (strftime y m d))
  ∧ (∀ y1 y2 y3 y4 m1 m2 d1 d2,
       digits [y1; y2; y3; y4; m1; m2; d1; d2] →
       valid_date (number [y1; y2; y3; y4]) (number [m1; m2])
         (number [d1; d2]) = true →
       1000 ≤ number [y1; y2; y3; y4] →
       format_date (Some (YYYY_MM_DD y1 y2 y3 y4 m1 m2 d1 d2))
       = Some (MM_DD_YYYY y1 y2 y3 y4 m1 m2 d1 d2))
  ∧ (∀ s, Py.isascii s = true → s ≠ "" → s ≠ "N/A" →
       (∀ y m d, ¬ date_spelling s y m d) →
       format_date (Some s) = Some s).
Proof.
  split; [done|]. split; [|split; [|split]].
  - intros s y m d _. split; [apply strptime_inv|apply strptime_spelling].
  - intros s y m d H. by apply format_date_parsed, strptime_spelling.
  - intros y1 y2 y3 y4 m1 m2 d1 d2 Hd Hv Hy.
    rewrite <- (strftime_YYYY_MM_DD _ _ _ _ _ _ _ _ Hd Hy).
    by apply format_date_parsed, strptime_spelling, date_spelling_YYYY_MM_DD.
  - intros s _ Hne HNA Hno. apply format_date_unparsed; [done|done|].
    destruct (strptime s) as [[[y m] d]|] eqn:Hs; [|done].
    by apply strptime_inv, Hno in Hs.
Qed.

(** The theorem at "1990-01-15", at "1990-1-5", at a date of the year
    999, and at two strings that are returned as they are. *)
Lemma format_date_spec_witness :
  format_date (Some "1990-01-15") = Some "01/15/1990"
  ∧ date_spelling "1990-1-5" 1990 1 5
  ∧ format_date (Some "0999-12-31") = Some (strftime 999 12 31)
  ∧ strftime 999 12 31 = "12/31/999"
  ∧ format_date (Some "1990-02-30") = Some "1990-02-30"
  ∧ format_date (Some "unknown") = Some "unknown".
Proof.
  destruct format_date_spec as (_ & Hiff & Hread & Hiso & Hother).
  assert (∀ s, strptime s = None → Py.isascii s = true →
               ∀ y m d, ¬ date_spelling s y m d) as Hno.
  { intros s Hs Hascii y m d Hsp. apply (Hiff s y m d Hascii) in Hsp.
    by rewrite Hs in Hsp. }
  split; [|split; [|split; [|split; [|split]]]].
  - apply (Hiso "1" "9" "9" "0" "0" "1" "1" "5")%char;
      [by repeat constructor|reflexivity|by vm_compute].
  - apply Hiff; reflexivity.
  - apply Hread, Hiff; reflexivity.
  - reflexivity.
  - apply Hother; [reflexivity|discriminate|discriminate|by apply Hno].
  - apply Hother; [reflexivity|discriminate|discriminate|by apply Hno].
Defined.

(** C4, as stated, fails: "1990-1-5" is not of the form YYYY-MM-DD and is
    not returned unchanged. *)
Lemma format_date_rewrites_short_month :
  matches_YYYY_MM_DD "1990-1-5" = false
  ∧ format_date (Some "1990-1-5") = Some "01/05/1990"
  ∧ format_date (Some "1990-1-5") ≠ Some "1990-1-5".
Proof. repeat split. discriminate. Qed.

End FormatDate.

(** ** US states: [format_state] *)

Lemma state_abbrev_keys_NoDup : NoDup state_abbrev_list.*1.
Proof. apply (bool_decide_unpack _). by vm_compute. Qed.

Lemma format_state_unfold c s :
  String c s ≠ "N/A" →
  format_state (Some (String c s))
  = match state_abbrev_map !! Py.strip (Py.upper (String c s)) with
    | Some full => Some full
    | None => Some (String c s)
    end.
Proof.
  intros H. unfold format_state.
  destruct (is_NA (Some (String c s))) eqn:HNA; [|done].
  by apply String.eqb_eq in HNA.
Qed.

(** ** One field: [fill_field_by_id] *)

(** C6.  For a value that is [None], empty or "N/A", [fill_field_by_id]
    returns [False] and leaves [filled_fields], [errors] and the page as
    they were, whatever the page holds under the id. *)
Theorem fill_field_by_id_skips_absent
    (pg : gmap string element) (field_id field_name : string)
    (v : pyval) (st : run_state) :
  v = None ∨ v = Some "" ∨ v = Some "N/A" →
  fill_field_by_id pg field_id v field_name st = (false, st).
Proof. by intros [-> | [-> | ->]]. Qed.

(** The theorem at the visible text input "city" of the sample form. *)
Lemma fill_field_by_id_skips_absent_witness :
  sample_page !! "city" = Some text_input
  ∧ fill_field_by_id sample_page "city" (Some "N/A") "attorney_city" empty_lists
    = (false, empty_lists).
Proof.
  split; [reflexivity|].
  apply fill_field_by_id_skips_absent. right. right. reflexivity.
Defined.

(** *** The [select] branch *)

Lemma find_first_with_text (P : select_option → bool) opts o :
  List.find P opts = Some o →
  (∀ o', String.eqb (text o') (text o) = true → P o' = true) →
  List.find (λ o', String.eqb (text o') (text o)) opts = Some o.
Proof.
  intros Hfind HP. induction opts as [|o' opts IH]; [done|].
  simpl in *. destruct (P o') eqn:HPo'.
  - injection Hfind as ->. by rewrite String.eqb_refl.
  - destruct (String.eqb (text o') (text o)) eqn:Heq.
    + apply HP in Heq. congruence.
    + by apply IH.
Qed.

Lemma partial_match_text v o o' :
  String.eqb (text o') (text o) = true →
  partial_match v o = true → partial_match v o' = true.
Proof.
  intros Heq%String.eqb_eq. unfold partial_match. by rewrite Heq.
Qed.

(** First strategy: an option with exactly that visible text is chosen,
    whatever the values and whatever else matches in part. *)
Lemma select_branch_visible_text opts v o :
  List.find (λ o, String.eqb (text o) v) opts = Some o →
  select_branch opts v = Return (Some o).
Proof. intros H. unfold select_branch, select_by_visible_text. by rewrite H. Qed.

(** Second strategy: no option has that text, one has that value. *)
Lemma select_branch_value opts v o :
  List.find (λ o, String.eqb (text o) v) opts = None →
  List.find (λ o, String.eqb (value o) v) opts = Some o →
  select_branch opts v = Return (Some o).
Proof.
  intros H1 H2.
  unfold select_branch, select_by_visible_text, select_by_value.
  by rewrite H1, H2.
Qed.

(** Third strategy: the first option whose text contains the value or is
    contained in it, case ignored. *)
Lemma select_branch_partial opts v o :
  List.find (λ o, String.eqb (text o) v) opts = None →
  List.find (λ o, String.eqb (value o) v) opts = None →
  List.find (partial_match v) opts = Some o →
  select_branch opts v = Return (Some o).
Proof.
  intros H1 H2 H3.
  unfold select_branch, select_by_visible_text, select_by_value.
  rewrite H1, H2, H3.
  rewrite (find_first_with_text (partial_match v) opts o H3); [done|].
  intros o' Heq. apply (partial_match_text v o o' Heq).
  by apply List.find_some in H3 as [_ ?].
Qed.

(** No strategy finds an option: nothing is selected and nothing raised. *)
Lemma select_branch_no_match opts v :
  List.find (λ o, String.eqb (text o) v) opts = None →
  List.find (λ o, String.eqb (value o) v) opts = None →
  List.find (partial_match v) opts = None →
  select_branch opts v = Return None.
Proof.
  intros H1 H2 H3.
  unfold select_branch, select_by_visible_text, select_by_value.
  by rewrite H1, H2, H3.
Qed.

(** Then [fill_field_by_id] still appends the name and returns [True]. *)
Lemma fill_field_by_id_select_no_match pg field_id field_name el v st :
  v ≠ "" → v ≠ "N/A" →
  pg !! field_id = Some el → is_displayed el = true →
  Py.lower (tag_name el) = "select" →
  List.find (λ o, String.eqb (text o) v) (options el) = None →
  List.find (λ o, String.eqb (value o) v) (options el) = None →
  List.find (partial_match v) (options el) = None →
  fill_field_by_id pg field_id (Some v) field_name st
  = (true, record_fill field_id field_name [] st).
Proof.
  intros Hv HNA Hpg Hdisp Htag H1 H2 H3. unfold fill_field_by_id.
  destruct v as [|c v]; [done|].
  destruct (is_NA (Some (String c v))) eqn:E.
  { by apply String.eqb_eq in E. }
  rewrite bool_decide_eq_false_2 by done.
  cbn [truthy Py.is_empty negb orb].
  rewrite Hpg, Hdisp, Htag. cbn [String.eqb Ascii.eqb Bool.eqb py_str].
  by rewrite (select_branch_no_match _ _ H1 H2 H3).
Qed.

(** C2 at the select element of the sample form.  "Male" is the text of the
    first option and the value of the third: the text wins.  "F" is only a
    value.  "fem" is neither and is part of a text.  "X" matches nothing
    in any way: nothing is selected, and the field is recorded as filled
    and the call returns [True]. *)
Theorem select_no_match_is_recorded_as_filled :
  select_branch (options sex_select) "Male"
  = Return (Some {| text := "Male"; value := "M" |})
  ∧ select_branch (options sex_select) "F"
    = Return (Some {| text := "Female"; value := "F" |})
  ∧ select_branch (options sex_select) "fem"
    = Return (Some {| text := "Female"; value := "F" |})
  ∧ select_branch (options sex_select) "X" = Return None
  ∧ fill_field_by_id sample_page "passport-sex" (Some "X") "passport_sex"
      empty_lists
    = (true, {| st_filled_fields := ["passport_sex"]; st_errors := [];
                st_actions := [] |}).
Proof. by vm_compute. Qed.

(** ** The attorney's name *)

(** The structured key is used whenever its value is truthy. *)
Lemma attorney_name_part_structured pick g28_data key :
  truthy (dict_get g28_data key) = true →
  attorney_name_part pick g28_data key = Return (dict_get g28_data key).
Proof. intros H. unfold attorney_name_part. by rewrite H. Qed.

(** The combined name is split when the structured key is missing, [None]
    or empty. *)
Lemma attorney_name_part_fallback pick g28_data key full token :
  truthy (dict_get g28_data key) = false →
  dict_get g28_data "attorney_name" = Some full → full ≠ "" →
  pick (Py.split full) = Some token →
  attorney_name_part pick g28_data key = Return (Some token).
Proof.
  intros H1 H2 Hne H3. unfold attorney_name_part. rewrite H1, H2.
  destruct full as [|c full]; [done|]. cbn [truthy Py.is_empty negb py_str].
  by rewrite H3.
Qed.

(** C5 at a G-28 document whose [attorney_last_name] is "N/A" and whose
    [attorney_name] is "Jane Smith": the surname expression yields "N/A",
    not "Smith", so the surname field is skipped, while the given name,
    whose structured key is missing, is filled from the combined name. *)
Theorem attorney_surname_NA_hides_combined_name :
  attorney_name_part last g28_combined_name "attorney_last_name"
  = Return (Some "N/A")
  ∧ attorney_name_part head g28_combined_name "attorney_first_name"
    = Return (Some "Jane")
  ∧ fill_part1 sample_page g28_combined_name empty_lists
    = Some (Return tt,
            {| st_filled_fields := ["attorney_given_name"]; st_errors := [];
               st_actions := [Send_keys "given-name" "Jane"] |}).
Proof. by vm_compute. Qed.

(** ** The run: [fill_form] *)

Section Run.

Lemma ends_ret {A} (a : A) : ends_keeping_errors (mret a).
Proof. intros st. by exists (Return a), st. Qed.

Lemma ends_bind {A B} (m : exec A) (k : A → exec B) :
  ends_keeping_errors m → (∀ a, ends_keeping_errors (k a)) →
  ends_keeping_errors (m ≫= k).
Proof.
  intros Hm Hk st. destruct (Hm st) as (r & st' & Hr & He).
  unfold mbind, exec_bind. rewrite Hr. destruct r as [a|e].
  - destruct (Hk a st') as (r2 & st2 & Hr2 & He2).
    exists r2, st2. split; [done|congruence].
  - by exists (Raise e), st'.
Qed.

Lemma ends_call o : ends_keeping_errors (call o).
Proof. intros st. destruct o as [|msg]; by eexists _, st. Qed.

Lemma ends_eval {A} (r : py_result A) : ends_keeping_errors (eval r).
Proof. intros st. by exists r, st. Qed.

Lemma fill_field_by_id_errors pg field_id v field_name st :
  st_errors (fill_field_by_id pg field_id v field_name st).2 = st_errors st.
Proof. unfold fill_field_by_id. by repeat case_match. Qed.

Lemma ends_fill pg field_id v field_name :
  ends_keeping_errors (fill pg field_id v field_name).
Proof.
  intros st. eexists _, _. split; [done|]. apply fill_field_by_id_errors.
Qed.

Lemma ends_if {A} (c : bool) (m1 m2 : exec A) :
  ends_keeping_errors m1 → ends_keeping_errors m2 →
  ends_keeping_errors (if c then m1 else m2).
Proof. by destruct c. Qed.

Ltac ends :=
  repeat lazymatch goal with
    | |- ends_keeping_errors (mbind _ _) => apply ends_bind; [|intros ?]
    | |- ends_keeping_errors (if _ then _ else _) => apply ends_if
    | |- ends_keeping_errors (fill _ _ _ _) => apply ends_fill
    | |- ends_keeping_errors (call _) => apply ends_call
    | |- ends_keeping_errors (eval _) => apply ends_eval
    | |- ends_keeping_errors (mret _) => apply ends_ret
    end.

Lemma fill_part1_ends pg g28_data : ends_keeping_errors (fill_part1 pg g28_data).
Proof. unfold fill_part1. ends. Qed.

Lemma fill_part2_ends pg g28_data : ends_keeping_errors (fill_part2 pg g28_data).
Proof. unfold fill_part2. ends. Qed.

Lemma fill_part3_ends pg passport_data :
  ends_keeping_errors (fill_part3 pg passport_data).
Proof. unfold fill_part3. ends. Qed.

Lemma fill_stage_ends b passport_data g28_data :
  ends_keeping_errors (fill_stage b passport_data g28_data).
Proof.
  unfold fill_stage.
  pose proof (fill_part1_ends (page b) g28_data).
  pose proof (fill_part2_ends (page b) g28_data).
  pose proof (fill_part3_ends (page b) passport_data).
  ends; assumption.
Qed.

Lemma screenshot_step_state fuel b st r st' :
  screenshot_step fuel b st = Some (r, st') → st' = st.
Proof.
  unfold screenshot_step. destruct (capture b); [|congruence].
  destruct (_take_full_page_screenshot _ _ _); congruence.
Qed.

(** How the body of the main [try] block ended decides the result. *)
Lemma fill_form_of_body fuel b passport_data g28_data r st :
  launch b = Ok →
  fill_form_body fuel b passport_data g28_data empty_lists = Some (r, st) →
  st_errors st = [] →
  fill_form fuel b passport_data g28_data = Some (Return (result_of r st)).
Proof.
  intros Hl Hbody He. unfold fill_form. rewrite Hl, Hbody.
  unfold result_of. rewrite He. by destruct r.
Qed.

Lemma fill_form_body_errors fuel b passport_data g28_data r st :
  fill_form_body fuel b passport_data g28_data empty_lists = Some (r, st) →
  st_errors st = [].
Proof.
  unfold fill_form_body, mbind, exec_bind.
  destruct (fill_stage_ends b passport_data g28_data empty_lists)
    as (r1 & st1 & -> & He).
  destruct r1 as [[]|e].
  - intros ->%screenshot_step_state. done.
  - by intros [= <- <-].
Qed.

(** C9.  A dict that [fill_form] returns has [total_filled] equal to the
    length of [filled_fields]; it comes from the [return] of the [try]
    block, with no error and the screenshot name, or from the handler,
    with one error and [None] for the screenshot. *)
Theorem fill_form_result_invariant fuel b passport_data g28_data r :
  fill_form fuel b passport_data g28_data = Some (Return r) →
  total_filled r = length (filled_fields r)
  ∧ ((errors r = [] ∧ screenshot r = Some "form_filled.png")
     ∨ (∃ e, errors r = [e] ∧ screenshot r = None)).
Proof.
  unfold fill_form. destruct (launch b); [|done].
  destruct (fill_form_body fuel b passport_data g28_data empty_lists)
    as [[res st]|] eqn:Hbody; [|done].
  apply fill_form_body_errors in Hbody.
  destruct res as [[]|e]; intros [= <-]; cbn; rewrite Hbody.
  - split; [done|]. by left.
  - split; [done|]. right. by exists e.
Qed.

End Run.

(** The theorem at the sample form and documents: the six fields of the
    run are counted and the screenshot is named. *)
Lemma fill_form_result_invariant_witness :
  let r := {| filled_fields :=
                ["attorney_family_name"; "attorney_given_name"; "attorney_state";
                 "passport_last_name"; "passport_dob"; "passport_sex"];
              errors := []; screenshot := Some "form_filled.png";
              total_filled := 6 |} in
  fill_form 3000 sample_browser sample_passport sample_g28 = Some (Return r)
  ∧ total_filled r = length (filled_fields r)
  ∧ ((errors r = [] ∧ screenshot r = Some "form_filled.png")
     ∨ (∃ e, errors r = [e] ∧ screenshot r = None)).
Proof.
  split; [by vm_compute|].
  apply (fill_form_result_invariant 3000 sample_browser sample_passport
           sample_g28).
  by vm_compute.
Defined.

(** ** The screenshot: [_take_full_page_screenshot] *)

Section Screenshot.

Variables total_height viewport_height image_height : Z.
Hypothesis overlap : 20 < viewport_height.

(** The loop ends: every pass moves the scroll position down. *)
Lemma capture_tiles_ends fuel scroll_position :
  scroll_position < total_height →
  (Z.to_nat (total_height - scroll_position) ≤ fuel)%nat →
  ∃ screenshots,
    capture_tiles fuel total_height viewport_height image_height
      scroll_position
    = Some screenshots.
Proof.
  revert scroll_position.
  induction fuel as [|fuel IH]; intros sp Hsp Hfuel; [lia|].
  cbn [capture_tiles].
  destruct (Z.ltb_spec sp total_height); [|lia].
  destruct (Z.geb_spec (sp + viewport_height) total_height) as [Hlast|Hmore];
    [by eexists|].
  destruct (IH (sp + viewport_height - 20)) as [rest ->]; [lia|lia|].
  by eexists.
Qed.

Lemma capture_tiles_nonempty fuel scroll_position screenshots :
  scroll_position < total_height →
  capture_tiles fuel total_height viewport_height image_height
    scroll_position
  = Some screenshots →
  screenshots ≠ [].
Proof.
  destruct fuel as [|fuel]; [done|]. intros Hsp. cbn [capture_tiles].
  destruct (Z.ltb_spec scroll_position total_height); [|lia].
  destruct (Z.geb_spec (scroll_position + viewport_height) total_height).
  - by intros [= <-].
  - destruct (capture_tiles fuel _ _ _ _); [|done]. by intros [= <-].
Qed.

(** The invariant of the stitching loop over the tiles the capture loop
    made, for screenshots at least as high as the viewport: the tile at
    hand starts at or above [last_end] and reaches it, and [last_end] is
    inside the page. *)
Lemma stitch_captured_high fuel scroll_position last_end screenshots :
  viewport_height ≤ image_height →
  scroll_position ≤ last_end → last_end ≤ total_height →
  last_end ≤ scroll_position + image_height →
  capture_tiles fuel total_height viewport_height image_height
    scroll_position
  = Some screenshots →
  abutting last_end total_height (stitch total_height last_end screenshots)
  ∧ Forall (crop_inside image_height)
      (stitch total_height last_end screenshots).
Proof.
  intros Hhigh. revert scroll_position last_end screenshots.
  induction fuel as [|fuel IH]; intros sp le tiles Hle Hin Hreach; [done|].
  cbn [capture_tiles].
  destruct (Z.ltb_spec sp total_height);
    [|intros [= <-]; cbn [stitch abutting]; split; [lia|constructor]].
  destruct (Z.geb_spec (sp + viewport_height) total_height) as [Hlast|Hmore].
  - intros [= <-]. cbn [stitch scroll_pos img_height].
    rewrite Z.max_r by done.
    destruct (Z.ltb_spec (total_height - le) (image_height - (le - sp)));
      (split; [cbn [abutting]|apply Forall_cons; split; [|apply Forall_nil]]);
      unfold crop_inside, paste_height; cbn; lia.
  - destruct (capture_tiles fuel _ _ _ _) as [rest|] eqn:Hrest; [|done].
    intros [= <-]. cbn [stitch scroll_pos img_height].
    rewrite Z.max_r by done.
    destruct (Z.ltb_spec (total_height - le) (image_height - (le - sp)))
      as [Hcut|Hwhole].
    + destruct (IH (sp + viewport_height - 20)
                  (le + (le - sp + (total_height - le) - (le - sp))) rest)
        as [He Hc]; [lia|lia|lia|done|].
      split.
      * cbn [abutting paste_y]. unfold paste_height at 1 2. cbn.
        split; [done|]. split; [lia|done].
      * constructor; [|done]. unfold crop_inside; cbn; lia.
    + destruct (IH (sp + viewport_height - 20)
                  (le + (image_height - (le - sp))) rest) as [He Hc];
        [lia|lia|lia|done|].
      split.
      * cbn [abutting paste_y]. unfold paste_height at 1 2. cbn.
        split; [done|]. split; [lia|done].
      * constructor; [|done]. unfold crop_inside; cbn; lia.
Qed.

End Screenshot.

Section ScreenshotAtScaleOne.

Variables total_height viewport_height : Z.
Hypothesis overlap : 20 < viewport_height.

(** The same for screenshots exactly as high as the viewport: no paste is
    empty. *)
Lemma stitch_captured fuel scroll_position last_end screenshots :
  scroll_position ≤ last_end → last_end < total_height →
  last_end < scroll_position + viewport_height →
  capture_tiles fuel total_height viewport_height viewport_height
    scroll_position
  = Some screenshots →
  end_to_end last_end total_height (stitch total_height last_end screenshots)
  ∧ Forall (crop_within viewport_height)
      (stitch total_height last_end screenshots).
Proof.
  revert scroll_position last_end screenshots.
  induction fuel as [|fuel IH]; intros sp le tiles Hle Hin Hreach; [done|].
  cbn [capture_tiles].
  destruct (Z.ltb_spec sp total_height); [|lia].
  destruct (Z.geb_spec (sp + viewport_height) total_height) as [Hlast|Hmore].
  - intros [= <-]. cbn [stitch scroll_pos img_height].
    rewrite Z.max_r by done.
    destruct (Z.ltb_spec (total_height - le) (viewport_height - (le - sp)));
      (split; [cbn [end_to_end]|apply Forall_cons; split; [|apply Forall_nil]]);
      unfold crop_within, paste_height; cbn; lia.
  - destruct (capture_tiles fuel _ _ _ _) as [rest|] eqn:Hrest; [|done].
    intros [= <-]. cbn [stitch scroll_pos img_height].
    rewrite Z.max_r by done.
    destruct (Z.ltb_spec (total_height - le) (viewport_height - (le - sp)));
      [lia|].
    destruct (IH (sp + viewport_height - 20)
                (le + (viewport_height - (le - sp))) rest) as [He Hc];
      [lia|lia|lia|done|].
    split.
    + cbn [end_to_end paste_y]. unfold paste_height at 1 2. cbn.
      split; [done|]. split; [lia|done].
    + constructor; [|done]. unfold crop_within; cbn; lia.
Qed.

End ScreenshotAtScaleOne.

(** One paste for each tile, in capture order: at or below the offset of
    the tile, the top of the tile cropped by the rows skipped. *)
Lemma stitch_per_tile total_height last_end screenshots :
  Forall2 (λ t p, scroll_pos t ≤ paste_y p
                  ∧ crop_top p = paste_y p - scroll_pos t)
    screenshots (stitch total_height last_end screenshots).
Proof.
  revert last_end. induction screenshots as [|t tiles IH]; intros last_end;
    cbn [stitch]; constructor; [cbn; lia|apply IH].
Qed.

Lemma end_to_end_le from to pastes : end_to_end from to pastes → from ≤ to.
Proof.
  revert from. induction pastes as [|p pastes IH]; intros from; cbn.
  - lia.
  - intros (_ & Hpos & Hrest). apply IH in Hrest. lia.
Qed.

(** Pastes laid end to end write each row between the ends once, and no
    other row. *)
Lemma times_written_end_to_end from to pastes y :
  end_to_end from to pastes →
  times_written y pastes = if bool_decide (from ≤ y < to) then 1%nat else 0%nat.
Proof.
  revert from. induction pastes as [|p pastes IH]; intros from; cbn.
  - intros ->. by rewrite bool_decide_eq_false_2 by lia.
  - intros (Hy & Hpos & Hrest). pose proof (end_to_end_le _ _ _ Hrest).
    unfold times_written in *. cbn [List.filter].
    specialize (IH _ Hrest).
    destruct (writes_row y p) eqn:Hw; unfold writes_row in Hw; rewrite Hy in Hw;
      cbn [length]; rewrite IH; repeat case_bool_decide; lia.
Qed.

Lemma abutting_le from to pastes : abutting from to pastes → from ≤ to.
Proof.
  revert from. induction pastes as [|p pastes IH]; intros from; cbn.
  - lia.
  - intros (_ & Hpos & Hrest). apply IH in Hrest. lia.
Qed.

(** Abutting pastes, empty ones among them or not, write each row between
    the ends once, and no other row. *)
Lemma times_written_abutting from to pastes y :
  abutting from to pastes →
  times_written y pastes = if bool_decide (from ≤ y < to) then 1%nat else 0%nat.
Proof.
  revert from. induction pastes as [|p pastes IH]; intros from; cbn.
  - intros ->. by rewrite bool_decide_eq_false_2 by lia.
  - intros (Hy & Hpos & Hrest). pose proof (abutting_le _ _ _ Hrest).
    unfold times_written in *. cbn [List.filter].
    specialize (IH _ Hrest).
    destruct (writes_row y p) eqn:Hw; unfold writes_row in Hw; rewrite Hy in Hw;
      cbn [length]; rewrite IH; repeat case_bool_decide; lia.
Qed.

(** A page higher than the viewport gives a canvas: the loop makes a second
    tile. *)
Lemma tall_page_saves_canvas fuel pm path screenshots :
  viewport_height pm < total_height pm →
  capture_tiles fuel (total_height pm) (viewport_height pm) (image_height pm) 0
  = Some screenshots →
  ∃ calls,
    _take_full_page_screenshot fuel pm path
    = Some (calls, Canvas (viewport_width pm) (total_height pm)
                     (stitch (total_height pm) 0 screenshots)).
Proof.
  intros Hhigh Htiles. unfold _take_full_page_screenshot.
  destruct (Z.leb_spec (total_height pm) (viewport_height pm)); [lia|].
  rewrite Htiles. cbn [mbind option_bind].
  destruct screenshots as [|t1 [|t2 tiles]]; [by eexists| |by eexists].
  exfalso. destruct fuel as [|fuel]; [done|]. cbn [capture_tiles] in Htiles.
  destruct (Z.ltb_spec 0 (total_height pm)).
  - destruct (Z.geb_spec (0 + viewport_height pm) (total_height pm)); [lia|].
    destruct (capture_tiles fuel _ _ _ _) as [rest|] eqn:Hrest; [|done].
    apply capture_tiles_nonempty in Hrest; [|lia].
    injection Htiles as _ Hnil. done.
  - done.
Qed.

(** C3, as amended.  When the page is higher than the viewport, the
    viewport higher than the 20-pixel overlap and the screenshots at least
    as high as the viewport, the capture loop ends and the function saves a
    canvas of the page's height whose pastes, in capture order, each begin
    where the one before it ended, from row 0 to the last row: every row of
    the page is written by one paste and no other row is written; each
    paste is a crop of its tile, pasted at or below the offset of the tile
    with the rows skipped cropped from its top.  When the screenshots are
    exactly as high as the viewport, no paste is empty. *)
Theorem stitched_pastes_tile_the_page
    (fuel : nat) (pm : page_metrics) (path : string) :
  viewport_height pm < total_height pm → 20 < viewport_height pm →
  viewport_height pm ≤ image_height pm →
  (Z.to_nat (total_height pm) ≤ fuel)%nat →
  ∃ screenshots calls,
    capture_tiles fuel (total_height pm) (viewport_height pm)
      (image_height pm) 0 = Some screenshots
    ∧ _take_full_page_screenshot fuel pm path
      = Some (calls, Canvas (viewport_width pm) (total_height pm)
                       (stitch (total_height pm) 0 screenshots))
    ∧ abutting 0 (total_height pm) (stitch (total_height pm) 0 screenshots)
    ∧ (∀ y, times_written y (stitch (total_height pm) 0 screenshots)
            = if bool_decide (0 ≤ y < total_height pm) then 1%nat else 0%nat)
    ∧ Forall (crop_inside (image_height pm))
        (stitch (total_height pm) 0 screenshots)
    ∧ Forall2 (λ t p, scroll_pos t ≤ paste_y p
                      ∧ crop_top p = paste_y p - scroll_pos t)
        screenshots (stitch (total_height pm) 0 screenshots)
    ∧ (image_height pm = viewport_height pm →
       end_to_end 0 (total_height pm) (stitch (total_height pm) 0 screenshots)
       ∧ Forall (crop_within (viewport_height pm))
           (stitch (total_height pm) 0 screenshots)).
Proof.
  intros Hhigh Hoverlap Himage Hfuel.
  destruct (capture_tiles_ends (total_height pm) (viewport_height pm)
              (image_height pm) Hoverlap fuel 0) as [tiles Htiles]; [lia|lia|].
  destruct (stitch_captured_high (total_height pm) (viewport_height pm)
              (image_height pm) Hoverlap fuel 0 0 tiles) as [Hend Hcrop];
    [lia|lia|lia|lia|done|].
  destruct (tall_page_saves_canvas fuel pm path tiles Hhigh Htiles)
    as [calls Hsaved].
  exists tiles, calls. split; [done|]. split; [done|]. split; [done|].
  split; [intros y; by apply times_written_abutting|].
  split; [done|]. split; [apply stitch_per_tile|].
  intros Heq. rewrite Heq in Htiles.
  apply (stitch_captured (total_height pm) (viewport_height pm)
           Hoverlap fuel 0 0 tiles); [lia|lia|lia|done].
Qed.

(** The theorem at a page of 3000 rows in a viewport of 900, with
    screenshots of 900 rows and with screenshots of 1800 rows. *)
Lemma stitched_pastes_tile_the_page_witness :
  (∃ screenshots calls,
     capture_tiles 3000 3000 900 900 0 = Some screenshots
     ∧ _take_full_page_screenshot 3000 sample_metrics "uploads/form_filled.png"
       = Some (calls, Canvas 1280 3000 (stitch 3000 0 screenshots))
     ∧ abutting 0 3000 (stitch 3000 0 screenshots)
     ∧ (∀ y, times_written y (stitch 3000 0 screenshots)
             = if bool_decide (0 ≤ y < 3000) then 1%nat else 0%nat)
     ∧ Forall (crop_inside 900) (stitch 3000 0 screenshots)
     ∧ Forall2 (λ t p, scroll_pos t ≤ paste_y p
                       ∧ crop_top p = paste_y p - scroll_pos t)
         screenshots (stitch 3000 0 screenshots)
     ∧ (900 = 900 →
        end_to_end 0 3000 (stitch 3000 0 screenshots)
        ∧ Forall (crop_within 900) (stitch 3000 0 screenshots)))
  ∧ (∃ screenshots calls,
       capture_tiles 3000 3000 900 1800 0 = Some screenshots
       ∧ _take_full_page_screenshot 3000 retina_metrics "uploads/form_filled.png"
         = Some (calls, Canvas 1280 3000 (stitch 3000 0 screenshots))
       ∧ abutting 0 3000 (stitch 3000 0 screenshots)
       ∧ (∀ y, times_written y (stitch 3000 0 screenshots)
               = if bool_decide (0 ≤ y < 3000) then 1%nat else 0%nat)
       ∧ Forall (crop_inside 1800) (stitch 3000 0 screenshots)
       ∧ Forall2 (λ t p, scroll_pos t ≤ paste_y p
                         ∧ crop_top p = paste_y p - scroll_pos t)
           screenshots (stitch 3000 0 screenshots)
       ∧ (1800 = 900 →
          end_to_end 0 3000 (stitch 3000 0 screenshots)
          ∧ Forall (crop_within 900) (stitch 3000 0 screenshots))).
Proof.
  split.
  - apply (stitched_pastes_tile_the_page 3000 sample_metrics
             "uploads/form_filled.png"); cbn; lia.
  - apply (stitched_pastes_tile_the_page 3000 retina_metrics
             "uploads/form_filled.png"); cbn; lia.
Defined.

(** C3, as stated, fails: with screenshots half as high as the viewport the
    page of 3000 rows is higher than the viewport of 900 rows, which is
    higher than the overlap, and the canvas the function saves has rows
    that no tile writes: the first tile ends at row 450 and the second is
    pasted at row 880. *)
Lemma short_screenshots_leave_a_gap :
  viewport_height half_scale_metrics < total_height half_scale_metrics
  ∧ 20 < viewport_height half_scale_metrics
  ∧ ∃ calls pastes,
      _take_full_page_screenshot 3000 half_scale_metrics
        "uploads/form_filled.png"
      = Some (calls, Canvas 1280 3000 pastes)
      ∧ pastes !! 0%nat
        = Some {| paste_y := 0; crop_top := 0; crop_bottom := 450 |}
      ∧ pastes !! 1%nat
        = Some {| paste_y := 880; crop_top := 0; crop_bottom := 450 |}
      ∧ times_written 500 pastes = 0%nat.
Proof.
  split; [done|]. split; [done|]. eexists _, _.
  split; [vm_compute; reflexivity|]. by vm_compute.
Qed.

(** C8.  When the page is not higher than the viewport, the function takes
    one screenshot, with [save_screenshot], and never scrolls: the tiling
    loop is not entered, whatever [fuel] it is given. *)
Theorem single_screenshot_when_page_fits
    (fuel : nat) (pm : page_metrics) (path : string) :
  total_height pm ≤ viewport_height pm →
  ∃ calls,
    _take_full_page_screenshot fuel pm path = Some (calls, Viewport_shot)
    ∧ List.filter is_capture calls = [Save_screenshot path]
    ∧ List.filter is_scroll calls = [].
Proof.
  intros Hfits. unfold _take_full_page_screenshot.
  destruct (Z.leb_spec (total_height pm) (viewport_height pm)); [|lia].
  by eexists.
Qed.

(** The theorem at a page exactly as high as the viewport. *)
Lemma single_screenshot_when_page_fits_witness :
  ∃ calls,
    _take_full_page_screenshot 0
      {| original_size := (1280, 900); total_width := 1280; total_height := 900;
         viewport_height := 900; viewport_width := 1280; image_height := 900 |}
      "uploads/form_filled.png"
    = Some (calls, Viewport_shot)
    ∧ List.filter is_capture calls = [Save_screenshot "uploads/form_filled.png"]
    ∧ List.filter is_scroll calls = [].
Proof. apply single_screenshot_when_page_fits. cbn. lia. Defined.

Lemma page_fits_takes_viewport_shot fuel pm path :
  total_height pm ≤ viewport_height pm →
  ∃ calls, _take_full_page_screenshot fuel pm path = Some (calls, Viewport_shot).
Proof.
  intros Hfits. unfold _take_full_page_screenshot.
  destruct (Z.leb_spec (total_height pm) (viewport_height pm)); [|lia].
  by eexists.
Qed.

(** Why [loop_ends] asks for a viewport above the overlap: at a viewport
    of 20 rows the scroll position never moves, and no number of passes
    ends the loop. *)
Lemma capture_tiles_spins fuel : capture_tiles fuel 100 20 20 0 = None.
Proof.
  induction fuel as [|fuel IH]; [done|].
  change (capture_tiles (S fuel) 100 20 20 0)
    with (cons {| scroll_pos := 0; img_height := 20 |}
            <$> capture_tiles fuel 100 20 20 0).
  by rewrite IH.
Qed.

Lemma take_full_page_screenshot_ends fuel pm path :
  loop_ends pm → (Z.to_nat (total_height pm) ≤ fuel)%nat →
  ∃ res, _take_full_page_screenshot fuel pm path = Some res.
Proof.
  intros Hends Hfuel.
  destruct (Z.le_gt_cases (total_height pm) (viewport_height pm)) as [Hfits|Hhigh].
  - destruct (page_fits_takes_viewport_shot fuel pm path Hfits) as [? ?].
    by eexists.
  - destruct Hends as [?|Hoverlap]; [lia|].
    destruct (capture_tiles_ends (total_height pm) (viewport_height pm)
                (image_height pm) Hoverlap fuel 0) as [tiles Htiles];
      [lia|lia|].
    unfold _take_full_page_screenshot.
    destruct (Z.leb_spec (total_height pm) (viewport_height pm)); [lia|].
    rewrite Htiles. cbn [mbind option_bind].
    destruct tiles as [|t1 [|t2 tiles]]; by eexists.
Qed.

(** ** The contract of [fill_form] with its caller *)

Section Contract.

Variables (fuel : nat) (b : browser).
Variables passport_data g28_data : gmap string pyval.

Lemma launched_launch : launched b → launch b = Ok.
Proof.
  unfold launch. intros [H|H]; rewrite H; [done|].
  by destruct (managed_driver b).
Qed.

Lemma screenshot_step_ends st :
  loop_ends (page_size b) →
  (Z.to_nat (total_height (page_size b)) ≤ fuel)%nat →
  ∃ r, screenshot_step fuel b st = Some (r, st).
Proof.
  intros Hends Hfuel. unfold screenshot_step.
  destruct (capture b); [|by eexists].
  destruct (take_full_page_screenshot_ends fuel (page_size b)
              "uploads/form_filled.png" Hends Hfuel) as [res ->].
  by eexists.
Qed.

Lemma fill_form_body_ends :
  loop_ends (page_size b) →
  (Z.to_nat (total_height (page_size b)) ≤ fuel)%nat →
  ∃ r st,
    fill_form_body fuel b passport_data g28_data empty_lists = Some (r, st)
    ∧ st_errors st = [].
Proof.
  intros Hends Hfuel. unfold fill_form_body, mbind, exec_bind.
  destruct (fill_stage_ends b passport_data g28_data empty_lists)
    as (r1 & st1 & -> & He).
  destruct r1 as [[]|e]; [|by eexists _, _].
  destruct (screenshot_step_ends st1 Hends Hfuel) as [r ->].
  by exists r, st1.
Qed.

Lemma fill_stage_navigation_fails e :
  navigation b = Fails e →
  fill_stage b passport_data g28_data empty_lists
  = Some (Raise e, empty_lists).
Proof. intros H. unfold fill_stage, mbind, exec_bind. by rewrite H. Qed.

(** C1, as amended.  When neither way of starting Chrome works,
    [fill_form] raises to its caller.  Once the driver is started, and
    provided the screenshot loop ends, it returns a dict: the fields
    filled until the main [try] block ended, with no error when the
    block returned and the one message of the exception when it raised.
    A failed navigation gives no field and one error; a failed capture
    gives the fields filled before it and one error. *)
Theorem fill_form_returns_once_launched :
  (∀ e1 e2, managed_driver b = Fails e1 → system_driver b = Fails e2 →
     fill_form fuel b passport_data g28_data
     = Some (Raise (launch_failure e2)))
  ∧ (launched b → loop_ends (page_size b) →
     (Z.to_nat (total_height (page_size b)) ≤ fuel)%nat →
     ∃ r st,
       fill_form_body fuel b passport_data g28_data empty_lists = Some (r, st)
       ∧ fill_form fuel b passport_data g28_data
         = Some (Return (result_of r st)))
  ∧ (launched b → ∀ e, navigation b = Fails e →
     fill_form fuel b passport_data g28_data
     = Some (Return {| filled_fields := []; errors := [e];
                       screenshot := None; total_filled := 0 |}))
  ∧ (launched b → ∀ e st,
     fill_stage b passport_data g28_data empty_lists = Some (Return tt, st) →
     capture b = Fails e →
     fill_form fuel b passport_data g28_data
     = Some (Return {| filled_fields := st_filled_fields st; errors := [e];
                       screenshot := None;
                       total_filled := length (st_filled_fields st) |})).
Proof.
  split; [|split; [|split]].
  - intros e1 e2 H1 H2. unfold fill_form, launch. by rewrite H1, H2.
  - intros Hl%launched_launch Hends Hfuel.
    destruct (fill_form_body_ends Hends Hfuel) as (r & st & Hbody & He).
    exists r, st. split; [done|]. by apply fill_form_of_body.
  - intros Hl%launched_launch e Hnav.
    apply (fill_form_of_body fuel b passport_data g28_data
             (Raise e) empty_lists Hl); [|done].
    unfold fill_form_body, mbind, exec_bind.
    by rewrite (fill_stage_navigation_fails e Hnav).
  - intros Hl%launched_launch e st Hstage Hcap.
    destruct (fill_stage_ends b passport_data g28_data empty_lists)
      as (r1 & st1 & Hr1 & He).
    rewrite Hstage in Hr1. injection Hr1 as <- <-.
    apply (fill_form_of_body fuel b passport_data g28_data
             (Raise e) st Hl); [|done].
    unfold fill_form_body, mbind, exec_bind. rewrite Hstage.
    unfold screenshot_step. by rewrite Hcap.
Qed.

End Contract.

(** The theorem at the sample form and documents: six fields, no error. *)
Lemma fill_form_returns_once_launched_witness :
  ∃ r st,
    fill_form_body 3000 sample_browser sample_passport sample_g28 empty_lists
    = Some (r, st)
    ∧ fill_form 3000 sample_browser sample_passport sample_g28
      = Some (Return (result_of r st)).
Proof.
  apply (fill_form_returns_once_launched 3000 sample_browser
           sample_passport sample_g28).
  - left. reflexivity.
  - right. cbn. lia.
  - cbn. lia.
Defined.

(** C1, as stated, fails: with no driver, [fill_form] returns no dict, it
    raises. *)
Lemma fill_form_raises_without_driver :
  fill_form 3000 no_driver sample_passport sample_g28
  = Some (Raise (launch_failure "chromedriver not in PATH"))
  ∧ ¬ (∃ fuel r,
         fill_form fuel no_driver sample_passport sample_g28 = Some (Return r)).
Proof. split; [done|]. by intros (fuel & r & H). Qed.

(** ** The model's answer: [_parse_json_response] *)

Section Strings.

Lemma app_cons c s t : String c s +:+ t = String c (s +:+ t).
Proof. reflexivity. Qed.

Lemma app_nil_l' t : "" +:+ t = t.
Proof. reflexivity. Qed.

Lemma app_nil_r' s : s +:+ "" = s.
Proof. induction s as [|c s IH]; [done|]. by rewrite app_cons, IH. Qed.

Lemma app_assoc' s t u : (s +:+ t) +:+ u = s +:+ (t +:+ u).
Proof. induction s as [|c s IH]; [done|]. by rewrite !app_cons, IH. Qed.

Lemma length_app' s t :
  String.length (s +:+ t) = (String.length s + String.length t)%nat.
Proof. induction s as [|c s IH]; [done|]. rewrite app_cons. cbn. by rewrite IH. Qed.

Lemma drop_app s t : Py.drop (String.length s) (s +:+ t) = t.
Proof. induction s as [|c s IH]; [by destruct t|]. by rewrite app_cons. Qed.

Lemma take_app s t : Py.take (String.length s) (s +:+ t) = s.
Proof.
  induction s as [|c s IH]; [by destruct t|]. rewrite app_cons. cbn.
  by rewrite IH.
Qed.

Lemma take_length n s : (String.length (Py.take n s) ≤ n)%nat.
Proof.
  revert s. induction n as [|n IH]; intros [|c s]; cbn; try lia.
  specialize (IH s). lia.
Qed.

Lemma take_prefix n s : Py.startswith s (Py.take n s) = true.
Proof.
  revert s. induction n as [|n IH]; intros [|c s]; cbn; try done.
  by rewrite Ascii.eqb_refl, IH.
Qed.

Lemma startswith_app p s : Py.startswith (p +:+ s) p = true.
Proof.
  induction p as [|c p IH]; [by destruct s|]. rewrite app_cons. cbn.
  by rewrite Ascii.eqb_refl.
Qed.

Lemma endswith_app s p : Py.endswith (s +:+ p) p = true.
Proof.
  unfold Py.endswith. rewrite length_app'.
  replace (String.length s + String.length p - String.length p)%nat
    with (String.length s) by lia.
  rewrite drop_app, String.eqb_refl.
  by rewrite andb_true_r, Nat.leb_le; lia.
Qed.

(** *** Whitespace *)

Lemma blank_cons c w : blank (String c w) ↔ Py.is_space c = true ∧ blank w.
Proof.
  unfold blank. cbn. destruct (Py.is_space c); [tauto|]. split; [done|].
  by intros [? _].
Qed.

Lemma lstrip_blank_app w s : blank w → Py.lstrip (w +:+ s) = Py.lstrip s.
Proof.
  induction w as [|c w IH]; [done|]. intros [Hc Hw]%blank_cons.
  rewrite app_cons. cbn. rewrite Hc. by apply IH.
Qed.

Lemma rstrip_blank w : blank w → Py.rstrip w = "".
Proof.
  induction w as [|c w IH]; [done|]. intros [Hc Hw]%blank_cons.
  cbn. by rewrite (IH Hw), Hc.
Qed.

Lemma rstrip_app_blank s w : blank w → Py.rstrip (s +:+ w) = Py.rstrip s.
Proof.
  intros Hw. induction s as [|c s IH]; [by apply rstrip_blank|].
  rewrite app_cons. cbn. by rewrite IH.
Qed.

Lemma rstrip_app_fixed s t :
  t ≠ "" → Py.rstrip t = t → Py.rstrip (s +:+ t) = s +:+ t.
Proof.
  intros Hne Ht. induction s as [|c s IH]; [done|].
  rewrite app_cons. cbn. rewrite IH.
  destruct (s +:+ t) eqn:E; [|by rewrite andb_false_r].
  destruct s; [by rewrite app_nil_l' in E|by rewrite app_cons in E].
Qed.

Lemma lstrip_fixed_app s t : s ≠ "" → Py.lstrip s = s → Py.lstrip (s +:+ t) = s +:+ t.
Proof.
  destruct s as [|c s]; [done|]. intros _. rewrite app_cons. cbn.
  destruct (Py.is_space c) eqn:Hc; [|done].
  intros H. exfalso. assert (String.length (Py.lstrip s) ≤ String.length s)%nat.
  { clear. induction s as [|a s IH]; cbn; [done|].
    destruct (Py.is_space a); cbn; lia. }
  rewrite H in H0. cbn in H0. lia.
Qed.

(** *** Searching one character *)

Lemma find_range c s : -1 ≤ Py.find c s < Z.of_nat (String.length s) ∨ (Py.find c s = -1).
Proof.
  induction s as [|a s IH]; cbn [Py.find String.length]; [lia|].
  destruct (Ascii.eqb a c); [lia|].
  destruct (Z.ltb_spec (Py.find c s) 0); lia.
Qed.

Lemma rfind_absent c s : Py.rfind c s = -1 ↔ absent c s.
Proof.
  unfold absent. induction s as [|a s IH]; cbn [Py.find Py.rfind]; [done|].
  assert (-1 ≤ Py.rfind c s).
  { clear. induction s as [|b s IH]; cbn [Py.rfind]; [lia|].
    destruct (Z.leb_spec 0 (Py.rfind c s)); [lia|].
    destruct (Ascii.eqb b c); lia. }
  pose proof (find_range c s).
  destruct (Z.leb_spec 0 (Py.rfind c s));
    destruct (Ascii.eqb a c); destruct (Z.ltb_spec (Py.find c s) 0); lia.
Qed.

(** The first occurrence splits the string. *)
Lemma find_split c s :
  Py.find c s ≠ -1 →
  ∃ pre post,
    s = pre +:+ String c post ∧ absent c pre
    ∧ Py.find c s = Z.of_nat (String.length pre).
Proof.
  unfold absent. induction s as [|a s IH]; cbn [Py.find]; [done|].
  destruct (Ascii.eqb_spec a c) as [->|Hne].
  - intros _. by exists "", s.
  - destruct (Z.ltb_spec (Py.find c s) 0) as [?|Hpos]; [done|]. intros _.
    destruct IH as (pre & post & -> & Hpre & Hlen); [lia|].
    exists (String a pre), post. rewrite app_cons. split; [done|].
    cbn [Py.find String.length]. rewrite Hpre.
    destruct (Ascii.eqb_spec a c); [done|]. split; [done|]. lia.
Qed.

(** The last occurrence splits the string. *)
Lemma rfind_split c s :
  0 ≤ Py.rfind c s →
  ∃ pre post,
    s = pre +:+ String c post ∧ absent c post
    ∧ Py.rfind c s = Z.of_nat (String.length pre).
Proof.
  induction s as [|a s IH]; cbn [Py.rfind]; [lia|].
  destruct (Z.leb_spec 0 (Py.rfind c s)) as [Hpos|Hneg].
  - intros _. destruct IH as (pre & post & -> & Hpost & Hlen); [done|].
    exists (String a pre), post. rewrite app_cons. split; [done|].
    split; [done|]. cbn [String.length]. lia.
  - destruct (Ascii.eqb_spec a c) as [->|Hne]; [|lia]. intros _.
    exists "", s. split; [done|]. split; [|done].
    apply rfind_absent.
    assert (-1 ≤ Py.rfind c s); [|lia].
    clear. induction s as [|b s IH]; cbn [Py.rfind]; [lia|].
    destruct (Z.leb_spec 0 (Py.rfind c s)); [lia|].
    destruct (Ascii.eqb b c); lia.
Qed.

(** Two ways of cutting one string at different characters. *)
Lemma app_cut pre a rest pre' b post :
  pre +:+ String a rest = pre' +:+ String b post →
  a ≠ b → (String.length pre ≤ String.length pre')%nat →
  ∃ mid, pre' = pre +:+ String a mid ∧ rest = mid +:+ String b post.
Proof.
  revert pre'. induction pre as [|c pre IH]; intros [|c' pre'] Heq Hab Hlen.
  - rewrite !app_nil_l' in Heq. congruence.
  - rewrite app_nil_l', app_cons in Heq. injection Heq as -> ->.
    by exists pre'.
  - cbn in Hlen. lia.
  - rewrite !app_cons in Heq. injection Heq as -> Heq.
    destruct (IH pre' Heq Hab) as (mid & -> & ->); [cbn in Hlen; lia|].
    by exists mid.
Qed.

(** The slice of the fallback: from the first [c1] through the last
    [c2]. *)
Lemma slice_between c1 c2 s :
  c1 ≠ c2 → Py.find c1 s ≠ -1 → Py.find c1 s < Py.rfind c2 s + 1 →
  ∃ pre mid post,
    s = pre +:+ String c1 (mid +:+ String c2 post)
    ∧ absent c1 pre ∧ absent c2 post
    ∧ Py.slice (Py.find c1 s) (Py.rfind c2 s + 1) s
      = String c1 (mid +:+ String c2 "").
Proof.
  intros Hc Hfind Hlt.
  destruct (find_split c1 s Hfind) as (pre & rest & Hs & Hpre & Hi).
  destruct (rfind_split c2 s) as (pre' & post & Hs' & Hpost & Hj); [lia|].
  destruct (app_cut pre c1 rest pre' c2 post) as (mid & -> & ->);
    [congruence|done|lia|].
  exists pre, mid, post. split; [done|]. split; [done|]. split; [done|].
  unfold Py.slice. rewrite Hi, Hj, Hs.
  rewrite length_app'. cbn [String.length]. rewrite Nat2Z.id.
  rewrite drop_app.
  replace (Z.to_nat (Z.of_nat (String.length pre + S (String.length mid)) + 1)
           - String.length pre)%nat
    with (String.length (String c1 (mid +:+ String c2 ""))).
  - assert (String c1 (mid +:+ String c2 post)
            = String c1 (mid +:+ String c2 "") +:+ post) as ->
      by (by rewrite app_cons, app_assoc', app_cons, app_nil_l').
    apply take_app.
  - cbn [String.length]. rewrite length_app'. cbn [String.length]. lia.
Qed.

(** *** The fences *)

Lemma strip_padded w0 s w3 :
  blank w0 → blank w3 → Py.lstrip s = s → Py.rstrip s = s →
  Py.strip (w0 +:+ s +:+ w3) = s.
Proof.
  intros H0 H3 Hl Hr. unfold Py.strip. rewrite lstrip_blank_app by done.
  destruct s as [|c s]; [by rewrite app_nil_l', H3|].
  rewrite lstrip_fixed_app by done. by rewrite rstrip_app_blank.
Qed.

Lemma space_not_backtick c r s :
  Py.is_space c = true → Py.startswith (String c r) (String "`" s) = false.
Proof.
  intros Hc. cbn [Py.startswith].
  destruct (Ascii.eqb_spec "`"%char c) as [<-|]; done.
Qed.

Lemma fenced_body_end w1 body w2 :
  Py.endswith (w1 +:+ body +:+ w2 +:+ "```") "```" = true
  ∧ Py.take (String.length (w1 +:+ body +:+ w2 +:+ "```") - 3)
      (w1 +:+ body +:+ w2 +:+ "```")
    = w1 +:+ body +:+ w2.
Proof.
  rewrite <- !app_assoc'. split; [apply endswith_app|].
  rewrite length_app'. change (String.length "```") with 3%nat.
  rewrite Nat.add_sub. apply take_app.
Qed.

Lemma fenced_fixed (fence : string) w1 body w2 :
  Py.startswith fence "`" = true →
  Py.lstrip (fence +:+ w1 +:+ body +:+ w2 +:+ "```")
  = fence +:+ w1 +:+ body +:+ w2 +:+ "```"
  ∧ Py.rstrip (fence +:+ w1 +:+ body +:+ w2 +:+ "```")
    = fence +:+ w1 +:+ body +:+ w2 +:+ "```".
Proof.
  intros Hf. split.
  - destruct fence as [|c fence]; [done|]. cbn [Py.startswith] in Hf.
    destruct (Ascii.eqb_spec "`"%char c) as [<-|]; [|done].
    by rewrite app_cons.
  - rewrite <- !app_assoc'. by apply rstrip_app_fixed.
Qed.

Lemma drop_fence s : Py.drop 3 ("```" +:+ s) = s.
Proof. apply (drop_app "```"). Qed.

Lemma drop_json_fence s : Py.drop 7 ("```json" +:+ s) = s.
Proof. apply (drop_app "```json"). Qed.

(** A body between a [```json] fence and a closing fence. *)
Lemma strip_fences_json w0 w1 body w2 w3 :
  blank w0 → blank w1 → w1 ≠ "" → blank w2 → blank w3 →
  Py.lstrip body = body → Py.rstrip body = body →
  strip_fences (w0 +:+ "```json" +:+ w1 +:+ body +:+ w2 +:+ "```" +:+ w3)
  = body.
Proof.
  intros H0 H1 Hne H2 H3 Hl Hr. unfold strip_fences.
  destruct (fenced_fixed "```json" w1 body w2) as [Hfl Hfr]; [done|].
  destruct (fenced_body_end w1 body w2) as [Hend Htake].
  replace (w0 +:+ "```json" +:+ w1 +:+ body +:+ w2 +:+ "```" +:+ w3)
    with (w0 +:+ ("```json" +:+ w1 +:+ body +:+ w2 +:+ "```") +:+ w3)
    by (by rewrite !app_assoc').
  rewrite strip_padded by done.
  rewrite startswith_app.
  rewrite drop_json_fence.
  destruct w1 as [|c w1]; [done|]. apply blank_cons in H1 as [Hc H1].
  rewrite (app_cons c w1) in *.
  rewrite (space_not_backtick c _ _ Hc).
  rewrite <- !(app_cons c w1) in *.
  rewrite Hend, Htake.
  apply (strip_padded (String c w1) body w2); [|done..].
  by apply blank_cons.
Qed.

(** A body between a plain fence and a closing fence. *)
Lemma strip_fences_plain w0 w1 body w2 w3 :
  blank w0 → blank w1 → w1 ≠ "" → blank w2 → blank w3 →
  Py.lstrip body = body → Py.rstrip body = body →
  strip_fences (w0 +:+ "```" +:+ w1 +:+ body +:+ w2 +:+ "```" +:+ w3)
  = body.
Proof.
  intros H0 H1 Hne H2 H3 Hl Hr. unfold strip_fences.
  destruct (fenced_fixed "```" w1 body w2) as [Hfl Hfr]; [done|].
  destruct (fenced_body_end w1 body w2) as [Hend Htake].
  replace (w0 +:+ "```" +:+ w1 +:+ body +:+ w2 +:+ "```" +:+ w3)
    with (w0 +:+ ("```" +:+ w1 +:+ body +:+ w2 +:+ "```") +:+ w3)
    by (by rewrite !app_assoc').
  rewrite strip_padded by done.
  destruct w1 as [|c w1]; [done|]. apply blank_cons in H1 as [Hc H1].
  assert (Py.startswith
            ("```" +:+ String c w1 +:+ body +:+ w2 +:+ "```") "```json"
          = false) as ->.
  { rewrite !app_cons, app_nil_l'. cbn [Py.startswith].
    rewrite !Ascii.eqb_refl. cbn [andb].
    destruct (Ascii.eqb_spec "j"%char c) as [<-|]; done. }
  rewrite startswith_app.
  rewrite drop_fence.
  rewrite Hend, Htake.
  apply (strip_padded (String c w1) body w2); [|done..].
  by apply blank_cons.
Qed.

(** A body with no fence. *)
Lemma strip_fences_bare w0 body w3 :
  blank w0 → blank w3 →
  Py.lstrip body = body → Py.rstrip body = body →
  Py.startswith body "```" = false → Py.endswith body "```" = false →
  strip_fences (w0 +:+ body +:+ w3) = body.
Proof.
  intros H0 H3 Hl Hr Hs He. unfold strip_fences.
  rewrite strip_padded by done.
  assert (Py.startswith body "```json" = false) as ->.
  { destruct body as [|a [|b [|c body]]]; try done.
    cbn [Py.startswith] in Hs |- *.
    assert (Py.startswith body "" = true) as Hnil by (by destruct body).
    rewrite Hnil in Hs.
    destruct (Ascii.eqb "`" a), (Ascii.eqb "`" b), (Ascii.eqb "`" c); done. }
  rewrite Hs, He. unfold Py.strip. by rewrite Hl.
Qed.

End Strings.

(** *** The method *)

Section Occurrences.

Lemma find_app_cons c a b : 0 ≤ Py.find c (a +:+ String c b).
Proof.
  induction a as [|x a IH].
  - rewrite app_nil_l'. cbn [Py.find]. by rewrite Ascii.eqb_refl.
  - rewrite app_cons. cbn [Py.find]. destruct (Ascii.eqb x c); [done|].
    destruct (Z.ltb_spec (Py.find c (a +:+ String c b)) 0); lia.
Qed.

Lemma absent_lacks c s : absent c s ↔ lacks c s.
Proof.
  split.
  - intros Habs a b ->. pose proof (find_app_cons c a b).
    unfold absent in Habs. lia.
  - intros Hlacks. destruct (decide (Py.find c s = -1)) as [|Hfound]; [done|].
    destruct (find_split c s Hfound) as (pre & post & -> & _).
    by destruct (Hlacks pre post).
Qed.

Lemma absent_cons c a s : absent c (String a s) ↔ a ≠ c ∧ absent c s.
Proof.
  unfold absent. cbn [Py.find]. pose proof (find_range c s).
  destruct (Ascii.eqb_spec a c); destruct (Z.ltb_spec (Py.find c s) 0);
    split; intros; try split; try lia; try done; try tauto.
Qed.

(** The first occurrence is where the string is cut after a part without
    the character. *)
Lemma find_first c pre rest :
  absent c pre →
  Py.find c (pre +:+ String c rest) = Z.of_nat (String.length pre).
Proof.
  induction pre as [|a pre IH].
  - intros _. rewrite app_nil_l'. cbn [Py.find]. by rewrite Ascii.eqb_refl.
  - intros [Hne Hpre]%absent_cons. rewrite app_cons. cbn [Py.find String.length].
    destruct (Ascii.eqb_spec a c); [done|]. rewrite IH by done.
    destruct (Z.ltb_spec (Z.of_nat (String.length pre)) 0); lia.
Qed.

(** The last occurrence is where the string is cut before a part without
    the character. *)
Lemma rfind_last c s post :
  absent c post →
  Py.rfind c (s +:+ String c post) = Z.of_nat (String.length s).
Proof.
  intros Hpost. induction s as [|a s IH].
  - rewrite app_nil_l'. cbn [Py.rfind String.length].
    apply rfind_absent in Hpost as ->. cbn. by rewrite Ascii.eqb_refl.
  - rewrite app_cons. cbn [Py.rfind String.length]. rewrite IH.
    destruct (Z.leb_spec 0 (Z.of_nat (String.length s))); lia.
Qed.

(** The slice of the fallback at a string cut at its first [c1] and its
    last [c2]. *)
Lemma slice_of_cut c1 c2 pre mid post :
  absent c1 pre → absent c2 post →
  let s := pre +:+ String c1 (mid +:+ String c2 post) in
  Py.find c1 s = Z.of_nat (String.length pre)
  ∧ Py.rfind c2 s + 1 = Z.of_nat (String.length pre + String.length mid + 2)
  ∧ Py.slice (Py.find c1 s) (Py.rfind c2 s + 1) s
    = String c1 (mid +:+ String c2 "").
Proof.
  intros Hpre Hpost s.
  assert (Py.find c1 s = Z.of_nat (String.length pre)) as Hi
    by (by apply find_first).
  assert (Py.rfind c2 s = Z.of_nat (String.length (pre +:+ String c1 mid)))
    as Hj.
  { unfold s. rewrite <- app_cons, <- app_assoc'. by apply rfind_last. }
  rewrite length_app' in Hj. cbn [String.length] in Hj.
  split; [done|]. split; [lia|].
  unfold Py.slice. rewrite Hi, Hj. unfold s. rewrite Nat2Z.id, drop_app.
  replace (Z.to_nat (Z.of_nat (String.length pre + S (String.length mid)) + 1)
           - String.length pre)%nat
    with (String.length (String c1 (mid +:+ String c2 ""))).
  - assert (String c1 (mid +:+ String c2 post)
            = String c1 (mid +:+ String c2 "") +:+ post) as ->
      by (by rewrite app_cons, app_assoc', app_cons, app_nil_l').
    apply take_app.
  - cbn [String.length]. rewrite length_app'. cbn [String.length]. lia.
Qed.

End Occurrences.

Section ParseJsonResponseSpec.

Context {json : Type} (json_loads : string → loads_outcome json).

Lemma failure_dict_lookup text :
  failure_dict text !! "error" = Some "Failed to parse response"
  ∧ failure_dict text !! "raw_response" = Some (Py.take 500 text)
  ∧ dom (failure_dict text) = {[ "error"; "raw_response" ]}.
Proof.
  unfold failure_dict. split; [|split].
  - by rewrite lookup_insert_eq.
  - rewrite lookup_insert_ne by done. by rewrite lookup_singleton_eq.
  - by rewrite dom_insert_L, dom_singleton_L.
Qed.

(** The second attempt, at a text cut at its first "{" and its last
    "}". *)
Lemma parse_json_response_fallback text pre mid post :
  json_loads (strip_fences text) = JSONDecodeError →
  strip_fences text = pre +:+ String "{" (mid +:+ String "}" post) →
  lacks "{" pre → lacks "}" post →
  _parse_json_response json_loads text
  = match json_loads (String "{" (mid +:+ String "}" "")) with
    | Loaded v => Return (Parsed v)
    | JSONDecodeError =>
        Return (Error_dict (failure_dict (strip_fences text)))
    | Raises msg => Raise msg
    end.
Proof.
  intros Hfirst Hcut Hpre%absent_lacks Hpost%absent_lacks.
  destruct (slice_of_cut "{" "}" pre mid post Hpre Hpost)
    as (Hi & Hj & Hslice).
  unfold _parse_json_response. rewrite Hfirst.
  rewrite Hcut, Hslice, Hi, Hj.
  destruct (Z.eqb_spec (Z.of_nat (String.length pre)) (-1)); [lia|].
  destruct (Z.ltb_spec (Z.of_nat (String.length pre))
              (Z.of_nat (String.length pre + String.length mid + 2)));
    [done|lia].
Qed.

(** No second attempt at a text with no "{" that has a "}" after it. *)
Lemma parse_json_response_no_fallback text :
  json_loads (strip_fences text) = JSONDecodeError →
  (∀ pre mid post,
     strip_fences text ≠ pre +:+ String "{" (mid +:+ String "}" post)) →
  _parse_json_response json_loads text
  = Return (Error_dict (failure_dict (strip_fences text))).
Proof.
  intros Hfirst Hno. unfold _parse_json_response. rewrite Hfirst.
  destruct (Z.eqb_spec (Py.find "{" (strip_fences text)) (-1)); [done|].
  destruct (Z.ltb_spec (Py.find "{" (strip_fences text))
              (Py.rfind "}" (strip_fences text) + 1)); [|done].
  destruct (slice_between "{" "}" (strip_fences text))
    as (pre & mid & post & Ht & _); [done|done|done|].
  by destruct (Hno pre mid post).
Qed.

(** C10, as amended.  [_parse_json_response] raises what [json.loads]
    raises besides [JSONDecodeError], and nothing else.  With [t] the
    ASCII text stripped of whitespace and fences: when [t] parses, the
    result is its value; when [json.loads] refuses it with
    [JSONDecodeError] and it has a "{" with a "}" after it, the part of
    [t] from the first "{" through the last "}" is parsed, and its value
    is the result when it parses; when that part is refused too, or there
    is no such part, the result is the dict with the keys "error" and
    "raw_response", the latter the first 500 characters of [t] at most.
    A body between a [```json] or plain fence and a closing fence, or
    with none, is what is stripped to. *)
Theorem parse_json_response_spec (text : string) :
  Py.isascii text = true →
  let t := strip_fences text in
  (∀ v, json_loads t = Loaded v →
     _parse_json_response json_loads text = Return (Parsed v))
  ∧ (∀ msg, json_loads t = Raises msg →
       _parse_json_response json_loads text = Raise msg)
  ∧ (∀ pre mid post,
       json_loads t = JSONDecodeError →
       t = pre +:+ String "{" (mid +:+ String "}" post) →
       lacks "{" pre → lacks "}" post →
       _parse_json_response json_loads text
       = match json_loads (String "{" (mid +:+ String "}" "")) with
         | Loaded v => Return (Parsed v)
         | JSONDecodeError => Return (Error_dict (failure_dict t))
         | Raises msg => Raise msg
         end)
  ∧ (json_loads t = JSONDecodeError →
     (∀ pre mid post, t ≠ pre +:+ String "{" (mid +:+ String "}" post)) →
     _parse_json_response json_loads text
     = Return (Error_dict (failure_dict t)))
  ∧ ((∀ s msg, json_loads s ≠ Raises msg) →
     ∃ r, _parse_json_response json_loads text = Return r)
  ∧ (failure_dict t !! "error" = Some "Failed to parse response"
     ∧ failure_dict t !! "raw_response" = Some (Py.take 500 t)
     ∧ dom (failure_dict t) = {[ "error"; "raw_response" ]}
     ∧ (String.length (Py.take 500 t) ≤ 500)%nat
     ∧ Py.startswith t (Py.take 500 t) = true)
  ∧ (∀ w0 w1 body w2 w3,
       blank w0 → blank w1 → w1 ≠ "" → blank w2 → blank w3 →
       Py.isascii body = true →
       Py.lstrip body = body → Py.rstrip body = body →
       strip_fences (w0 +:+ "```json" +:+ w1 +:+ body +:+ w2 +:+ "```" +:+ w3)
       = body
       ∧ strip_fences (w0 +:+ "```" +:+ w1 +:+ body +:+ w2 +:+ "```" +:+ w3)
         = body)
  ∧ (∀ w0 body w3,
       blank w0 → blank w3 → Py.isascii body = true →
       Py.lstrip body = body → Py.rstrip body = body →
       Py.startswith body "```" = false → Py.endswith body "```" = false →
       strip_fences (w0 +:+ body +:+ w3) = body).
Proof.
  intros _ t. split; [|split; [|split; [|split; [|split; [|split; [|split]]]]]].
  - intros v Hv. unfold _parse_json_response. fold t. by rewrite Hv.
  - intros msg Hmsg. unfold _parse_json_response. fold t. by rewrite Hmsg.
  - intros pre mid post. apply parse_json_response_fallback.
  - apply parse_json_response_no_fallback.
  - intros Hnever. unfold _parse_json_response. fold t.
    destruct (json_loads t) as [v| |msg] eqn:Hfirst;
      [by eexists| |by apply Hnever in Hfirst].
    destruct (negb _ && _); [|by eexists].
    destruct (json_loads (Py.slice _ _ t)) as [v| |msg] eqn:Hsecond;
      [by eexists|by eexists|by apply Hnever in Hsecond].
  - destruct (failure_dict_lookup t) as (? & ? & ?).
    repeat split; try done; [apply take_length|apply take_prefix].
  - intros w0 w1 body w2 w3 ????? _ ??.
    split; [by apply strip_fences_json|by apply strip_fences_plain].
  - intros w0 body w3 ?? _. by apply strip_fences_bare.
Qed.

End ParseJsonResponseSpec.

(** The theorem at a fenced empty object, which is parsed; at an answer
    with words around the object, where the part between the braces is
    parsed; and at a text with no brace, which gives the error dict. *)
Lemma parse_json_response_spec_witness :
  _parse_json_response loads_empty_object
    ("```json" +:+ newline +:+ "{}" +:+ newline +:+ "```")
  = Return (Parsed tt)
  ∧ _parse_json_response loads_empty_object "Here is the object: {} ."
    = Return (Parsed tt)
  ∧ _parse_json_response loads_empty_object "I cannot read this image"
    = Return (Error_dict (failure_dict "I cannot read this image")).
Proof.
  assert (∀ c s, Py.find c s = -1 → lacks c s) as Hlacks
    by (intros c s; apply absent_lacks).
  split; [|split].
  - apply (parse_json_response_spec loads_empty_object); reflexivity.
  - destruct (parse_json_response_spec loads_empty_object
                "Here is the object: {} ." eq_refl) as (_ & _ & Hsecond & _).
    apply (Hsecond "Here is the object: " "" " .");
      [reflexivity|reflexivity|by apply Hlacks|by apply Hlacks].
  - destruct (parse_json_response_spec loads_empty_object
                "I cannot read this image" eq_refl) as (_ & _ & _ & Hnone & _).
    apply Hnone; [reflexivity|].
    intros pre mid post Hcut.
    assert (0 ≤ Py.find "{" "I cannot read this image") as Hfound
      by (change "I cannot read this image"
            with (strip_fences "I cannot read this image");
          rewrite Hcut; apply find_app_cons).
    by vm_compute in Hfound.
Defined.

(** C10, as stated, fails: at a text of 5000 digits [json.loads] raises the
    [ValueError] of [int], which is no [JSONDecodeError]; no handler of the
    method catches it and the method raises. *)
Lemma parse_json_response_raises_on_long_integer :
  String.length long_integer = 5000%nat
  ∧ _parse_json_response json_loads_integer long_integer
    = Raise ("Exceeds the limit (4300 digits) for integer string "
             +:+ "conversion: value has 5000 digits; use "
             +:+ "sys.set_int_max_str_digits() to increase the limit").
Proof. split; by vm_compute. Qed.

(** ** US states, padded and in either case *)

Section FormatState.

Lemma upper_app s t : Py.upper (s +:+ t) = Py.upper s +:+ Py.upper t.
Proof.
  unfold Py.upper. induction s as [|c s IH]; [done|].
  rewrite app_cons. cbn [Py.map_chars]. by rewrite app_cons, IH.
Qed.

Lemma is_space_upper_char c : Py.is_space (Py.upper_char c) = Py.is_space c.
Proof. by destruct c as [[] [] [] [] [] [] [] []]. Qed.

Lemma blank_upper w : blank w → blank (Py.upper w).
Proof.
  unfold Py.upper. induction w as [|c w IH]; [done|].
  intros [Hc Hw]%blank_cons. cbn [Py.map_chars]. apply blank_cons.
  rewrite is_space_upper_char. split; [done|by apply IH].
Qed.

Lemma state_keys_trimmed :
  Forall (λ kv, kv.1 ≠ "" ∧ Py.lstrip kv.1 = kv.1 ∧ Py.rstrip kv.1 = kv.1)
    state_abbrev_list.
Proof. apply (bool_decide_unpack _). by vm_compute. Qed.

(** The key looked up for a padded abbreviation in either case. *)
Lemma padded_key key full pre body post :
  (key, full) ∈ state_abbrev_list →
  blank pre → blank post → Py.upper body = key →
  Py.strip (Py.upper (pre +:+ body +:+ post)) = key.
Proof.
  intros Hin Hpre Hpost Hkey.
  pose proof state_keys_trimmed as Hall. rewrite Forall_forall in Hall.
  destruct (Hall _ Hin) as (_ & Hl & Hr). cbn [fst] in Hl, Hr.
  rewrite !upper_app, Hkey.
  by apply strip_padded; [apply blank_upper|apply blank_upper|..].
Qed.

(** C7.  The table has 51 entries.  For a string that is neither empty
    nor "N/A" and is ASCII between the whitespace around it,
    [format_state] looks up the upper-cased, trimmed string: when that is
    an abbreviation of the table, the result is the full name the table
    gives; when it is not, the result is the input as it was.  An
    abbreviation of the table in either case, with whitespace before or
    after it, is looked up as the abbreviation. *)
Theorem format_state_spec (s : string) :
  Py.isascii (Py.strip s) = true → s ≠ "" → s ≠ "N/A" →
  length state_abbrev_list = 51%nat
  ∧ (∀ full, (Py.strip (Py.upper s), full) ∈ state_abbrev_list →
       format_state (Some s) = Some full)
  ∧ (Py.strip (Py.upper s) ∉ state_abbrev_list.*1 →
       format_state (Some s) = Some s)
  ∧ (∀ key full pre body post,
       (key, full) ∈ state_abbrev_list →
       s = pre +:+ body +:+ post → blank pre → blank post →
       Py.upper body = key →
       format_state (Some s) = Some full).
Proof.
  intros _ H1 H2. destruct s as [|c s]; [done|].
  assert (∀ full, (Py.strip (Py.upper (String c s)), full) ∈ state_abbrev_list →
                  format_state (Some (String c s)) = Some full) as Hhit.
  { intros full Hin. rewrite format_state_unfold by done.
    apply (elem_of_list_to_map_1 (M := gmap string)) in Hin;
      [|apply state_abbrev_keys_NoDup].
    unfold state_abbrev_map. by rewrite Hin. }
  split; [done|]. split; [done|]. split.
  - intros Hnot. rewrite format_state_unfold by done.
    apply (not_elem_of_list_to_map_1 (M := gmap string)) in Hnot.
    unfold state_abbrev_map. by rewrite Hnot.
  - intros key full pre body post Hin Hs Hpre Hpost Hkey.
    apply Hhit. rewrite Hs.
    by rewrite (padded_key key full pre body post).
Qed.

End FormatState.

(** The theorem at "ca", at "Timbuktu", and at "ny" between a tab and a
    no-break space. *)
Lemma format_state_spec_witness :
  format_state (Some "ca") = Some "California"
  ∧ format_state (Some "Timbuktu") = Some "Timbuktu"
  ∧ format_state (Some (String "009" "" +:+ "ny" +:+ String "160" ""))
    = Some "New York".
Proof.
  split; [|split].
  - apply (format_state_spec "ca"); [reflexivity|discriminate|discriminate|].
    apply (bool_decide_unpack _). by vm_compute.
  - apply (format_state_spec "Timbuktu");
      [reflexivity|discriminate|discriminate|].
    apply (bool_decide_unpack _). by vm_compute.
  - destruct (format_state_spec
                (String "009" "" +:+ "ny" +:+ String "160" ""))
      as (_ & _ & _ & Hpadded); [reflexivity|discriminate|discriminate|].
    apply (Hpadded "NY" "New York" (String "009" "") "ny" (String "160" ""));
      [|reflexivity..].
    apply (bool_decide_unpack _). by vm_compute.
Defined.

(** * Further properties *)

(** ** The normalisers, applied twice and read back *)

Section Normalisers.
Import Datetime.

Ltac each_digit H :=
  apply is_digit_cases in H;
  repeat (apply elem_of_cons in H as [->|H]);
  [..|by apply elem_of_nil in H].

Lemma digit_char_digit n :
  0 ≤ n ≤ 9 → is_digit (digit_char n) = true ∧ digit_val (digit_char n) = n.
Proof.
  intros Hn.
  assert (n = 0 ∨ n = 1 ∨ n = 2 ∨ n = 3 ∨ n = 4 ∨ n = 5 ∨ n = 6 ∨ n = 7
          ∨ n = 8 ∨ n = 9) as Hcases by lia.
  repeat (destruct Hcases as [->|Hcases]; [done|]). by subst.
Qed.

(** What [strftime] prints: the month and the day in two digits each. *)
Lemma strftime_shape y m d :
  0 ≤ m ≤ 99 → 0 ≤ d ≤ 99 →
  ∃ m1 m2 d1 d2,
    digits [m1; m2; d1; d2]
    ∧ strftime y m d = MM_DD m1 m2 d1 d2 (year_digits y)
    ∧ number [m1; m2] = m ∧ number [d1; d2] = d.
Proof.
  intros Hm Hd.
  destruct (digit_char_digit (m / 10)) as [? ?]; [Z.div_mod_to_equations; lia|].
  destruct (digit_char_digit (m mod 10)) as [? ?]; [Z.div_mod_to_equations; lia|].
  destruct (digit_char_digit (d / 10)) as [? ?]; [Z.div_mod_to_equations; lia|].
  destruct (digit_char_digit (d mod 10)) as [? ?]; [Z.div_mod_to_equations; lia|].
  exists (digit_char (m / 10)), (digit_char (m mod 10)),
    (digit_char (d / 10)), (digit_char (d mod 10)).
  split; [by repeat constructor|]. split; [done|].
  rewrite !number_2.
  repeat match goal with H : digit_val _ = _ |- _ => rewrite H; clear H end.
  split; Z.div_mod_to_equations; lia.
Qed.

(** What [%Y] prints: the digits of the year, four of them from the year
    1000 on and fewer below. *)
Lemma year_digits_spec y :
  1 ≤ y ≤ 9999 →
  let year := String.list_ascii_of_string (year_digits y) in
  digits year ∧ number year = y
  ∧ (1000 ≤ y → String.length (year_digits y) = 4%nat)
  ∧ (y < 1000 → (String.length (year_digits y) < 4)%nat).
Proof.
  intros Hy. unfold year_digits.
  destruct (Z.ltb_spec y 10); [|destruct (Z.ltb_spec y 100);
    [|destruct (Z.ltb_spec y 1000)]].
  - destruct (digit_char_digit y) as [? Hval]; [lia|].
    cbn. split; [by repeat constructor|]. unfold number. cbn.
    rewrite Hval. lia.
  - destruct (digit_char_digit (y / 10)) as [? Ha]; [Z.div_mod_to_equations; lia|].
    destruct (digit_char_digit (y mod 10)) as [? Hb]; [Z.div_mod_to_equations; lia|].
    unfold two_digits. cbv zeta.
    cbn [String.list_ascii_of_string String.length].
    split; [by repeat constructor|]. rewrite number_2, Ha, Hb.
    split; [Z.div_mod_to_equations; lia|]. lia.
  - destruct (digit_char_digit (y / 100)) as [? Ha]; [Z.div_mod_to_equations; lia|].
    destruct (digit_char_digit (y mod 100 / 10)) as [? Hb];
      [Z.div_mod_to_equations; lia|].
    destruct (digit_char_digit ((y mod 100) mod 10)) as [? Hc];
      [Z.div_mod_to_equations; lia|].
    cbn. split; [by repeat constructor|]. unfold number. cbn.
    rewrite Ha, Hb, Hc. split; [Z.div_mod_to_equations; lia|]. lia.
  - destruct (digit_char_digit (y / 1000)) as [? Ha]; [Z.div_mod_to_equations; lia|].
    destruct (digit_char_digit (y / 100 mod 10)) as [? Hb];
      [Z.div_mod_to_equations; lia|].
    destruct (digit_char_digit (y / 10 mod 10)) as [? Hc];
      [Z.div_mod_to_equations; lia|].
    destruct (digit_char_digit (y mod 10)) as [? Hd];
      [Z.div_mod_to_equations; lia|].
    unfold four_digits. cbv zeta.
    cbn [String.list_ascii_of_string String.length].
    split; [by repeat constructor|]. rewrite number_4, Ha, Hb, Hc, Hd.
    split; [Z.div_mod_to_equations; lia|]. lia.
Qed.

Lemma valid_date_bounds y m d :
  valid_date y m d = true → 1 ≤ y ≤ 9999 ∧ 0 ≤ m ≤ 99 ∧ 0 ≤ d ≤ 99.
Proof.
  unfold valid_date. intros H.
  repeat (apply andb_true_iff in H as [H ?]).
  assert (days_in_month y m ≤ 31).
  { unfold days_in_month. repeat case_match; lia. }
  lia.
Qed.

(** X1.  Every string [format_date] reads as a date is rendered as
    month/day/year with the month and the day in two digits each, and the
    digits of the rendering write the year, month and day that were read:
    nothing of the date is lost, however the input spelled the month and
    the day.  From the year 1000 on the year has four digits and the
    rendering is the ten characters MM/DD/YYYY; below, [%Y] prints fewer
    digits. *)
Theorem format_date_reads_back (s : string) (y m d : Z) :
  date_spelling s y m d →
  ∃ m1 m2 d1 d2 year,
    digits (m1 :: m2 :: d1 :: d2 :: String.list_ascii_of_string year)
    ∧ format_date (Some s) = Some (MM_DD m1 m2 d1 d2 year)
    ∧ number (String.list_ascii_of_string year) = y
    ∧ number [m1; m2] = m ∧ number [d1; d2] = d
    ∧ (1000 ≤ y → String.length year = 4%nat)
    ∧ (y < 1000 → (String.length year < 4)%nat).
Proof.
  intros Hs. pose proof Hs as (_ & _ & _ & _ & _ & _ & _ & _ & _ & _ & _ & Hv).
  apply valid_date_bounds in Hv as (Hy & Hm & Hd).
  destruct (strftime_shape y m d Hm Hd)
    as (m1 & m2 & d1 & d2 & Hdig & Hf & ? & ?).
  destruct (year_digits_spec y Hy) as (Hyear & Hnum & Hfour & Hless).
  exists m1, m2, d1, d2, (year_digits y).
  repeat (apply Forall_cons in Hdig as [? Hdig]).
  split; [by repeat (constructor; [done|])|].
  rewrite <- Hf. split; [|done].
  by apply format_date_parsed, strptime_spelling.
Qed.

(** The theorem at "1990-1-5" and at "0999-12-31". *)
Lemma format_date_reads_back_witness :
  (∃ m1 m2 d1 d2 year,
     digits (m1 :: m2 :: d1 :: d2 :: String.list_ascii_of_string year)
     ∧ format_date (Some "1990-1-5") = Some (MM_DD m1 m2 d1 d2 year)
     ∧ number (String.list_ascii_of_string year) = 1990
     ∧ number [m1; m2] = 1 ∧ number [d1; d2] = 5
     ∧ (1000 ≤ 1990 → String.length year = 4%nat)
     ∧ (1990 < 1000 → (String.length year < 4)%nat))
  ∧ (∃ m1 m2 d1 d2 year,
       digits (m1 :: m2 :: d1 :: d2 :: String.list_ascii_of_string year)
       ∧ format_date (Some "0999-12-31") = Some (MM_DD m1 m2 d1 d2 year)
       ∧ number (String.list_ascii_of_string year) = 999
       ∧ number [m1; m2] = 12 ∧ number [d1; d2] = 31
       ∧ (1000 ≤ 999 → String.length year = 4%nat)
       ∧ (999 < 1000 → (String.length year < 4)%nat)).
Proof.
  split.
  - apply (format_date_reads_back "1990-1-5" 1990 1 5).
    exists "1"%char, "9"%char, "9"%char, "0"%char, "1", "5".
    split; [reflexivity|]. split; [by repeat constructor|].
    split; [reflexivity|]. split.
    + apply (month_one_digit "1"); [by repeat constructor|by vm_compute].
    + split; [|reflexivity].
      apply (day_one_digit "5"); [by repeat constructor|by vm_compute].
  - apply (format_date_reads_back "0999-12-31" 999 12 31).
    exists "0"%char, "9"%char, "9"%char, "9"%char, "12", "31".
    split; [reflexivity|]. split; [by repeat constructor|].
    split; [reflexivity|]. split.
    + apply (month_two_digits "1" "2"); [by repeat constructor|by vm_compute].
    + split; [|reflexivity].
      apply (day_two_digits "3" "1"); [by repeat constructor|by vm_compute].
Defined.

(** A rendering is not read as a date again. *)
Lemma format_date_rendering_fixed m1 m2 d1 d2 year :
  digits [m1; m2; d1; d2] →
  format_date (Some (MM_DD m1 m2 d1 d2 year))
  = Some (MM_DD m1 m2 d1 d2 year).
Proof.
  intros Hd. repeat (apply Forall_cons in Hd as [? Hd]).
  match goal with H : is_digit m1 = true |- _ => each_digit H end;
    match goal with H : is_digit d2 = true |- _ => each_digit H end;
    reflexivity.
Qed.

Lemma format_date_rendering s y m d :
  strptime s = Some (y, m, d) →
  ∃ m1 m2 d1 d2 year,
    digits [m1; m2; d1; d2]
    ∧ format_date (Some s) = Some (MM_DD m1 m2 d1 d2 year).
Proof.
  intros Hs. pose proof (strptime_inv _ _ _ _ Hs)
    as (_ & _ & _ & _ & _ & _ & _ & _ & _ & _ & _ & Hv).
  apply valid_date_bounds in Hv as (Hy & Hm & Hd).
  destruct (strftime_shape y m d Hm Hd)
    as (m1 & m2 & d1 & d2 & Hdig & Hf & _).
  exists m1, m2, d1, d2, (year_digits y). split; [done|].
  rewrite <- Hf. by apply format_date_parsed.
Qed.

(** X2.  [format_date] applied to its own result changes nothing: a date
    that was rendered once stays as it is, also when a filled value goes
    through the date branch of [fill_field_by_id] again. *)
Theorem format_date_idempotent (v : pyval) :
  format_date (format_date v) = format_date v.
Proof.
  destruct v as [s|]; [|done].
  destruct (strptime s) as [[[y m] d]|] eqn:Hs.
  - destruct (format_date_rendering s y m d Hs)
      as (m1 & m2 & d1 & d2 & year & Hdig & ->).
    by apply format_date_rendering_fixed.
  - destruct (decide (s = "")) as [->|Hne]; [done|].
    destruct (decide (s = "N/A")) as [->|HNA]; [done|].
    by rewrite !format_date_unparsed.
Qed.

(** X3.  [format_gender] applied to its own result changes nothing: "F" and
    "M" are read as themselves, and a string that is passed through is
    passed through again. *)
Theorem format_gender_idempotent (v : pyval) :
  format_gender (format_gender v) = format_gender v.
Proof.
  unfold format_gender at 2 3.
  destruct (negb (truthy v) || is_NA v) eqn:Hguard; [done|].
  destruct (Py.contains (Py.lower (py_str v)) "female"
            || String.eqb (Py.lower (py_str v)) "f") eqn:Hf; [done|].
  destruct (Py.contains (Py.lower (py_str v)) "male"
            || String.eqb (Py.lower (py_str v)) "m") eqn:Hm; [done|].
  unfold format_gender. by rewrite Hguard, Hf, Hm.
Qed.

Lemma state_names_fixed :
  Forall (λ kv, format_state (Some kv.2) = Some kv.2) state_abbrev_list.
Proof. apply (bool_decide_unpack _). by vm_compute. Qed.

(** X4.  [format_state] applied to its own result changes nothing: no full
    name of the table is itself read as an abbreviation. *)
Theorem format_state_idempotent (v : pyval) :
  format_state (format_state v) = format_state v.
Proof.
  unfold format_state at 2 3.
  destruct (negb (truthy v) || is_NA v) eqn:Hguard; [done|].
  destruct (state_abbrev_map !! Py.strip (Py.upper (py_str v)))
    as [full|] eqn:Hlook.
  - apply (elem_of_list_to_map_2 (M := gmap string)) in Hlook.
    pose proof state_names_fixed as Hall.
    rewrite Forall_forall in Hall. by apply (Hall _ Hlook).
  - unfold format_state. by rewrite Hguard, Hlook.
Qed.

End Normalisers.

(** ** What one call of [fill_field_by_id] does *)

Lemma fill_field_by_id_outcome pg field_id v field_name st :
  let r := fill_field_by_id pg field_id v field_name st in
  st_errors r.2 = st_errors st
  ∧ (r.1 = true →
     st_filled_fields r.2
     = st_filled_fields st
       ++ [if Py.is_empty field_name then field_id else field_name]
     ∧ ∃ acts, st_actions r.2 = st_actions st ++ acts ∧ (length acts ≤ 1)%nat)
  ∧ (r.1 = false → r.2 = st).
Proof.
  cbv zeta. unfold fill_field_by_id, record_fill.
  generalize (if Py.is_empty field_name then field_id else field_name).
  intros name.
  repeat case_match; cbn [fst snd st_errors st_filled_fields st_actions];
    (split; [done|]); (split; [|done]); try done;
    intros _; (split; [done|]); eexists; (split; [done|]);
    try (cbn; lia).
  match goal with |- context [option_list (_ <$> ?sel)] => destruct sel; cbn; lia end.
Qed.

(** X5.  A call of [fill_field_by_id] that returns [True] has appended one
    name, the field's name or, when that is empty, its id, and has acted
    on the page at most once; a call that returns [False] has changed
    nothing; [errors] is never written. *)
Theorem fill_field_by_id_reports_what_it_did
    (pg : gmap string element) (field_id field_name : string)
    (v : pyval) (st : run_state) :
  let r := fill_field_by_id pg field_id v field_name st in
  st_errors r.2 = st_errors st
  ∧ (r.1 = true →
     st_filled_fields r.2
     = st_filled_fields st
       ++ [if Py.is_empty field_name then field_id else field_name]
     ∧ ∃ acts, st_actions r.2 = st_actions st ++ acts ∧ (length acts ≤ 1)%nat)
  ∧ (r.1 = false → r.2 = st).
Proof. apply fill_field_by_id_outcome. Qed.

(** X6.  An id that is not in the page, or whose element is not displayed,
    is never filled, whatever the value: the call returns [False] and
    changes nothing. *)
Theorem fill_field_by_id_needs_visible_element
    (pg : gmap string element) (field_id field_name : string)
    (v : pyval) (st : run_state) :
  pg !! field_id = None
  ∨ (∃ el, pg !! field_id = Some el ∧ is_displayed el = false) →
  fill_field_by_id pg field_id v field_name st = (false, st).
Proof.
  intros [H|(el & H & Hd)]; unfold fill_field_by_id; rewrite H, ?Hd;
    by case_match.
Qed.

(** The theorem at a form whose city input is hidden. *)
Lemma fill_field_by_id_needs_visible_element_witness :
  fill_field_by_id (<["city" := hidden_input]> sample_page) "city"
    (Some "Los Angeles") "attorney_city" empty_lists
  = (false, empty_lists).
Proof.
  apply fill_field_by_id_needs_visible_element.
  right. exists hidden_input. split; reflexivity.
Defined.

(** *** Dates typed into a date input *)

Section DateInput.
Import Datetime.

Lemma contains_app pre p post : Py.contains (pre +:+ p +:+ post) p = true.
Proof.
  induction pre as [|c pre IH].
  - change (Py.contains (p +:+ post) p = true).
    pose proof (startswith_app p post) as Hs.
    destruct (p +:+ post); cbn [Py.contains]; by rewrite Hs.
  - rewrite app_cons. cbn [Py.contains]. rewrite IH. apply orb_true_r.
Qed.

Lemma digit_not_dash c : is_digit c = true → Ascii.eqb "-" c = false.
Proof.
  intros H. apply is_digit_cases in H.
  repeat (apply elem_of_cons in H as [->|H]; [done|]).
  by apply elem_of_nil in H.
Qed.

Lemma rendering_has_no_dash y1 y2 y3 y4 m1 m2 d1 d2 :
  digits [y1; y2; y3; y4; m1; m2; d1; d2] →
  Py.contains (MM_DD_YYYY y1 y2 y3 y4 m1 m2 d1 d2) "-" = false.
Proof.
  intros Hd. repeat (apply Forall_cons in Hd as [? Hd]).
  unfold MM_DD_YYYY. cbn [Py.contains Py.startswith].
  rewrite (digit_not_dash y1), (digit_not_dash y2), (digit_not_dash y3),
    (digit_not_dash y4), (digit_not_dash m1), (digit_not_dash m2),
    (digit_not_dash d1), (digit_not_dash d2) by done.
  reflexivity.
Qed.

Lemma iso_has_dash y1 y2 y3 y4 m1 m2 d1 d2 :
  Py.contains (YYYY_MM_DD y1 y2 y3 y4 m1 m2 d1 d2) "-" = true.
Proof.
  apply (contains_app (String y1 (String y2 (String y3 (String y4 "")))) "-"
           (String m1 (String m2 (String "-" (String d1 (String d2 "")))))).
Qed.

(** X7.  A displayed, interactable input of type "date" that is given a
    calendar date of the years 1000 to 9999 written YYYY-MM-DD receives
    the keys MM/DD/YYYY, and it receives the same keys when the value was
    rendered by [format_date] beforehand, as [fill_form] does for the
    three passport dates: the date is never rendered twice. *)
Theorem date_input_receives_rendered_date
    (pg : gmap string element) (field_id field_name : string)
    (el : element) (st : run_state) (y1 y2 y3 y4 m1 m2 d1 d2 : ascii) :
  pg !! field_id = Some el → is_displayed el = true →
  String.eqb (Py.lower (tag_name el)) "select" = false →
  type_attribute el = Some "date" → interactable el = true →
  digits [y1; y2; y3; y4; m1; m2; d1; d2] →
  valid_date (number [y1; y2; y3; y4]) (number [m1; m2]) (number [d1; d2])
  = true →
  1000 ≤ number [y1; y2; y3; y4] →
  fill_field_by_id pg field_id (Some (YYYY_MM_DD y1 y2 y3 y4 m1 m2 d1 d2))
    field_name st
  = (true, record_fill field_id field_name
             [Send_keys field_id (MM_DD_YYYY y1 y2 y3 y4 m1 m2 d1 d2)] st)
  ∧ fill_field_by_id pg field_id
      (format_date (Some (YYYY_MM_DD y1 y2 y3 y4 m1 m2 d1 d2))) field_name st
    = (true, record_fill field_id field_name
               [Send_keys field_id (MM_DD_YYYY y1 y2 y3 y4 m1 m2 d1 d2)] st).
Proof.
  intros Hpg Hdisp Htag Htype Hint Hdig Hv Hyear.
  assert (format_date (Some (YYYY_MM_DD y1 y2 y3 y4 m1 m2 d1 d2))
          = Some (MM_DD_YYYY y1 y2 y3 y4 m1 m2 d1 d2)) as Hfmt.
  { rewrite <- (strftime_YYYY_MM_DD _ _ _ _ _ _ _ _ Hdig Hyear).
    by apply format_date_parsed, strptime_spelling, date_spelling_YYYY_MM_DD. }
  rewrite Hfmt. split.
  - unfold fill_field_by_id.
    assert (is_NA (Some (YYYY_MM_DD y1 y2 y3 y4 m1 m2 d1 d2)) = false) as ->
      by (by apply String.eqb_neq).
    assert (truthy (Some (YYYY_MM_DD y1 y2 y3 y4 m1 m2 d1 d2)) = true) as ->
      by done.
    rewrite bool_decide_eq_false_2 by done. cbn [negb orb py_str].
    rewrite Hpg, Hdisp, Htag, Htype, Hint.
    rewrite iso_has_dash, Hfmt. by cbn.
  - unfold fill_field_by_id.
    assert (is_NA (Some (MM_DD_YYYY y1 y2 y3 y4 m1 m2 d1 d2)) = false) as ->
      by (by apply String.eqb_neq).
    assert (truthy (Some (MM_DD_YYYY y1 y2 y3 y4 m1 m2 d1 d2)) = true) as ->
      by done.
    rewrite bool_decide_eq_false_2 by done. cbn [negb orb py_str].
    rewrite Hpg, Hdisp, Htag, Htype, Hint.
    rewrite rendering_has_no_dash by done. by cbn.
Qed.

End DateInput.

(** The theorem at the date of birth of the sample passport. *)
Lemma date_input_receives_rendered_date_witness :
  fill_field_by_id sample_page "passport-dob" (Some "1990-01-15")
    "passport_dob" empty_lists
  = (true, record_fill "passport-dob" "passport_dob"
             [Send_keys "passport-dob" "01/15/1990"] empty_lists)
  ∧ fill_field_by_id sample_page "passport-dob"
      (format_date (Some "1990-01-15")) "passport_dob" empty_lists
    = (true, record_fill "passport-dob" "passport_dob"
               [Send_keys "passport-dob" "01/15/1990"] empty_lists).
Proof.
  apply (date_input_receives_rendered_date sample_page "passport-dob"
           "passport_dob" date_input empty_lists
           "1" "9" "9" "0" "0" "1" "1" "5");
    first [reflexivity | by repeat constructor | by vm_compute].
Defined.

(** ** What a run records *)

Section Records.

Lemma appends_weaken {A} names names' (m : exec A) :
  sublist names names' → appends names m → appends names' m.
Proof.
  intros Hsub Hm st r st' Hrun. destruct (Hm st r st' Hrun) as (l & Hl & Hs).
  exists l. split; [done|]. by etrans.
Qed.

Lemma appends_unchanged {A} (m : exec A) :
  (∀ st r st', m st = Some (r, st') → st' = st) → appends [] m.
Proof.
  intros Hm st r st' Hrun. apply Hm in Hrun as ->.
  exists []. by rewrite app_nil_r.
Qed.

Lemma appends_ret {A} (a : A) : appends [] (mret a).
Proof. apply appends_unchanged. by intros st r st' [= _ ->]. Qed.

Lemma appends_call o : appends [] (call o).
Proof.
  apply appends_unchanged. intros st r st'. unfold call.
  destruct o; by intros [= _ ->].
Qed.

Lemma appends_eval {A} (r : py_result A) : appends [] (eval r).
Proof. apply appends_unchanged. by intros st r' st' [= _ ->]. Qed.

Lemma appends_screenshot_step fuel b : appends [] (screenshot_step fuel b).
Proof.
  apply appends_unchanged. intros st r st'. apply screenshot_step_state.
Qed.

Lemma appends_fill pg field_id v field_name :
  field_name ≠ "" → appends [field_name] (fill pg field_id v field_name).
Proof.
  intros Hne st r st' [= _ <-].
  destruct (fill_field_by_id_outcome pg field_id v field_name st)
    as (_ & Htrue & Hfalse).
  destruct (fill_field_by_id pg field_id v field_name st).1 eqn:Hflag.
  - destruct (Htrue eq_refl) as [-> _]. exists [field_name].
    split; [|done]. by destruct field_name.
  - rewrite (Hfalse eq_refl). exists []. rewrite app_nil_r.
    split; [done|]. apply sublist_nil_l.
Qed.

Lemma appends_bind {A B} names1 names2 (m : exec A) (k : A → exec B) :
  appends names1 m → (∀ a, appends names2 (k a)) →
  appends (names1 ++ names2) (m ≫= k).
Proof.
  intros Hm Hk st r st' Hrun. unfold mbind, exec_bind in Hrun.
  destruct (m st) as [[[a|e] st1]|] eqn:Hmst; [| |done].
  - destruct (Hm _ _ _ Hmst) as (l1 & Hl1 & Hs1).
    destruct (Hk a _ _ _ Hrun) as (l2 & Hl2 & Hs2).
    exists (l1 ++ l2). rewrite Hl2, Hl1, app_assoc. split; [done|].
    by apply sublist_app.
  - injection Hrun as <- <-. destruct (Hm _ _ _ Hmst) as (l1 & Hl1 & Hs1).
    exists l1. split; [done|]. by apply sublist_inserts_r.
Qed.

Lemma appends_if {A} names (c : bool) (m1 m2 : exec A) :
  appends names m1 → appends names m2 → appends names (if c then m1 else m2).
Proof. by destruct c. Qed.

Lemma appends_name_statement pg g28_data pick key field_id field_name c :
  field_name ≠ "" →
  appends [field_name]
    (if c : bool
     then v ← eval (attorney_name_part pick g28_data key);
          fill pg field_id v field_name
     else mret tt).
Proof.
  intros Hne. apply appends_if.
  - apply (appends_bind [] [field_name]); [apply appends_eval|].
    intros v. by apply appends_fill.
  - apply (appends_weaken []); [apply sublist_nil_l|apply appends_ret].
Qed.

Ltac appends_fills :=
  repeat lazymatch goal with
    | |- appends (?n :: ?rest) (mbind _ (fill _ _ _ ?n)) =>
        apply (appends_bind [n] rest); [by apply appends_fill|intros ?]
    | |- appends [?n] (fill _ _ _ ?n) => by apply appends_fill
    end.

Lemma fill_part1_appends pg g28_data :
  appends part1_fields (fill_part1 pg g28_data).
Proof.
  unfold fill_part1, part1_fields.
  apply (appends_bind ["attorney_family_name"]);
    [by apply appends_name_statement|intros ?].
  apply (appends_bind ["attorney_given_name"]);
    [by apply appends_name_statement|intros ?].
  appends_fills.
Qed.

Lemma fill_part2_appends pg g28_data :
  appends part2_fields (fill_part2 pg g28_data).
Proof. unfold fill_part2, part2_fields. appends_fills. Qed.

Lemma fill_part3_appends pg passport_data :
  appends part3_fields (fill_part3 pg passport_data).
Proof. unfold fill_part3, part3_fields. appends_fills. Qed.

Lemma fill_form_body_appends fuel b passport_data g28_data :
  appends declared_fields (fill_form_body fuel b passport_data g28_data).
Proof.
  unfold fill_form_body, fill_stage.
  apply (appends_weaken (declared_fields ++ [])); [by rewrite app_nil_r|].
  apply (appends_bind declared_fields []);
    [|intros ?; apply appends_screenshot_step].
  apply (appends_bind [] declared_fields); [apply appends_call|intros ?].
  apply (appends_bind [] declared_fields); [apply appends_call|intros ?].
  apply (appends_bind part1_fields (part2_fields ++ part3_fields));
    [apply fill_part1_appends|intros ?].
  apply (appends_bind part2_fields part3_fields);
    [apply fill_part2_appends|intros ?].
  apply fill_part3_appends.
Qed.

(** X8.  The names a run records are among the twenty names of the calls
    of [fill_form], in the order of the calls and each at most once:
    [total_filled] never exceeds 20, whatever the documents and the page
    hold and however the run ends. *)
Theorem filled_fields_follow_the_calls
    (fuel : nat) (b : browser) (passport_data g28_data : gmap string pyval)
    (r : RunResult) :
  fill_form fuel b passport_data g28_data = Some (Return r) →
  sublist (filled_fields r) declared_fields
  ∧ NoDup (filled_fields r) ∧ (total_filled r ≤ 20)%nat.
Proof.
  unfold fill_form. destruct (launch b); [|done].
  destruct (fill_form_body fuel b passport_data g28_data empty_lists)
    as [[res st]|] eqn:Hbody; [|done].
  destruct (fill_form_body_appends _ _ _ _ _ _ _ Hbody) as (l & Hl & Hsub).
  cbn in Hl. subst l.
  assert (NoDup declared_fields) as Hnd
    by (apply (bool_decide_unpack _); by vm_compute).
  pose proof (sublist_length _ _ Hsub) as Hlen.
  change (length declared_fields) with 20%nat in Hlen.
  destruct res as [[]|e]; intros [= <-]; cbn;
    (split; [done|]); (split; [by eapply sublist_NoDup|done]).
Qed.

End Records.

(** The theorem at the sample form and documents. *)
Lemma filled_fields_follow_the_calls_witness :
  let r := {| filled_fields :=
                ["attorney_family_name"; "attorney_given_name"; "attorney_state";
                 "passport_last_name"; "passport_dob"; "passport_sex"];
              errors := []; screenshot := Some "form_filled.png";
              total_filled := 6 |} in
  sublist (filled_fields r) declared_fields
  ∧ NoDup (filled_fields r) ∧ (total_filled r ≤ 20)%nat.
Proof.
  apply (filled_fields_follow_the_calls 3000 sample_browser sample_passport
           sample_g28).
  by vm_compute.
Defined.

(** ** Documents with nothing to fill, and a name of blanks *)

Section Skips.

Lemma seq_skip {A} (m : exec unit) (k : exec A) st :
  m st = Some (Return tt, st) → (m ;; k) st = k st.
Proof. intros H. unfold mbind, exec_bind. by rewrite H. Qed.

Lemma bind_raise {A B} (m : exec A) (k : A → exec B) st e st' :
  m st = Some (Raise e, st') → (m ≫= k) st = Some (Raise e, st').
Proof. intros H. unfold mbind, exec_bind. by rewrite H. Qed.

Lemma fill_unusable pg field_id v field_name st :
  unusable v → fill pg field_id v field_name st = Some (Return tt, st).
Proof. by intros [-> | [-> | ->]]. Qed.

Lemma format_date_unusable v : unusable v → unusable (format_date v).
Proof. intros [-> | [-> | ->]]; by left. Qed.

Lemma format_gender_unusable v : unusable v → unusable (format_gender v).
Proof. intros [-> | [-> | ->]]; by left. Qed.

Lemma format_state_unusable v : unusable v → unusable (format_state v).
Proof. intros [-> | [-> | ->]]; by left. Qed.

Lemma py_or_unusable a b : unusable a → unusable b → unusable (py_or a b).
Proof. intros [-> | [-> | ->]] Hb; try done. by right; right. Qed.

Lemma name_statement_skip pg g28_data pick key field_id field_name
    (c : bool) st :
  unusable (dict_get g28_data key) →
  unusable (dict_get g28_data "attorney_name") →
  pick ["N/A"] = Some "N/A" →
  (if c
   then v ← eval (attorney_name_part pick g28_data key);
        fill pg field_id v field_name
   else mret tt) st
  = Some (Return tt, st).
Proof.
  intros Hkey Hname Hpick. destruct c; [|done].
  unfold attorney_name_part, mbind, exec_bind, eval.
  destruct Hkey as [-> | [-> | ->]], Hname as [-> | [-> | ->]];
    cbn [truthy Py.is_empty negb py_str];
    try change (Py.split "N/A") with ["N/A"]; rewrite ?Hpick;
    apply fill_unusable; unfold unusable;
    first [by left | by right; left | by right; right].
Qed.

Variables (pg : gmap string element) (st : run_state).

Lemma fill_part1_skips g28_data :
  (∀ k, k ∈ g28_keys → unusable (dict_get g28_data k)) →
  fill_part1 pg g28_data st = Some (Return tt, st).
Proof.
  intros Hg.
  assert (∀ k, bool_decide (k ∈ g28_keys) = true → unusable (dict_get g28_data k))
    as Hk by (intros k Hin; apply Hg; by apply bool_decide_eq_true in Hin).
  unfold fill_part1.
  rewrite seq_skip by (apply name_statement_skip; by auto).
  rewrite seq_skip by (apply name_statement_skip; by auto).
  repeat (rewrite seq_skip
            by (apply fill_unusable;
                auto using format_state_unusable, py_or_unusable)).
  apply fill_unusable. by auto.
Qed.

Lemma fill_part2_skips g28_data :
  (∀ k, k ∈ g28_keys → unusable (dict_get g28_data k)) →
  fill_part2 pg g28_data st = Some (Return tt, st).
Proof.
  intros Hg.
  assert (∀ k, bool_decide (k ∈ g28_keys) = true → unusable (dict_get g28_data k))
    as Hk by (intros k Hin; apply Hg; by apply bool_decide_eq_true in Hin).
  unfold fill_part2.
  rewrite seq_skip by (apply fill_unusable; by auto).
  apply fill_unusable. by auto.
Qed.

Lemma fill_part3_skips passport_data :
  (∀ k, k ∈ passport_keys → unusable (dict_get passport_data k)) →
  fill_part3 pg passport_data st = Some (Return tt, st).
Proof.
  intros Hp.
  assert (∀ k, bool_decide (k ∈ passport_keys) = true
               → unusable (dict_get passport_data k))
    as Hk by (intros k Hin; apply Hp; by apply bool_decide_eq_true in Hin).
  unfold fill_part3.
  repeat (rewrite seq_skip
            by (apply fill_unusable;
                auto using format_date_unusable, format_gender_unusable)).
  apply fill_unusable. by auto using format_date_unusable.
Qed.

(** X9.  A G-28 document in which every key [fill_form] reads is missing,
    [None], empty or "N/A" fills no field of parts 1 and 2 and raises
    nothing, so the passport part is still run; likewise a passport
    document with no usable value fills no field of part 3.  This is what
    happens with the dict of a failed extraction, which holds only the
    key "error". *)
Theorem unusable_document_fills_nothing
    (passport_data g28_data : gmap string pyval) :
  ((∀ k, k ∈ g28_keys → unusable (dict_get g28_data k)) →
   (fill_part1 pg g28_data;; fill_part2 pg g28_data) st = Some (Return tt, st))
  ∧ ((∀ k, k ∈ passport_keys → unusable (dict_get passport_data k)) →
     fill_part3 pg passport_data st = Some (Return tt, st)).
Proof.
  split.
  - intros Hg. rewrite seq_skip by (by apply fill_part1_skips).
    by apply fill_part2_skips.
  - apply fill_part3_skips.
Qed.

End Skips.

(** The theorem at an empty G-28 document and at the dict of a failed
    passport extraction. *)
Lemma unusable_document_fills_nothing_witness :
  (fill_part1 sample_page ∅;; fill_part2 sample_page ∅) empty_lists
  = Some (Return tt, empty_lists)
  ∧ fill_part3 sample_page failed_extraction empty_lists
    = Some (Return tt, empty_lists).
Proof.
  destruct (unusable_document_fills_nothing sample_page empty_lists
              failed_extraction ∅) as [Hg Hp].
  split.
  - apply Hg. intros k _. left. reflexivity.
  - apply Hp. intros k Hk. left.
    revert k Hk. apply Forall_forall. by repeat constructor.
Defined.

Lemma split_blank w : blank w → Py.split w = [].
Proof.
  unfold Py.split. induction w as [|c w IH]; [done|].
  intros [Hc Hw]%blank_cons. cbn [Py.split_go]. rewrite Hc. by apply IH.
Qed.

(** X10.  A combined attorney name that consists of whitespace only, with
    no usable structured surname, ends the whole run at its first field:
    indexing the empty list of tokens raises, the handler records "list
    index out of range" as the one error, and no field of either document
    is filled and no screenshot is taken. *)
Theorem blank_attorney_name_aborts_the_run
    (fuel : nat) (b : browser) (passport_data g28_data : gmap string pyval)
    (name : string) :
  launched b → navigation b = Ok → form_scan b = Ok →
  truthy (dict_get g28_data "attorney_last_name") = false →
  dict_get g28_data "attorney_name" = Some name →
  name ≠ "" → blank name →
  fill_form fuel b passport_data g28_data
  = Some (Return {| filled_fields := []; errors := ["list index out of range"];
                    screenshot := None; total_filled := 0 |}).
Proof.
  intros Hl%launched_launch Hnav Hscan Hlast Hname Hne Hblank.
  apply (fill_form_of_body fuel b passport_data g28_data
           (Raise "list index out of range") empty_lists Hl); [|done].
  unfold fill_form_body. apply bind_raise.
  unfold fill_stage. rewrite Hnav, Hscan.
  rewrite !seq_skip by done.
  unfold fill_part1. apply bind_raise.
  assert (dict_has g28_data "attorney_last_name"
          || dict_has g28_data "attorney_name" = true) as ->.
  { apply orb_true_iff. right. unfold dict_has, dict_get in *.
    apply bool_decide_eq_true_2.
    by destruct (g28_data !! "attorney_name"). }
  apply bind_raise. unfold eval, attorney_name_part. rewrite Hlast, Hname.
  destruct name as [|c name]; [done|]. cbn [truthy Py.is_empty negb py_str].
  by rewrite (split_blank _ Hblank).
Qed.

(** The theorem at a G-28 document whose attorney name is two spaces. *)
Lemma blank_attorney_name_aborts_the_run_witness :
  fill_form 3000 sample_browser sample_passport
    {[ "attorney_name" := Some "  " ]}
  = Some (Return {| filled_fields := []; errors := ["list index out of range"];
                    screenshot := None; total_filled := 0 |}).
Proof.
  apply (blank_attorney_name_aborts_the_run 3000 sample_browser
           sample_passport {[ "attorney_name" := Some "  " ]} "  ");
    first [reflexivity | discriminate | by left].
Defined.

(** ** The tiles of a screenshot *)

Section Tiles.

Variables total_height viewport_height image_height : Z.

(** The tiles of the capture loop, by index. *)
Lemma capture_tiles_by_index fuel scroll_position screenshots :
  capture_tiles fuel total_height viewport_height image_height
    scroll_position
  = Some screenshots →
  ∀ (k : nat) t, screenshots !! k = Some t →
    scroll_pos t = scroll_position + Z.of_nat k * (viewport_height - 20)
    ∧ img_height t = image_height
    ∧ scroll_pos t < total_height
    ∧ ((S k < length screenshots)%nat → scroll_pos t + viewport_height < total_height)
    ∧ (S k = length screenshots → total_height ≤ scroll_pos t + viewport_height).
Proof.
  revert scroll_position screenshots.
  induction fuel as [|fuel IH]; intros sp tiles; [done|].
  cbn [capture_tiles].
  destruct (Z.ltb_spec sp total_height); [|by intros [= <-]].
  destruct (Z.geb_spec (sp + viewport_height) total_height).
  - intros [= <-] [|k] t; [|done]. intros [= <-].
    cbn [scroll_pos img_height length]. repeat split; lia.
  - destruct (capture_tiles fuel _ _ _ _) as [rest|] eqn:Hrest; [|done].
    intros [= <-] [|k] t.
    + intros [= <-].
      assert (rest ≠ []) as Hne
        by (eapply capture_tiles_nonempty; [|exact Hrest]; lia).
      destruct rest; [done|].
      cbn [scroll_pos img_height length]. repeat split; lia.
    + intros Hk. cbn in Hk.
      destruct (IH _ _ Hrest k t Hk) as (? & ? & ? & ? & ?).
      cbn [length]. repeat split; lia.
Qed.

Hypothesis overlap : 20 < viewport_height.
Hypothesis high : viewport_height < total_height.

(** How many tiles there are. *)
Lemma capture_tiles_count fuel screenshots :
  capture_tiles fuel total_height viewport_height image_height 0
  = Some screenshots →
  Z.of_nat (length screenshots)
  = 1 + (total_height - 21) / (viewport_height - 20).
Proof.
  intros Htiles.
  pose proof (capture_tiles_by_index _ _ _ Htiles) as Hidx.
  assert (screenshots ≠ []) as Hne
    by (eapply capture_tiles_nonempty; [|exact Htiles]; lia).
  assert (∃ n, length screenshots = S n) as [n Hn]
    by (destruct screenshots; [done|by eexists]).
  destruct (lookup_lt_is_Some_2 screenshots n) as [t Ht]; [lia|].
  destruct (Hidx n t Ht) as (Hpos & _ & _ & _ & Hlast).
  specialize (Hlast ltac:(lia)).
  assert (n = 0%nat ∨ ∃ m, n = S m) as [->|[m ->]]
    by (destruct n; [by left|right; by eexists]).
  - destruct (Hidx 0%nat t Ht) as (_ & _ & _ & Hmore & _). lia.
  - destruct (lookup_lt_is_Some_2 screenshots m) as [t' Ht']; [lia|].
    destruct (Hidx m t' Ht') as (Hpos' & _ & _ & Hmore & _).
    specialize (Hmore ltac:(lia)).
    rewrite Hn. set (s := viewport_height - 20) in *.
    assert ((total_height - 21) / s = Z.of_nat (S m)) as ->; [|lia].
    symmetry.
    apply (Z.div_unique_pos _ _ _ (total_height - 21 - s * Z.of_nat (S m)));
      nia.
Qed.

(** The seams, for screenshots as high as the viewport: after the first
    tile, the paste begins 20 rows into the tile. *)
Lemma stitch_seams fuel scroll_position screenshots :
  scroll_position + 20 < total_height →
  capture_tiles fuel total_height viewport_height viewport_height
    scroll_position
  = Some screenshots →
  Forall (λ p, crop_top p = 20)
    (stitch total_height (scroll_position + 20) screenshots).
Proof.
  revert scroll_position screenshots.
  induction fuel as [|fuel IH]; intros sp tiles Hin; [done|].
  cbn [capture_tiles].
  destruct (Z.ltb_spec sp total_height); [|lia].
  destruct (Z.geb_spec (sp + viewport_height) total_height).
  - intros [= <-]. cbn [stitch scroll_pos img_height].
    rewrite Z.max_r by lia. constructor; [cbn; lia|constructor].
  - destruct (capture_tiles fuel _ _ _ _) as [rest|] eqn:Hrest; [|done].
    intros [= <-]. cbn [stitch scroll_pos img_height].
    rewrite Z.max_r by lia. constructor; [cbn; lia|].
    destruct (Z.ltb_spec (total_height - (sp + 20))
                (viewport_height - (sp + 20 - sp))); [lia|].
    replace (sp + 20 + (viewport_height - (sp + 20 - sp)))
      with (sp + viewport_height - 20 + 20) by lia.
    apply IH; [lia|done].
Qed.

End Tiles.

(** X11.  When the tiling loop ends, its tiles are at the scroll offsets 0,
    h - 20, 2 (h - 20), ... for a viewport of height [h], whatever the
    height of the screenshots: each begins inside the page, the viewport at
    each but the last stops short of the page's end, and at the last it
    reaches it.  For a page higher than a viewport higher than the
    overlap, there are 1 + (total_height - 21) / (h - 20) tiles. *)
Theorem tiles_step_by_viewport_less_overlap
    (fuel : nat) (total_height viewport_height image_height : Z)
    (screenshots : list tile) :
  capture_tiles fuel total_height viewport_height image_height 0
  = Some screenshots →
  (∀ (k : nat) t, screenshots !! k = Some t →
     scroll_pos t = Z.of_nat k * (viewport_height - 20)
     ∧ scroll_pos t < total_height
     ∧ ((S k < length screenshots)%nat → scroll_pos t + viewport_height < total_height)
     ∧ (S k = length screenshots → total_height ≤ scroll_pos t + viewport_height))
  ∧ (20 < viewport_height → viewport_height < total_height →
     Z.of_nat (length screenshots)
     = 1 + (total_height - 21) / (viewport_height - 20)).
Proof.
  intros Htiles. split.
  - intros k t Hk.
    destruct (capture_tiles_by_index _ _ _ _ _ _ Htiles k t Hk)
      as (? & ? & ? & ? & ?).
    repeat split; [lia|done..].
  - intros Hoverlap Hhigh. by eapply capture_tiles_count.
Qed.

(** The theorem at a page of 3000 rows in a viewport of 900, with
    screenshots of 1800 rows: four tiles. *)
Lemma tiles_step_by_viewport_less_overlap_witness :
  let screenshots :=
    [ {| scroll_pos := 0; img_height := 1800 |};
      {| scroll_pos := 880; img_height := 1800 |};
      {| scroll_pos := 1760; img_height := 1800 |};
      {| scroll_pos := 2640; img_height := 1800 |} ] in
  capture_tiles 3000 3000 900 1800 0 = Some screenshots
  ∧ (∀ (k : nat) t, screenshots !! k = Some t →
       scroll_pos t = Z.of_nat k * (900 - 20)
       ∧ scroll_pos t < 3000
       ∧ ((S k < length screenshots)%nat → scroll_pos t + 900 < 3000)
       ∧ (S k = length screenshots → 3000 ≤ scroll_pos t + 900))
  ∧ (20 < 900 → 900 < 3000 →
     Z.of_nat (length screenshots) = 1 + (3000 - 21) / (900 - 20)).
Proof.
  split; [by vm_compute|].
  apply (tiles_step_by_viewport_less_overlap 3000 3000 900 1800).
  by vm_compute.
Defined.

(** The loop at a viewport not higher than the overlap. *)
Lemma capture_tiles_never_ends fuel total_height viewport_height image_height
    scroll_position :
  viewport_height ≤ 20 → viewport_height < total_height →
  scroll_position ≤ 0 → 0 < total_height →
  capture_tiles fuel total_height viewport_height image_height scroll_position
  = None.
Proof.
  intros Hlow Hhigh. revert scroll_position.
  induction fuel as [|fuel IH]; intros sp Hsp Hpos; [done|].
  cbn [capture_tiles].
  destruct (Z.ltb_spec sp total_height); [|lia].
  destruct (Z.geb_spec (sp + viewport_height) total_height); [lia|].
  by rewrite IH by lia.
Qed.

(** X12.  When the viewport the browser reports is not higher than the
    20-pixel overlap and the page is higher than the viewport, the scroll
    position never advances: the tiling loop does not end, whatever the
    number of passes, and a run of [fill_form] that has reached the
    screenshot does not return. *)
Theorem tiling_never_ends_on_low_viewport
    (fuel : nat) (b : browser) (passport_data g28_data : gmap string pyval)
    (st : run_state) :
  0 < total_height (page_size b) →
  viewport_height (page_size b) < total_height (page_size b) →
  viewport_height (page_size b) ≤ 20 →
  (∀ path, _take_full_page_screenshot fuel (page_size b) path = None)
  ∧ (launched b → capture b = Ok →
     fill_stage b passport_data g28_data empty_lists = Some (Return tt, st) →
     fill_form fuel b passport_data g28_data = None).
Proof.
  intros Hpos Hhigh Hlow.
  assert (∀ path, _take_full_page_screenshot fuel (page_size b) path = None)
    as Hshot.
  { intros path. unfold _take_full_page_screenshot.
    destruct (Z.leb_spec (total_height (page_size b))
                (viewport_height (page_size b))); [lia|].
    by rewrite capture_tiles_never_ends by lia. }
  split; [done|]. intros Hl%launched_launch Hcap Hstage.
  unfold fill_form. rewrite Hl.
  unfold fill_form_body, mbind, exec_bind. rewrite Hstage.
  unfold screenshot_step. by rewrite Hcap, Hshot.
Qed.

(** The theorem at a page of 100 rows whose viewport has 20. *)
Lemma tiling_never_ends_on_low_viewport_witness :
  let pm := {| original_size := (1280, 900); total_width := 1280;
               total_height := 100; viewport_height := 20;
               viewport_width := 1280; image_height := 20 |} in
  _take_full_page_screenshot 1000 pm "uploads/form_filled.png" = None.
Proof.
  cbv zeta.
  refine (proj1 (tiling_never_ends_on_low_viewport 1000
           {| managed_driver := Ok; system_driver := Ok; navigation := Ok;
              form_scan := Ok; page := sample_page; capture := Ok;
              page_size := {| original_size := (1280, 900); total_width := 1280;
                              total_height := 100; viewport_height := 20;
                              viewport_width := 1280; image_height := 20 |} |}
           ∅ ∅ empty_lists _ _ _) _); cbn; lia.
Defined.

(** X13.  What the function saves is decided by the two heights alone: the
    viewport shot when the page fits, a canvas of the page's height when it
    does not.  The branch that saves a single tile unstitched is never
    taken: a page higher than the viewport always gives a second tile. *)
Theorem saved_image_is_shot_or_canvas
    (fuel : nat) (pm : page_metrics) (path : string)
    (calls : list driver_call) (img : saved_image) :
  _take_full_page_screenshot fuel pm path = Some (calls, img) →
  (total_height pm ≤ viewport_height pm ∧ img = Viewport_shot)
  ∨ (viewport_height pm < total_height pm
     ∧ ∃ pastes, img = Canvas (viewport_width pm) (total_height pm) pastes).
Proof.
  unfold _take_full_page_screenshot.
  destruct (Z.leb_spec (total_height pm) (viewport_height pm)).
  - intros [= _ <-]. by left.
  - destruct (capture_tiles fuel _ _ _ 0) as [tiles|] eqn:Htiles; [|done].
    cbn [mbind option_bind]. right. split; [done|].
    destruct tiles as [|t1 [|t2 tiles]]; [| |by injection H0 as _ <-; eexists].
    + injection H0 as _ <-. by eexists.
    + exfalso.
      destruct (capture_tiles_by_index _ _ _ _ _ _ Htiles 0%nat t1 eq_refl)
        as (Hpos & _ & _ & _ & Hlast).
      specialize (Hlast eq_refl). lia.
Qed.

(** The theorem at a page exactly as high as the viewport. *)
Lemma saved_image_is_shot_or_canvas_witness :
  let pm := {| original_size := (1280, 900); total_width := 1280;
               total_height := 900; viewport_height := 900;
               viewport_width := 1280; image_height := 900 |} in
  (total_height pm ≤ viewport_height pm ∧ Viewport_shot = Viewport_shot)
  ∨ (viewport_height pm < total_height pm
     ∧ ∃ pastes, Viewport_shot = Canvas (viewport_width pm) (total_height pm) pastes).
Proof.
  cbv zeta.
  eapply (saved_image_is_shot_or_canvas 0 _ "uploads/form_filled.png").
  reflexivity.
Defined.

(** X14.  When the screenshots are as high as the viewport, the first tile
    of a stitched screenshot is pasted whole at row 0 and every later tile
    is pasted without its first 20 rows: the overlap of two consecutive
    tiles is taken from the earlier one. *)
Theorem stitching_drops_the_overlap_rows
    (fuel : nat) (total_height viewport_height image_height : Z)
    (screenshots : list tile) :
  20 < viewport_height → viewport_height < total_height →
  image_height = viewport_height →
  capture_tiles fuel total_height viewport_height image_height 0
  = Some screenshots →
  ∃ first rest,
    stitch total_height 0 screenshots = first :: rest
    ∧ first = {| paste_y := 0; crop_top := 0; crop_bottom := viewport_height |}
    ∧ rest ≠ []
    ∧ Forall (λ p, crop_top p = 20) rest.
Proof.
  intros Hoverlap Hhigh ->. destruct fuel as [|fuel]; [done|].
  cbn [capture_tiles].
  destruct (Z.ltb_spec 0 total_height); [|lia].
  destruct (Z.geb_spec (0 + viewport_height) total_height); [lia|].
  destruct (capture_tiles fuel _ _ _ _) as [tiles|] eqn:Htiles; [|done].
  intros [= <-]. cbn [stitch scroll_pos img_height].
  rewrite Z.max_l by lia.
  destruct (Z.ltb_spec (total_height - 0) (viewport_height - (0 - 0))); [lia|].
  eexists _, _. split; [done|]. split; [f_equal; lia|].
  replace (0 + (viewport_height - (0 - 0)))
    with (0 + viewport_height - 20 + 20) by lia.
  split.
  - assert (tiles ≠ []) as Hne
      by (eapply capture_tiles_nonempty; [|exact Htiles]; lia).
    by destruct tiles.
  - eapply stitch_seams; [..|exact Htiles]; lia.
Qed.

(** The theorem at a page of 3000 rows in a viewport of 900. *)
Lemma stitching_drops_the_overlap_rows_witness :
  ∃ first rest,
    stitch 3000 0
      [ {| scroll_pos := 0; img_height := 900 |};
        {| scroll_pos := 880; img_height := 900 |};
        {| scroll_pos := 1760; img_height := 900 |};
        {| scroll_pos := 2640; img_height := 900 |} ]
    = first :: rest
    ∧ first = {| paste_y := 0; crop_top := 0; crop_bottom := 900 |}
    ∧ rest ≠ []
    ∧ Forall (λ p, crop_top p = 20) rest.
Proof.
  apply (stitching_drops_the_overlap_rows 3000 3000 900 900);
    [lia|lia|done|].
  by vm_compute.
Defined.

(** ** Answers of the model and failed extractions *)

Section Answers.

Context {image json : Type} (json_loads : string → loads_outcome json).

(** X15.  A fence around the answer does not change what is returned, or
    raised: an ASCII body that has no surrounding whitespace and neither
    starts nor ends with three backticks gives the same result bare,
    between a [```json] fence and a closing fence, and between two plain
    fences, whatever whitespace surrounds the fences and follows the
    opening one. *)
Theorem fenced_answer_is_read_as_bare (w0 w1 body w2 w3 : string) :
  blank w0 → blank w1 → w1 ≠ "" → blank w2 → blank w3 →
  Py.isascii body = true →
  Py.lstrip body = body → Py.rstrip body = body →
  Py.startswith body "```" = false → Py.endswith body "```" = false →
  _parse_json_response json_loads
    (w0 +:+ "```json" +:+ w1 +:+ body +:+ w2 +:+ "```" +:+ w3)
  = _parse_json_response json_loads body
  ∧ _parse_json_response json_loads
      (w0 +:+ "```" +:+ w1 +:+ body +:+ w2 +:+ "```" +:+ w3)
    = _parse_json_response json_loads body.
Proof.
  intros H0 H1 Hne H2 H3 _ Hl Hr Hs He.
  assert (strip_fences body = body) as Hbare.
  { pose proof (strip_fences_bare "" body "" eq_refl eq_refl Hl Hr Hs He)
      as Hb.
    by rewrite app_nil_l', app_nil_r' in Hb. }
  unfold _parse_json_response.
  by rewrite strip_fences_json, strip_fences_plain, Hbare.
Qed.

Lemma error_dict_has_no_field (d : gmap string string) (k : string) :
  dom d ⊆ {[ "error"; "raw_response" ]} →
  k ≠ "error" → k ≠ "raw_response" →
  unusable (dict_get (as_document d) k).
Proof.
  intros Hdom H1 H2. left. unfold dict_get, as_document.
  rewrite lookup_fmap.
  assert (d !! k = None) as ->; [|done].
  apply not_elem_of_dom. intros Hin. apply Hdom in Hin.
  apply elem_of_union in Hin as [Hin|Hin];
    apply elem_of_singleton in Hin; congruence.
Qed.

Lemma extract_info_error_keys loaded generated d :
  extract_info (image := image) json_loads loaded generated = Error_dict d →
  dom d ⊆ {[ "error"; "raw_response" ]} ∧ is_Some (d !! "error").
Proof.
  unfold extract_info. destruct loaded as [img|e].
  - destruct generated as [text|e].
    + destruct (_parse_json_response json_loads text) as [r|e] eqn:Hparse.
      * intros ->. unfold _parse_json_response in Hparse.
        repeat case_match; simplify_eq;
          destruct (failure_dict_lookup (strip_fences text))
            as (-> & _ & ->); by eauto.
      * intros [= <-]. rewrite dom_singleton_L, lookup_singleton_eq.
        split; [set_solver|by eauto].
    + intros [= <-]. rewrite dom_singleton_L, lookup_singleton_eq.
      split; [set_solver|by eauto].
  - intros [= <-]. rewrite dom_singleton_L, lookup_singleton_eq.
    split; [set_solver|by eauto].
Qed.

(** X16.  Whenever an extraction ends in an error dict, because the file
    could not be loaded, the call of the model failed or its answer could
    not be parsed, the dict has the key "error", and used as a document
    it fills no field of any part of the form and raises nothing: the
    run goes on with the other document. *)
Theorem failed_extraction_fills_no_field
    (path_suffix : string) (convert_from_path : py_result (list image))
    (image_open : py_result image) (generated : py_result string)
    (d : gmap string string) (pg : gmap string element) (st : run_state) :
  extract_info json_loads
    (_load_image path_suffix convert_from_path image_open) generated
  = Error_dict d →
  is_Some (d !! "error")
  ∧ (fill_part1 pg (as_document d);; fill_part2 pg (as_document d)) st
    = Some (Return tt, st)
  ∧ fill_part3 pg (as_document d) st = Some (Return tt, st).
Proof.
  intros [Hdom Herr]%extract_info_error_keys. split; [done|].
  assert (∀ keys, Forall (λ k, k ≠ "error" ∧ k ≠ "raw_response") keys →
          ∀ k, k ∈ keys → unusable (dict_get (as_document d) k)) as Hkeys.
  { intros keys Hall k Hk. rewrite Forall_forall in Hall.
    destruct (Hall k Hk). by apply error_dict_has_no_field. }
  split.
  - rewrite seq_skip.
    + apply fill_part2_skips, Hkeys. by repeat constructor.
    + apply fill_part1_skips, Hkeys. by repeat constructor.
  - apply fill_part3_skips, Hkeys. by repeat constructor.
Qed.

End Answers.

(** The theorem at a fenced empty object. *)
Lemma fenced_answer_is_read_as_bare_witness :
  _parse_json_response loads_empty_object
    ("" +:+ "```json" +:+ newline +:+ "{}" +:+ newline +:+ "```" +:+ "")
  = _parse_json_response loads_empty_object "{}"
  ∧ _parse_json_response loads_empty_object
      ("" +:+ "```" +:+ newline +:+ "{}" +:+ newline +:+ "```" +:+ "")
    = _parse_json_response loads_empty_object "{}".
Proof.
  apply (fenced_answer_is_read_as_bare loads_empty_object
           "" newline "{}" newline ""); first [reflexivity | discriminate].
Defined.

(** The theorem at a PDF whose conversion fails. *)
Lemma failed_extraction_fills_no_field_witness :
  let d : gmap string string :=
    {[ "error" := "File processing failed: PDF conversion failed: no poppler" ]} in
  is_Some (d !! "error")
  ∧ (fill_part1 sample_page (as_document d);;
     fill_part2 sample_page (as_document d)) empty_lists
    = Some (Return tt, empty_lists)
  ∧ fill_part3 sample_page (as_document d) empty_lists
    = Some (Return tt, empty_lists).
Proof.
  cbv zeta.
  apply (failed_extraction_fills_no_field (image := unit) loads_empty_object
           ".PDF" (Raise "no poppler") (Return tt) (Return "{}")).
  reflexivity.
Defined.

(** ** The web service *)

Section Service.

Lemma upload_with_key slot message content_type saved extracted s :
  truthy (Main.api_key s) = true →
  let '(a, s') := Main.upload slot message content_type saved extracted s in
  Main.status_code a ≠ 400 ∧ Main.api_key s' = Main.api_key s.
Proof.
  intros Hkey. unfold Main.upload. rewrite Hkey. cbn [negb].
  by repeat case_match; simplify_eq.
Qed.

Lemma handle_with_key r s a s' :
  Main.well_formed r → truthy (Main.api_key s) = true →
  Main.handle r s = Some (a, s') →
  Main.status_code a ≠ 400 ∧ truthy (Main.api_key s') = true.
Proof.
  intros Hwf Hkey.
  destruct r as [key| |ct saved ex|ct saved ex| |fuel b|unlinked];
    cbn [Main.handle].
  - intros [= <- <-]. split; [done|]. by destruct key.
  - by intros [= <- <-].
  - intros [= Hup].
    pose proof (upload_with_key "passport" "Passport uploaded successfully"
                  ct saved ex s Hkey) as Hu.
    unfold Main.upload_passport in Hup. rewrite Hup in Hu.
    destruct Hu as [? ->]. done.
  - intros [= Hup].
    pose proof (upload_with_key "g28" "G-28 form uploaded successfully"
                  ct saved ex s Hkey) as Hu.
    unfold Main.upload_g28 in Hup. rewrite Hup in Hu.
    destruct Hu as [? ->]. done.
  - by intros [= <- <-].
  - unfold Main.fill_form. repeat case_match; by intros [= <- <-].
  - unfold Main.clear_data. destruct unlinked; by intros [= <- <-].
Qed.

(** X17.  No request unsets the API key: in a session that starts with a
    key and sets no empty one, every request finds the key, so no upload
    is refused with status 400, and the key is still there at the end,
    also after [clear_data]. *)
Theorem api_key_once_set_stays_set
    (rs : list Main.request) (s s' : Main.state) (answers : list Main.reply) :
  Forall Main.well_formed rs → truthy (Main.api_key s) = true →
  Main.serve rs s = Some (answers, s') →
  truthy (Main.api_key s') = true
  ∧ Forall (λ a, Main.status_code a ≠ 400) answers.
Proof.
  revert s answers. induction rs as [|r rs IH]; intros s answers Hwf Hkey.
  - by intros [= <- <-].
  - apply Forall_cons in Hwf as [Hr Hwf]. cbn [Main.serve].
    destruct (Main.handle r s) as [[a s1]|] eqn:Hh; [|done].
    destruct (handle_with_key _ _ _ _ Hr Hkey Hh) as [Ha Hkey1].
    cbn [mbind option_bind].
    destruct (Main.serve rs s1) as [[answers' s2]|] eqn:Hs; [|done].
    intros [= <- <-]. destruct (IH _ _ Hwf Hkey1 Hs) as [? ?].
    split; [done|]. by constructor.
Qed.

(** X18.  A request that is not answered with status 200 leaves the key
    and the extracted data as they were, except [clear_data], which has
    reset the data before it fails.  Status 400 is answered only to an
    upload without a key; an upload of a content type that is not
    allowed is answered with status 500, and so is [fill_form] before any
    upload. *)
Theorem failed_requests_change_nothing
    (r : Main.request) (s s' : Main.state) (a : Main.reply) :
  Main.handle r s = Some (a, s') →
  (Main.status_code a = 200 ∨ Main.status_code a = 400
   ∨ Main.status_code a = 500)
  ∧ (Main.status_code a ≠ 200 →
     s' = s
     ∨ ∃ unlinked, r = Main.Clear_data unlinked
         ∧ s' = {| Main.api_key := Main.api_key s;
                   Main.extracted_data := ∅ |})
  ∧ (Main.status_code a = 400 →
     truthy (Main.api_key s) = false
     ∧ Main.body a = Main.Detail "Please set the API key first")
  ∧ (∀ content_type saved extracted,
       (r = Main.Upload_passport content_type saved extracted
        ∨ r = Main.Upload_g28 content_type saved extracted) →
       truthy (Main.api_key s) = true →
       content_type ∉ Main.allowed_types → Main.status_code a = 500)
  ∧ (∀ fuel b, r = Main.Fill_form fuel b → Main.extracted_data s = ∅ →
       Main.status_code a = 500).
Proof.
  destruct r as [key| |ct saved ex|ct saved ex| |fuel b|unlinked];
    cbn [Main.handle];
    unfold Main.set_api_key, Main.check_api_key, Main.upload_passport,
      Main.upload_g28, Main.upload, Main.get_extracted_data, Main.fill_form,
      Main.clear_data.
  all: repeat case_match; intros ?; simplify_eq; cbn.
  all: repeat match goal with
       | H : negb _ = true |- _ => apply negb_true_iff in H
       | H : negb _ = false |- _ => apply negb_false_iff in H
       | H : bool_decide _ = true |- _ => apply bool_decide_eq_true in H
       | H : bool_decide _ = false |- _ => apply bool_decide_eq_false in H
       end.
  all: repeat split; try done; try (by left); try (by eauto);
    try (by right; left); try (by right; right).
  all: try (intros; simplify_eq; done).
  all: try (intros ??? [?|?] ??; simplify_eq; congruence).
Qed.

Lemma handle_keeps slot r s a s' :
  keeps slot r → Main.handle r s = Some (a, s') →
  Main.extracted_data s' !! slot = Main.extracted_data s !! slot.
Proof.
  destruct r as [key| |ct saved ex|ct saved ex| |fuel b|unlinked];
    cbn [Main.handle keeps slot_of];
    unfold Main.set_api_key, Main.check_api_key, Main.upload_passport,
      Main.upload_g28, Main.upload, Main.get_extracted_data, Main.fill_form,
      Main.clear_data; intros Hk.
  all: repeat case_match; intros ?; simplify_eq; cbn; try done.
  all: apply lookup_insert_ne; congruence.
Qed.

Lemma serve_keeps slot rs s answers s' :
  Forall (keeps slot) rs → Main.serve rs s = Some (answers, s') →
  Main.extracted_data s' !! slot = Main.extracted_data s !! slot.
Proof.
  revert s answers. induction rs as [|r rs IH]; intros s answers Hk.
  - by intros [= <- <-].
  - apply Forall_cons in Hk as [Hr Hk]. cbn [Main.serve].
    destruct (Main.handle r s) as [[a s1]|] eqn:Hh; [|done].
    cbn [mbind option_bind].
    destruct (Main.serve rs s1) as [[answers' s2]|] eqn:Hs; [|done].
    intros [= <- <-]. rewrite (IH _ _ Hk Hs). by eapply handle_keeps.
Qed.

(** X19.  The data a successful upload answers with is what the service
    holds for that document from then on: later requests other than
    an upload to the same slot and [clear_data], whether they succeed or
    fail, leave it in place, and [get_extracted_data] shows it. *)
Theorem uploaded_data_stays_until_replaced_or_cleared
    (slot : string) (r : Main.request) (rs : list Main.request)
    (s s1 s2 : Main.state) (a : Main.reply) (answers : list Main.reply) :
  slot_of r = Some slot →
  Main.handle r s = Some (a, s1) → Main.status_code a = 200 →
  Forall (keeps slot) rs → Main.serve rs s1 = Some (answers, s2) →
  ∃ message data shown,
    Main.body a = Main.Uploaded message data
    ∧ Main.get_extracted_data s2
      = ({| Main.status_code := 200; Main.body := Main.Extracted shown |}, s2)
    ∧ shown !! slot = Some data.
Proof.
  intros Hslot Hh Hok Hk Hs.
  assert (∃ message data, Main.body a = Main.Uploaded message data
                          ∧ Main.extracted_data s1 !! slot = Some data)
    as (message & data & Hbody & Hdata).
  { destruct r as [key| |ct saved ex|ct saved ex| |fuel b|unlinked];
      try done; injection Hslot as <-; cbn [Main.handle] in Hh;
      unfold Main.upload_passport, Main.upload_g28, Main.upload in Hh;
      repeat case_match; simplify_eq; try done;
      eexists _, _; (split; [done|]); cbn; apply lookup_insert_eq. }
  exists message, data, (Main.extracted_data s2).
  split; [done|]. split; [done|].
  by rewrite (serve_keeps _ _ _ _ _ Hk Hs).
Qed.

Lemma fill_form_filled_within names fuel b passport_data g28_data r :
  appends names (fill_form_body fuel b passport_data g28_data) →
  fill_form fuel b passport_data g28_data = Some (Return r) →
  sublist (filled_fields r) names.
Proof.
  intros Happ. unfold fill_form. destruct (launch b); [|done].
  destruct (fill_form_body fuel b passport_data g28_data empty_lists)
    as [[res st]|] eqn:Hbody; [|done].
  destruct (Happ _ _ _ Hbody) as (l & Hl & Hsub).
  cbn in Hl. subst l.
  destruct res as [[]|e]; by intros [= <-].
Qed.

Lemma appends_skip (m : exec unit) :
  (∀ st, m st = Some (Return tt, st)) → appends [] m.
Proof.
  intros Hm. apply appends_unchanged. intros st r st'. rewrite Hm.
  by intros [= _ ->].
Qed.

Lemma fill_form_body_without_g28 fuel b passport_data g28_data :
  (∀ k, k ∈ g28_keys → unusable (dict_get g28_data k)) →
  appends part3_fields (fill_form_body fuel b passport_data g28_data).
Proof.
  intros Hg. unfold fill_form_body, fill_stage.
  apply (appends_weaken (part3_fields ++ [])); [by rewrite app_nil_r|].
  apply (appends_bind part3_fields []);
    [|intros ?; apply appends_screenshot_step].
  apply (appends_bind [] part3_fields); [apply appends_call|intros ?].
  apply (appends_bind [] part3_fields); [apply appends_call|intros ?].
  apply (appends_bind [] part3_fields);
    [apply appends_skip; intros st; by apply fill_part1_skips|intros ?].
  apply (appends_bind [] part3_fields);
    [apply appends_skip; intros st; by apply fill_part2_skips|intros ?].
  apply fill_part3_appends.
Qed.

Lemma fill_form_body_without_passport fuel b passport_data g28_data :
  (∀ k, k ∈ passport_keys → unusable (dict_get passport_data k)) →
  appends (part1_fields ++ part2_fields)
    (fill_form_body fuel b passport_data g28_data).
Proof.
  intros Hp. unfold fill_form_body, fill_stage.
  apply (appends_weaken ((part1_fields ++ part2_fields) ++ []));
    [by rewrite app_nil_r|].
  apply (appends_bind (part1_fields ++ part2_fields) []);
    [|intros ?; apply appends_screenshot_step].
  apply (appends_bind [] (part1_fields ++ part2_fields));
    [apply appends_call|intros ?].
  apply (appends_bind [] (part1_fields ++ part2_fields));
    [apply appends_call|intros ?].
  apply (appends_bind part1_fields part2_fields);
    [apply fill_part1_appends|intros ?].
  apply (appends_weaken (part2_fields ++ [])); [by rewrite app_nil_r|].
  apply (appends_bind part2_fields []);
    [apply fill_part2_appends|intros ?].
  apply appends_skip; intros st; by apply fill_part3_skips.
Qed.

(** X20.  The handler [fill_form] changes neither the key nor the
    extracted data, and each document reaches only its own parts of the
    form: when the G-28 slot is missing, or holds a document with no
    usable value, as after a failed extraction, the fields a successful
    run reports are passport fields only; when the passport slot is, they
    are attorney and client fields only. *)
Theorem fill_form_uses_each_document_for_its_parts
    (fuel : nat) (b : browser) (s s' : Main.state) (a : Main.reply) :
  Main.fill_form fuel b s = Some (a, s') →
  s' = s
  ∧ ∀ result, Main.body a = Main.Filled result →
      (nothing_usable g28_keys (Main.extracted_data s !! "g28") →
       sublist (filled_fields result) part3_fields)
      ∧ (nothing_usable passport_keys (Main.extracted_data s !! "passport") →
         sublist (filled_fields result) (part1_fields ++ part2_fields)).
Proof.
  unfold Main.fill_form. case_match; [by intros [= <- <-]|].
  destruct (fill_form fuel b _ _) as [[r|e]|] eqn:Hrun; [| |done];
    intros [= <- <-]; (split; [done|]); intros result [= <-].
  split; intros Hn.
  - eapply fill_form_filled_within; [|exact Hrun].
    by apply fill_form_body_without_g28.
  - eapply fill_form_filled_within; [|exact Hrun].
    by apply fill_form_body_without_passport.
Qed.

End Service.

(** The theorem at a session with a key, in which an upload of a content
    type that is not allowed fails, the key is replaced and a G-28 form is
    uploaded. *)
Lemma api_key_once_set_stays_set_witness :
  ∃ answers s',
    Main.serve sample_requests with_key = Some (answers, s')
    ∧ truthy (Main.api_key s') = true
    ∧ Forall (λ a, Main.status_code a ≠ 400) answers.
Proof.
  destruct (Main.serve sample_requests with_key) as [[answers s']|] eqn:Hs;
    [|by vm_compute in Hs].
  exists answers, s'. split; [done|].
  apply (api_key_once_set_stays_set sample_requests with_key s' answers);
    [by repeat constructor|done|exact Hs].
Defined.

(** The theorem at an upload of the sample passport, followed by the
    requests of the session above. *)
Lemma uploaded_data_stays_until_replaced_or_cleared_witness :
  ∃ a s1 answers s2 message shown,
    Main.handle (Main.Upload_passport "image/png" Ok (Return sample_passport))
      with_key = Some (a, s1)
    ∧ Main.serve sample_requests s1 = Some (answers, s2)
    ∧ Main.body a = Main.Uploaded message sample_passport
    ∧ Main.get_extracted_data s2
      = ({| Main.status_code := 200; Main.body := Main.Extracted shown |}, s2)
    ∧ shown !! "passport" = Some sample_passport.
Proof.
  destruct (Main.handle
              (Main.Upload_passport "image/png" Ok (Return sample_passport))
              with_key) as [[a s1]|] eqn:Hh; [|by vm_compute in Hh].
  destruct (Main.serve sample_requests s1) as [[answers s2]|] eqn:Hs;
    [|injection Hh as <- <-; by vm_compute in Hs].
  destruct (uploaded_data_stays_until_replaced_or_cleared "passport"
              (Main.Upload_passport "image/png" Ok (Return sample_passport))
              sample_requests with_key s1 s2 a answers eq_refl Hh)
    as (message & data & shown & Hbody & Hget & Hshown);
    [by injection Hh as <- <-|by repeat constructor|exact Hs|].
  assert (data = sample_passport) as ->.
  { injection Hh as <- <-. by injection Hbody as <- <-. }
  by exists a, s1, answers, s2, message, shown.
Defined.

(** The theorem at the service that holds the sample passport only. *)
Lemma fill_form_uses_each_document_for_its_parts_witness :
  ∃ result,
    Main.fill_form 3000 sample_browser passport_only
    = Some ({| Main.status_code := 200; Main.body := Main.Filled result |},
            passport_only)
    ∧ sublist (filled_fields result) part3_fields.
Proof.
  destruct (Main.fill_form 3000 sample_browser passport_only)
    as [[a s']|] eqn:Hrun; [|by vm_compute in Hrun].
  destruct (fill_form_uses_each_document_for_its_parts _ _ _ _ _ Hrun)
    as [-> Hparts].
  assert (∃ result, a = {| Main.status_code := 200;
                           Main.body := Main.Filled result |}) as [result ->].
  { vm_compute in Hrun. injection Hrun as <-. by eexists. }
  exists result. split; [done|].
  apply (Hparts result eq_refl). intros k _. by left.
Defined.

(** The theorem at an upload of a plain text file to the service with a
    key. *)
Lemma failed_requests_change_nothing_witness :
  ∃ a,
    Main.handle (Main.Upload_passport "text/plain" Ok (Return sample_passport))
      with_key = Some (a, with_key)
    ∧ Main.status_code a = 500.
Proof.
  destruct (Main.handle
              (Main.Upload_passport "text/plain" Ok (Return sample_passport))
              with_key) as [[a s']|] eqn:Hh; [|by vm_compute in Hh].
  destruct (failed_requests_change_nothing _ _ _ _ Hh)
    as (_ & Hsame & _ & Htype & _).
  assert (Main.status_code a = 500) as Ha.
  { apply (Htype "text/plain" Ok (Return sample_passport));
      [by left|done|]. apply (bool_decide_unpack _). by vm_compute. }
  exists a. split; [|done].
  destruct Hsame as [->|(unlinked & [=] & _)]; [by rewrite Ha|done].
Defined.
